(** * Slack MCP server: the API client layer

    A shallow embedding of the client layer of the Slack MCP server
    (error classes and [mapSlackError], the pagination helpers, credential
    resolution, the request dispatcher and the entity operations built on
    it), followed by the properties of that layer.

    Conventions of the embedding.
    - A JavaScript [number] is [NaN], an infinity or an integer [Num z];
      fractions are outside the model.  Where the code computes a number
      from text ([parseInt]) the result is rounded to the nearest double,
      as the engine does.
    - Strings that the code only compares, concatenates or tests for
      emptiness are [string]s.  The content of an uploaded file, whose UTF-8
      length is taken, is a sequence of UTF-16 code units.
    - [x?: T] is [option T]; [undefined] is [None].
    - An [async] method is a computation in the monad [Client.M], which
      records the HTTP requests issued, in order, and ends in a value or in a
      thrown exception. *)

From Stdlib Require Import ZArith List String Ascii Bool Lia.
From Stdlib Require Import DecimalString DecimalN DecimalPos.
Import ListNotations.

Set Warnings "-register-all".

Local Open Scope list_scope.
Local Open Scope string_scope.
Local Open Scope Z_scope.

(* ===================================================================== *)
(** ** JavaScript values and built-ins used by the client *)
(* ===================================================================== *)

Module Js.

Inductive number : Type :=
| NaN
| Num (z : Z)
| Infinity
| NegInfinity.

(** Truthiness ([ToBoolean]) of the values the client tests. *)
Definition truthy_string (s : string) : bool :=
  match s with
  | EmptyString => false
  | String _ _ => true
  end.

Definition truthy_number (n : number) : bool :=
  match n with
  | NaN => false
  | Num z => negb (z =? 0)
  | Infinity | NegInfinity => true
  end.

Definition truthy_opt_string (o : option string) : bool :=
  match o with
  | Some s => truthy_string s
  | None => false
  end.

(** [a || b] for an optional string [a] and a string [b]. *)
Definition or_string (a : option string) (b : string) : string :=
  match a with
  | Some s => if truthy_string s then s else b
  | None => b
  end.

(** [a || b] where both sides may be [undefined]. *)
Definition or_opt_string (a b : option string) : option string :=
  if truthy_opt_string a then a else b.

(** [a || b] for an optional number [a] and a number [b]. *)
Definition or_number (a : option number) (b : number) : number :=
  match a with
  | Some n => if truthy_number n then n else b
  | None => b
  end.

(** [a ?? b] *)
Definition nullish {A : Type} (a : option A) (b : A) : A :=
  match a with
  | Some x => x
  | None => b
  end.

(** *** [parseInt(s, 10)] *)

Definition digit_of (c : ascii) : option Z :=
  let n := Z.of_nat (nat_of_ascii c) in
  if (48 <=? n) && (n <=? 57) then Some (n - 48) else None.

(** White space skipped by [parseInt], among the code units below 256. *)
Definition is_white_space (c : ascii) : bool :=
  let n := Z.of_nat (nat_of_ascii c) in
  ((9 <=? n) && (n <=? 13)) || (n =? 32) || (n =? 160).

Fixpoint skip_white_space (s : string) : string :=
  match s with
  | String c r => if is_white_space c then skip_white_space r else s
  | EmptyString => s
  end.

(** The value of the longest prefix of decimal digits; [acc] is [None] as
    long as no digit was read. *)
Fixpoint parse_digits (s : string) (acc : option Z) : option Z :=
  match s with
  | String c r =>
      match digit_of c with
      | Some d => parse_digits r (Some (10 * nullish acc 0 + d))
      | None => acc
      end
  | EmptyString => acc
  end.

(** The Number value for the integer [v]: the double nearest to [v],
    ties going to the even significand.  Below 2^53 in magnitude an
    integer is a double; a greater one keeps its 53 leading bits, and
    becomes an infinity from 2^1024 - 2^970 on. *)
Definition round_to_double (v : Z) : number :=
  let a := Z.abs v in
  if a <? 2 ^ 53 then Num v
  else
    let e := Z.log2 a - 52 in
    let q := Z.shiftr a e in
    let r := a - Z.shiftl q e in
    let half := Z.shiftl 1 (e - 1) in
    let q' := if (half <? r) || ((r =? half) && Z.odd q) then q + 1 else q in
    let w := Z.shiftl q' e in
    if 2 ^ 1024 <=? w
    then (if v <? 0 then NegInfinity else Infinity)
    else Num (Z.sgn v * w).

(** [parseInt(s, 10)]: radix 10 is the only radix the client passes.  The
    digits read are taken as a decimal integer, which is rounded to a
    double; [-0] is not told from [0]. *)
Definition parseInt (s : string) : number :=
  let s1 := skip_white_space s in
  let '(sign, s2) :=
    match s1 with
    | String "-"%char r => (-1, r)
    | String "+"%char r => (1, r)
    | _ => (1, s1)
    end in
  match parse_digits s2 None with
  | Some v => round_to_double (sign * v)
  | None => NaN
  end.

(** *** Values passed to [JSON.stringify] and returned by [response.json()] *)

Inductive jsval : Type :=
| JUndefined
| JNull
| JBool (b : bool)
| JNum (n : number)
| JStr (s : string)
| JArr (elems : list jsval)
| JObj (props : list (string * jsval)).

Definition opt_str (o : option string) : jsval :=
  match o with Some s => JStr s | None => JUndefined end.

Definition opt_num (o : option number) : jsval :=
  match o with Some n => JNum n | None => JUndefined end.

Definition opt_bool (o : option bool) : jsval :=
  match o with Some b => JBool b | None => JUndefined end.

(** Decimal rendering of an integer-valued number. *)
Definition string_of_Z (z : Z) : string :=
  if z <? 0
  then "-" ++ NilZero.string_of_uint (N.to_uint (Z.to_N (- z)))
  else NilZero.string_of_uint (N.to_uint (Z.to_N z)).

Definition hex_digit (n : Z) : ascii :=
  ascii_of_nat (Z.to_nat (if n <? 10 then 48 + n else 87 + n)).

Definition backslash : string := String (ascii_of_nat 92) EmptyString.

Definition dquote : string := String (ascii_of_nat 34) EmptyString.

(** [QuoteJSONString], one code unit at a time. *)
Definition escape_char (c : ascii) : string :=
  let n := Z.of_nat (nat_of_ascii c) in
  if n =? 8 then backslash ++ "b"
  else if n =? 9 then backslash ++ "t"
  else if n =? 10 then backslash ++ "n"
  else if n =? 12 then backslash ++ "f"
  else if n =? 13 then backslash ++ "r"
  else if n =? 34 then backslash ++ dquote
  else if n =? 92 then backslash ++ backslash
  else if n <? 32
       then backslash ++ "u00" ++ String (hex_digit (n / 16))
                             (String (hex_digit (n mod 16)) EmptyString)
       else String c EmptyString.

Fixpoint escape (s : string) : string :=
  match s with
  | String c r => escape_char c ++ escape r
  | EmptyString => EmptyString
  end.

Definition quote (s : string) : string := dquote ++ escape s ++ dquote.

Fixpoint join (sep : string) (l : list string) : string :=
  match l with
  | [] => EmptyString
  | [x] => x
  | x :: r => x ++ sep ++ join sep r
  end.

(** [JSON.stringify(v)]: [None] is the [undefined] that [JSON.stringify]
    returns for [undefined].  A property whose value is [undefined] is left
    out of its object; an [undefined] array element is written [null]. *)
Fixpoint JSON_stringify (v : jsval) : option string :=
  match v with
  | JUndefined => None
  | JNull => Some "null"
  | JBool true => Some "true"
  | JBool false => Some "false"
  | JNum NaN | JNum Infinity | JNum NegInfinity => Some "null"
  | JNum (Num z) => Some (string_of_Z z)
  | JStr s => Some (quote s)
  | JArr elems =>
      Some ("[" ++ join ","
              (map (fun x => match JSON_stringify x with
                             | Some t => t
                             | None => "null"
                             end) elems) ++ "]")
  | JObj props =>
      Some ("{" ++ join ","
              (flat_map (fun kv => match JSON_stringify (snd kv) with
                                   | Some t => [quote (fst kv) ++ ":" ++ t]
                                   | None => []
                                   end) props) ++ "}")
  end.

(** *** [new TextEncoder().encode(s)] *)

(** A JavaScript string as its UTF-16 code units. *)
Definition utf16 : Type := list Z.

Definition is_high_surrogate (c : Z) : bool := (0xD800 <=? c) && (c <=? 0xDBFF).
Definition is_low_surrogate (c : Z) : bool := (0xDC00 <=? c) && (c <=? 0xDFFF).

(** U+FFFD, which replaces a lone surrogate. *)
Definition replacement : list Z := [0xEF; 0xBF; 0xBD].

Definition utf8_3 (c : Z) : list Z :=
  [Z.lor 0xE0 (Z.shiftr c 12);
   Z.lor 0x80 (Z.land (Z.shiftr c 6) 0x3F);
   Z.lor 0x80 (Z.land c 0x3F)].

Definition utf8_4 (c : Z) : list Z :=
  [Z.lor 0xF0 (Z.shiftr c 18);
   Z.lor 0x80 (Z.land (Z.shiftr c 12) 0x3F);
   Z.lor 0x80 (Z.land (Z.shiftr c 6) 0x3F);
   Z.lor 0x80 (Z.land c 0x3F)].

Fixpoint TextEncoder_encode (s : utf16) : list Z :=
  match s with
  | [] => []
  | c :: r =>
      if c <? 0x80 then c :: TextEncoder_encode r
      else if c <? 0x800
      then Z.lor 0xC0 (Z.shiftr c 6) :: Z.lor 0x80 (Z.land c 0x3F)
             :: TextEncoder_encode r
      else if is_high_surrogate c
      then match r with
           | d :: r' =>
               if is_low_surrogate d
               then (utf8_4 (0x10000 + Z.shiftl (c - 0xD800) 10 + (d - 0xDC00))
                       ++ TextEncoder_encode r')%list
               else (replacement ++ TextEncoder_encode r)%list
           | [] => replacement
           end
      else if is_low_surrogate c
      then (replacement ++ TextEncoder_encode r)%list
      else (utf8_3 c ++ TextEncoder_encode r)%list
  end.

(** The code units of a string of ASCII characters. *)
Fixpoint utf16_of_ascii (s : string) : utf16 :=
  match s with
  | String c r => Z.of_nat (nat_of_ascii c) :: utf16_of_ascii r
  | EmptyString => []
  end.

End Js.

(* ===================================================================== *)
(** ** utils/errors.ts *)
(* ===================================================================== *)

Module Errors.
Import Js.

(** The class of an error object, which [instanceof] observes. *)
Inductive ErrorClass : Type :=
| SlackApiErrorClass
| RateLimitErrorClass
| AuthenticationErrorClass
| NotFoundErrorClass
| PermissionErrorClass.

Record SlackApiError : Type := mkSlackApiError {
  class : ErrorClass;
  name : string;
  message : string;
  code : string;
  statusCode : option Z;
  retryable : bool;
  retryAfterSeconds : option number
}.

(** [new SlackApiError(message, code?, statusCode?, retryable = false)] *)
Definition new_SlackApiError (message : string) (code : option string)
    (statusCode : option Z) (retryable : option bool) : SlackApiError :=
  {| class := SlackApiErrorClass;
     name := "SlackApiError";
     message := message;
     code := or_string code "SLACK_ERROR";
     statusCode := statusCode;
     retryable := nullish retryable false;
     retryAfterSeconds := None |}.

(** A subclass constructor runs [super(...)] and then overwrites [name]. *)
Definition subclass (c : ErrorClass) (n : string) (base : SlackApiError)
    : SlackApiError :=
  {| class := c;
     name := n;
     message := message base;
     code := code base;
     statusCode := statusCode base;
     retryable := retryable base;
     retryAfterSeconds := retryAfterSeconds base |}.

Definition new_RateLimitError (message : string) (retryAfterSeconds : number)
    : SlackApiError :=
  let base := subclass RateLimitErrorClass "RateLimitError"
                (new_SlackApiError message (Some "RATE_LIMITED") (Some 429)
                   (Some true)) in
  {| class := class base;
     name := name base;
     message := Errors.message base;
     code := code base;
     statusCode := statusCode base;
     retryable := retryable base;
     retryAfterSeconds := Some retryAfterSeconds |}.

Definition new_AuthenticationError (message : string) : SlackApiError :=
  subclass AuthenticationErrorClass "AuthenticationError"
    (new_SlackApiError message (Some "AUTHENTICATION_FAILED") (Some 401)
       (Some false)).

Definition new_NotFoundError (entityType id : string) : SlackApiError :=
  subclass NotFoundErrorClass "NotFoundError"
    (new_SlackApiError (entityType ++ " with ID '" ++ id ++ "' not found")
       (Some "NOT_FOUND") (Some 404) (Some false)).

Definition new_PermissionError (message : string) : SlackApiError :=
  subclass PermissionErrorClass "PermissionError"
    (new_SlackApiError message (Some "MISSING_SCOPE") (Some 403) (Some false)).

Definition auth_codes : list string :=
  ["invalid_auth"; "not_authed"; "account_inactive"; "token_revoked";
   "token_expired"].

Definition permission_codes : list string :=
  ["missing_scope"; "not_allowed_token_type"; "ekm_access_denied";
   "restricted_action"].

Definition not_found_codes : list string :=
  ["channel_not_found"; "user_not_found"; "file_not_found";
   "message_not_found"].

(** A [case] label matches by strict equality. *)
Definition case_of (labels : list string) (x : string) : bool :=
  existsb (String.eqb x) labels.

(** [mapSlackError(errorCode, message?)] *)
Definition mapSlackError (errorCode : string) (message : option string)
    : SlackApiError :=
  let errorMessage := or_string message ("Slack API error: " ++ errorCode) in
  if case_of auth_codes errorCode then new_AuthenticationError errorMessage
  else if case_of permission_codes errorCode
       then new_PermissionError errorMessage
  else if case_of not_found_codes errorCode
       then new_NotFoundError "resource" errorCode
  else if String.eqb errorCode "ratelimited"
       then new_RateLimitError errorMessage (Num 60)
  else new_SlackApiError errorMessage (Some errorCode) None None.

End Errors.

(* ===================================================================== *)
(** ** utils/pagination.ts and the pagination types of types/entities.ts *)
(* ===================================================================== *)

Module Pagination.
Import Js.

Record PaginationParams : Type := mkPaginationParams {
  limit : option number;
  cursor : option string
}.

Record PaginatedResponse (T : Type) : Type := mkPaginatedResponse {
  items : list T;
  count : Z;
  hasMore : bool;
  nextCursor : option string
}.

Arguments mkPaginatedResponse {T}.
Arguments items {T}.
Arguments count {T}.
Arguments hasMore {T}.
Arguments nextCursor {T}.

(** The [options] argument of [createPaginatedResponse]. *)
Module Options.
Record t : Type := mk {
  hasMore : option bool;
  nextCursor : option string
}.
(** [{}] *)
Definition empty : t := {| hasMore := None; nextCursor := None |}.
End Options.

Definition emptyPaginatedResponse {T : Type} : PaginatedResponse T :=
  {| items := []; count := 0; hasMore := false; nextCursor := None |}.

(** [createPaginatedResponse(items, options = {})] *)
Definition createPaginatedResponse {T : Type} (items : list T)
    (options : option Options.t) : PaginatedResponse T :=
  let options := nullish options Options.empty in
  {| items := items;
     count := Z.of_nat (List.length items);
     hasMore := nullish (Options.hasMore options) false;
     nextCursor := Options.nextCursor options |}.

End Pagination.

(* ===================================================================== *)
(** ** types/env.ts (credentials) and client.ts *)
(* ===================================================================== *)

Module Client.
Import Js Errors Pagination.

(** *** Credentials *)

Record TenantCredentials : Type := mkTenantCredentials {
  botToken : option string;
  userToken : option string
}.

(** *** Exceptions, results and the monad of [async] methods *)

Inductive Exn : Type :=
| SlackError (e : SlackApiError)
    (** a [SlackApiError] or an instance of one of its subclasses *)
| PlainError (name message : string)
    (** any other [Error]: the [Error] of [validateCredentials], the
        [TypeError] of a rejected [fetch], the [SyntaxError] of
        [response.json()] *).

(** [error.message] *)
Definition exn_message (e : Exn) : string :=
  match e with
  | SlackError e => Errors.message e
  | PlainError _ m => m
  end.

Inductive Result (A : Type) : Type :=
| Ok (a : A)
| Throw (e : Exn).

Arguments Ok {A}.
Arguments Throw {A}.

Inductive Body : Type :=
| NoBody
| BodyString (text : string)
| BodyUtf16 (content : utf16).

Record HttpRequest : Type := mkHttpRequest {
  url : string;
  method : string;
  headers : list (string * string);
  body : Body
}.

(** The outcome of [response.json()]: the decoded body, seen at the type
    [T] the caller casts it to, or the [SyntaxError] of a body that is not
    JSON. *)
Inductive JsonOutcome (T : Type) : Type :=
| JsonValue (data : T)
| JsonSyntaxError (message : string).

Arguments JsonValue {T}.
Arguments JsonSyntaxError {T}.

(** What the client reads of a [Response]: [status], [headers.get] and
    [json()]. *)
Record HttpResponse (T : Type) : Type := mkHttpResponse {
  status : Z;
  headers_get : string -> option string;
  json : JsonOutcome T
}.

Arguments mkHttpResponse {T}.
Arguments status {T}.
Arguments headers_get {T}.
Arguments json {T}.

Inductive FetchResult (T : Type) : Type :=
| Rejected (name message : string)
| Responded (response : HttpResponse T).

Arguments Rejected {T}.
Arguments Responded {T}.

(** The remote side of one call: what [fetch] answers to a request. *)
Definition Net (T : Type) : Type := HttpRequest -> FetchResult T.

(** The requests issued, oldest first, and the outcome. *)
Definition M (A : Type) : Type := (list HttpRequest * Result A)%type.

Definition ret {A : Type} (a : A) : M A := ([], Ok a).

Definition throw {A : Type} (e : Exn) : M A := ([], Throw e).

Definition bind {A B : Type} (m : M A) (k : A -> M B) : M B :=
  match m with
  | (log, Ok a) => let '(log', r) := k a in ((log ++ log')%list, r)
  | (log, Throw e) => (log, Throw e)
  end.

Notation "x <- m ;; k" := (bind m (fun x => k))
  (at level 61, m at next level, right associativity).

(** [try { m } catch (error) { h error }] *)
Definition try_catch {A : Type} (m : M A) (h : Exn -> M A) : M A :=
  match m with
  | (log, Ok a) => (log, Ok a)
  | (log, Throw e) => let '(log', r) := h e in ((log ++ log')%list, r)
  end.

Definition lift {A : Type} (r : Result A) : M A := ([], r).

(** [await fetch(url, init)] *)
Definition fetch {T : Type} (net : Net T) (req : HttpRequest)
    : M (HttpResponse T) :=
  ([req], match net req with
          | Rejected n m => Throw (PlainError n m)
          | Responded r => Ok r
          end).

(** [await response.json()] *)
Definition response_json {T : Type} (response : HttpResponse T) : M T :=
  match json response with
  | JsonValue data => ret data
  | JsonSyntaxError m => throw (PlainError "SyntaxError" m)
  end.

Definition requests {A : Type} (m : M A) : list HttpRequest := fst m.
Definition outcome {A : Type} (m : M A) : Result A := snd m.

(** *** Response envelopes *)

Record ResponseMetadata : Type := mkResponseMetadata {
  next_cursor : option string;
  messages_md : option (list string);
  warnings : option (list string)
}.

Record SlackApiResponse : Type := mkSlackApiResponse {
  ok : bool;
  error : option string;
  warning : option string;
  response_metadata : option ResponseMetadata
}.

(** [T extends SlackApiResponse] *)
Class Extends (T : Type) : Type := envelope : T -> SlackApiResponse.

#[global] Instance SlackApiResponse_Extends : Extends SlackApiResponse :=
  fun r => r.

(** [result.response_metadata?.next_cursor] *)
Definition next_cursor_of (r : SlackApiResponse) : option string :=
  match response_metadata r with
  | Some md => next_cursor md
  | None => None
  end.

(** Entities are passed on as the remote sent them. *)
Definition Conversation : Type := jsval.
Definition Message : Type := jsval.
Definition User : Type := jsval.
Definition SlackFile : Type := jsval.
Definition ScheduledMessage : Type := jsval.
Definition StarredItem : Type := jsval.
Definition ReactionItem : Type := jsval.
Definition UserGroup : Type := jsval.
Definition SearchResult : Type := jsval.
Definition PinnedItem : Type := jsval.
Definition Reaction : Type := jsval.
Definition Reminder : Type := jsval.
Definition Bookmark : Type := jsval.
Definition Team : Type := jsval.
Definition Block : Type := jsval.
Definition Attachment : Type := jsval.
Definition MessageMetadata : Type := jsval.

Record Paging : Type := mkPaging {
  paging_count : number;
  total : number;
  page : number;
  pages : number
}.

(** [a < b] on numbers. *)
Definition lt_number (a b : number) : bool :=
  match a, b with
  | Num x, Num y => x <? y
  | NegInfinity, (Num _ | Infinity) => true
  | Num _, Infinity => true
  | _, _ => false
  end.

Record AuthTestResponse : Type := mkAuthTestResponse {
  auth_base : SlackApiResponse;
  auth_url : string;
  team : string;
  user : string;
  team_id : string;
  user_id : string;
  bot_id : option string;
  is_enterprise_install : option bool
}.
#[global] Instance AuthTestResponse_Extends : Extends AuthTestResponse :=
  auth_base.

Record ChannelsResponse : Type := mkChannelsResponse {
  channels_base : SlackApiResponse;
  channels : list Conversation
}.
#[global] Instance ChannelsResponse_Extends : Extends ChannelsResponse :=
  channels_base.

Record ChannelResponse : Type := mkChannelResponse {
  channel_base : SlackApiResponse;
  channel : Conversation
}.
#[global] Instance ChannelResponse_Extends : Extends ChannelResponse :=
  channel_base.

Record MessagesResponse : Type := mkMessagesResponse {
  messages_base : SlackApiResponse;
  messages : list Message;
  has_more : bool
}.
#[global] Instance MessagesResponse_Extends : Extends MessagesResponse :=
  messages_base.

Record MembersResponse (T : Type) : Type := mkMembersResponse {
  members_base : SlackApiResponse;
  members : list T
}.
Arguments mkMembersResponse {T}.
Arguments members_base {T}.
Arguments members {T}.
#[global] Instance MembersResponse_Extends {T : Type}
  : Extends (MembersResponse T) := members_base.

Record ScheduledMessagesResponse : Type := mkScheduledMessagesResponse {
  scheduled_base : SlackApiResponse;
  scheduled_messages : list ScheduledMessage
}.
#[global] Instance ScheduledMessagesResponse_Extends
  : Extends ScheduledMessagesResponse := scheduled_base.

Record FilesResponse : Type := mkFilesResponse {
  files_base : SlackApiResponse;
  files : list SlackFile;
  files_paging : Paging
}.
#[global] Instance FilesResponse_Extends : Extends FilesResponse := files_base.

Record ItemsResponse (T : Type) : Type := mkItemsResponse {
  items_base : SlackApiResponse;
  resp_items : list T;
  items_paging : Paging
}.
Arguments mkItemsResponse {T}.
Arguments items_base {T}.
Arguments resp_items {T}.
Arguments items_paging {T}.
#[global] Instance ItemsResponse_Extends {T : Type}
  : Extends (ItemsResponse T) := items_base.

Record GetUploadUrlResponse : Type := mkGetUploadUrlResponse {
  upload_base : SlackApiResponse;
  upload_url : string;
  file_id : string
}.
#[global] Instance GetUploadUrlResponse_Extends
  : Extends GetUploadUrlResponse := upload_base.

Record CompleteUploadResponse : Type := mkCompleteUploadResponse {
  complete_base : SlackApiResponse;
  complete_files : list SlackFile
}.
#[global] Instance CompleteUploadResponse_Extends
  : Extends CompleteUploadResponse := complete_base.

Record UserGroupResponse : Type := mkUserGroupResponse {
  usergroup_base : SlackApiResponse;
  usergroup : UserGroup
}.
#[global] Instance UserGroupResponse_Extends : Extends UserGroupResponse :=
  usergroup_base.

Record PostMessageResponse : Type := mkPostMessageResponse {
  post_base : SlackApiResponse;
  post_channel : string;
  post_ts : string;
  post_message : Message
}.
#[global] Instance PostMessageResponse_Extends : Extends PostMessageResponse :=
  post_base.

Record UpdateMessageResponse : Type := mkUpdateMessageResponse {
  update_base : SlackApiResponse;
  update_channel : string;
  update_ts : string;
  update_text : string;
  update_message : Message
}.
#[global] Instance UpdateMessageResponse_Extends
  : Extends UpdateMessageResponse := update_base.

(** [{ text: string }] *)
Record MessageText : Type := mkMessageText { text : string }.

Record ScheduleMessageResponse : Type := mkScheduleMessageResponse {
  schedule_base : SlackApiResponse;
  schedule_channel : string;
  scheduled_message_id : string;
  schedule_post_at : number;
  schedule_message : MessageText
}.
#[global] Instance ScheduleMessageResponse_Extends
  : Extends ScheduleMessageResponse := schedule_base.

Record PermalinkResponse : Type := mkPermalinkResponse {
  permalink_base : SlackApiResponse;
  permalink_channel : string;
  permalink : string
}.
#[global] Instance PermalinkResponse_Extends : Extends PermalinkResponse :=
  permalink_base.

Record UserResponse : Type := mkUserResponse {
  user_base : SlackApiResponse;
  resp_user : User
}.
#[global] Instance UserResponse_Extends : Extends UserResponse := user_base.

(** ['active' | 'away'] *)
Inductive PresenceState : Type := active | away_state.

Record PresenceResponse : Type := mkPresenceResponse {
  presence_base : SlackApiResponse;
  resp_presence : PresenceState;
  resp_online : option bool;
  resp_auto_away : option bool;
  resp_manual_away : option bool;
  resp_connection_count : option number;
  resp_last_activity : option number
}.
#[global] Instance PresenceResponse_Extends : Extends PresenceResponse :=
  presence_base.

Record FileResponse : Type := mkFileResponse {
  file_base : SlackApiResponse;
  file : SlackFile
}.
#[global] Instance FileResponse_Extends : Extends FileResponse := file_base.

(** [Message & { reactions?: Reaction[] }] *)
Record MessageWithReactions : Type := mkMessageWithReactions {
  the_message : Message;
  reactions : option (list Reaction)
}.

Record ReactionsResponse : Type := mkReactionsResponse {
  reactions_base : SlackApiResponse;
  reactions_message : MessageWithReactions
}.
#[global] Instance ReactionsResponse_Extends : Extends ReactionsResponse :=
  reactions_base.

Record SearchMessagesResponse : Type := mkSearchMessagesResponse {
  search_messages_base : SlackApiResponse;
  found_messages : SearchResult
}.
#[global] Instance SearchMessagesResponse_Extends
  : Extends SearchMessagesResponse := search_messages_base.

Record SearchFilesResponse : Type := mkSearchFilesResponse {
  search_files_base : SlackApiResponse;
  found_files : SearchResult
}.
#[global] Instance SearchFilesResponse_Extends
  : Extends SearchFilesResponse := search_files_base.

Record SearchAllResponse : Type := mkSearchAllResponse {
  search_all_base : SlackApiResponse;
  all_messages : SearchResult;
  all_files : SearchResult
}.
#[global] Instance SearchAllResponse_Extends : Extends SearchAllResponse :=
  search_all_base.

Record PinsResponse : Type := mkPinsResponse {
  pins_base : SlackApiResponse;
  pinned_items : list PinnedItem
}.
#[global] Instance PinsResponse_Extends : Extends PinsResponse := pins_base.

Record ReminderResponse : Type := mkReminderResponse {
  reminder_base : SlackApiResponse;
  reminder : Reminder
}.
#[global] Instance ReminderResponse_Extends : Extends ReminderResponse :=
  reminder_base.

Record RemindersResponse : Type := mkRemindersResponse {
  reminders_base : SlackApiResponse;
  reminders : list Reminder
}.
#[global] Instance RemindersResponse_Extends : Extends RemindersResponse :=
  reminders_base.

Record BookmarkResponse : Type := mkBookmarkResponse {
  bookmark_base : SlackApiResponse;
  bookmark : Bookmark
}.
#[global] Instance BookmarkResponse_Extends : Extends BookmarkResponse :=
  bookmark_base.

Record BookmarksResponse : Type := mkBookmarksResponse {
  bookmarks_base : SlackApiResponse;
  bookmarks : list Bookmark
}.
#[global] Instance BookmarksResponse_Extends : Extends BookmarksResponse :=
  bookmarks_base.

Record UserGroupsResponse : Type := mkUserGroupsResponse {
  usergroups_base : SlackApiResponse;
  usergroups : list UserGroup
}.
#[global] Instance UserGroupsResponse_Extends : Extends UserGroupsResponse :=
  usergroups_base.

Record UsersResponse : Type := mkUsersResponse {
  users_base : SlackApiResponse;
  users : list string
}.
#[global] Instance UsersResponse_Extends : Extends UsersResponse := users_base.

Record TeamResponse : Type := mkTeamResponse {
  team_base : SlackApiResponse;
  resp_team : Team
}.
#[global] Instance TeamResponse_Extends : Extends TeamResponse := team_base.

Record BillableInfoResponse : Type := mkBillableInfoResponse {
  billable_base : SlackApiResponse;
  billable_info : jsval
}.
#[global] Instance BillableInfoResponse_Extends
  : Extends BillableInfoResponse := billable_base.

Record DndInfoResponse : Type := mkDndInfoResponse {
  dnd_info_base : SlackApiResponse;
  info_dnd_enabled : bool;
  info_next_dnd_start_ts : option number;
  info_next_dnd_end_ts : option number;
  info_snooze_enabled : option bool;
  info_snooze_endtime : option number;
  info_snooze_remaining : option number
}.
#[global] Instance DndInfoResponse_Extends : Extends DndInfoResponse :=
  dnd_info_base.

Record SetSnoozeResponse : Type := mkSetSnoozeResponse {
  set_snooze_base : SlackApiResponse;
  set_snooze_enabled : bool;
  set_snooze_endtime : number;
  set_snooze_remaining : number
}.
#[global] Instance SetSnoozeResponse_Extends : Extends SetSnoozeResponse :=
  set_snooze_base.

Record EndSnoozeResponse : Type := mkEndSnoozeResponse {
  end_snooze_base : SlackApiResponse;
  end_dnd_enabled : bool;
  end_next_dnd_start_ts : option number;
  end_next_dnd_end_ts : option number
}.
#[global] Instance EndSnoozeResponse_Extends : Extends EndSnoozeResponse :=
  end_snooze_base.

Record EmojiResponse : Type := mkEmojiResponse {
  emoji_base : SlackApiResponse;
  resp_emoji : jsval;
  resp_cache_ts : option string
}.
#[global] Instance EmojiResponse_Extends : Extends EmojiResponse := emoji_base.

(** *** Results built by the client *)

Record UserPresence : Type := mkUserPresence {
  presence : PresenceState;
  online : option bool;
  auto_away : option bool;
  manual_away : option bool;
  connection_count : option number;
  last_activity : option number
}.

Record DndStatus : Type := mkDndStatus {
  dnd_enabled : bool;
  next_dnd_start_ts : option number;
  next_dnd_end_ts : option number;
  snooze_enabled : option bool;
  snooze_endtime : option number;
  snooze_remaining : option number
}.

Record EmojiList : Type := mkEmojiList {
  emoji : jsval;
  cache_ts : option string
}.

(** The [ScheduledMessage] that [scheduleMessage] builds. *)
Record NewScheduledMessage : Type := mkNewScheduledMessage {
  id : string;
  channel_id : string;
  post_at : number;
  date_created : Z;
  scheduled_text : option string
}.

Record MessageAndReactions : Type := mkMessageAndReactions {
  reacted_message : MessageWithReactions;
  message_reactions : list Reaction
}.

Record MessagesAndFiles : Type := mkMessagesAndFiles {
  messages_found : SearchResult;
  files_found : SearchResult
}.

(** *** Parameter records of types/entities.ts *)

Record ConversationListParams : Type := mkConversationListParams {
  cl_limit : option number;
  cl_cursor : option string;
  cl_types : option string;
  cl_exclude_archived : option bool;
  cl_team_id : option string
}.

Record MessageHistoryParams : Type := mkMessageHistoryParams {
  mh_limit : option number;
  mh_cursor : option string;
  oldest : option string;
  latest : option string;
  inclusive : option bool;
  include_all_metadata : option bool
}.

Record FileListParams : Type := mkFileListParams {
  fl_limit : option number;
  fl_cursor : option string;
  fl_channel : option string;
  fl_user : option string;
  fl_types : option string;
  ts_from : option number;
  ts_to : option number
}.

Record PostMessageParams : Type := mkPostMessageParams {
  pm_channel : string;
  pm_text : option string;
  pm_blocks : option (list Block);
  pm_attachments : option (list Attachment);
  pm_thread_ts : option string;
  pm_reply_broadcast : option bool;
  pm_unfurl_links : option bool;
  pm_unfurl_media : option bool;
  pm_mrkdwn : option bool;
  pm_metadata : option MessageMetadata
}.

Record UpdateMessageParams : Type := mkUpdateMessageParams {
  um_channel : string;
  um_ts : string;
  um_text : option string;
  um_blocks : option (list Block);
  um_attachments : option (list Attachment);
  um_as_user : option bool;
  um_metadata : option MessageMetadata
}.

Record ScheduleMessageParams : Type := mkScheduleMessageParams {
  sm_channel : string;
  sm_post_at : number;
  sm_text : option string;
  sm_blocks : option (list Block);
  sm_attachments : option (list Attachment);
  sm_thread_ts : option string;
  sm_reply_broadcast : option bool;
  sm_unfurl_links : option bool;
  sm_unfurl_media : option bool;
  sm_metadata : option MessageMetadata
}.

Record SearchParams : Type := mkSearchParams {
  sp_limit : option number;
  sp_cursor : option string;
  query : string;
  sort : option string;
  sort_dir : option string;
  highlight : option bool
}.

(** The [updates] of [editBookmark], whose properties the caller lists in
    this order. *)
Record BookmarkUpdates : Type := mkBookmarkUpdates {
  bu_title : option string;
  bu_link : option string;
  bu_emoji : option string
}.

(** ['auto' | 'away'] *)
Inductive PresenceSetting : Type := auto_presence | away_presence.

Definition presence_string (p : PresenceSetting) : string :=
  match p with
  | auto_presence => "auto"
  | away_presence => "away"
  end.

(** ['link' | 'folder'] *)
Inductive BookmarkType : Type := link_type | folder_type.

Definition bookmark_type_string (t : BookmarkType) : string :=
  match t with
  | link_type => "link"
  | folder_type => "folder"
  end.

Definition opt_arr (o : option (list jsval)) : jsval :=
  match o with Some l => JArr l | None => JUndefined end.

Definition opt_val (o : option jsval) : jsval :=
  match o with Some v => v | None => JUndefined end.

(** [params?.field] *)
Definition opt_field {P A : Type} (params : option P) (field : P -> option A)
    : option A :=
  match params with
  | Some p => field p
  | None => None
  end.

(** The value that [testConnection] resolves to. *)
Record ConnectionStatus : Type := mkConnectionStatus {
  connected : bool;
  status_message : string;
  status_team : option string;
  status_user : option string
}.

Definition SLACK_API_BASE_URL : string := "https://slack.com/api".

(** [validateCredentials(credentials)] of types/env.ts *)
Definition validateCredentials (credentials : TenantCredentials)
    : Result unit :=
  if negb (truthy_opt_string (botToken credentials))
     && negb (truthy_opt_string (userToken credentials))
  then Throw (PlainError "Error"
         "Missing credentials. Provide X-Slack-Bot-Token or X-Slack-User-Token header.")
  else Ok tt.

(** *** class SlackClientImpl *)

Section SlackClientImpl.

(** [this.credentials] *)
Variable credentials : TenantCredentials.

Definition getAuthHeaders : Result (list (string * string)) :=
  let token := or_opt_string (botToken credentials) (userToken credentials) in
  if negb (truthy_opt_string token)
  then Throw (SlackError (new_AuthenticationError
         "No credentials provided. Include X-Slack-Bot-Token or X-Slack-User-Token header."))
  else Ok [("Authorization", "Bearer " ++ nullish token EmptyString);
           ("Content-Type", "application/json; charset=utf-8")].

Definition body_of_json (text : option string) : Body :=
  match text with
  | Some s => BodyString s
  | None => NoBody
  end.

(** [request<T>(method, params = {})]; [getAuthHeaders()] is evaluated
    while the argument of [fetch] is built, so that no request is issued
    when it throws. *)
Definition request {T : Type} `{Extends T} (method : string)
    (params : list (string * jsval)) (net : Net T) : M T :=
  let url := SLACK_API_BASE_URL ++ "/" ++ method in
  auth <- lift getAuthHeaders ;;
  response <- fetch net {| url := url;
                           method := "POST";
                           headers := auth;
                           body := body_of_json (JSON_stringify (JObj params)) |} ;;
  if status response =? 429
  then
    let retryAfter := headers_get response "Retry-After" in
    throw (SlackError (new_RateLimitError "Rate limit exceeded"
             (match retryAfter with
              | Some s => if truthy_string s then parseInt s else Num 60
              | None => Num 60
              end)))
  else
    data <- response_json response ;;
    if negb (ok (envelope data))
    then throw (SlackError
                  (mapSlackError (or_string (error (envelope data)) "unknown_error")
                     (error (envelope data))))
    else ret data.

(** **** Connection *)

Definition testConnection (net : Net AuthTestResponse) : M ConnectionStatus :=
  try_catch
    (result <- request "auth.test" [] net ;;
     ret {| connected := true;
            status_message := "Successfully connected to Slack";
            status_team := Some (team result);
            status_user := Some (user result) |})
    (fun error =>
       (* every exception of this model is an [Error] *)
       ret {| connected := false;
              status_message := exn_message error;
              status_team := None;
              status_user := None |}).

(** **** Conversations *)

Definition listConversations (params : option ConversationListParams)
    (net : Net ChannelsResponse) : M (PaginatedResponse Conversation) :=
  result <- request "conversations.list"
              [("types", JStr (or_string (opt_field params cl_types)
                                 "public_channel,private_channel"));
               ("exclude_archived",
                JBool (nullish (opt_field params cl_exclude_archived) true));
               ("limit", JNum (or_number (opt_field params cl_limit) (Num 100)));
               ("cursor", opt_str (opt_field params cl_cursor));
               ("team_id", opt_str (opt_field params cl_team_id))] net ;;
  ret (createPaginatedResponse (channels result)
         (Some {| Options.hasMore :=
                    Some (truthy_opt_string (next_cursor_of (envelope result)));
                  Options.nextCursor := next_cursor_of (envelope result) |})).

Definition getConversationInfo (channelId : string)
    (net : Net ChannelResponse) : M Conversation :=
  result <- request "conversations.info"
              [("channel", JStr channelId);
               ("include_num_members", JBool true)] net ;;
  ret (channel result).

Definition getConversationHistory (channelId : string)
    (params : option MessageHistoryParams) (net : Net MessagesResponse)
    : M (PaginatedResponse Message) :=
  result <- request "conversations.history"
              [("channel", JStr channelId);
               ("limit", JNum (or_number (opt_field params mh_limit) (Num 100)));
               ("cursor", opt_str (opt_field params mh_cursor));
               ("oldest", opt_str (opt_field params oldest));
               ("latest", opt_str (opt_field params latest));
               ("inclusive", opt_bool (opt_field params inclusive));
               ("include_all_metadata",
                opt_bool (opt_field params include_all_metadata))] net ;;
  ret (createPaginatedResponse (messages result)
         (Some {| Options.hasMore := Some (has_more result);
                  Options.nextCursor := next_cursor_of (envelope result) |})).

Definition getConversationReplies (channelId threadTs : string)
    (params : option PaginationParams) (net : Net MessagesResponse)
    : M (PaginatedResponse Message) :=
  result <- request "conversations.replies"
              [("channel", JStr channelId);
               ("ts", JStr threadTs);
               ("limit", JNum (or_number (opt_field params limit) (Num 100)));
               ("cursor", opt_str (opt_field params cursor))] net ;;
  ret (createPaginatedResponse (messages result)
         (Some {| Options.hasMore := Some (has_more result);
                  Options.nextCursor := next_cursor_of (envelope result) |})).

(** [createConversation(name, isPrivate = false)] *)
Definition createConversation (name : string) (isPrivate : option bool)
    (net : Net ChannelResponse) : M Conversation :=
  result <- request "conversations.create"
              [("name", JStr name);
               ("is_private", JBool (nullish isPrivate false))] net ;;
  ret (channel result).

Definition archiveConversation (channelId : string)
    (net : Net SlackApiResponse) : M unit :=
  _ <- request "conversations.archive" [("channel", JStr channelId)] net ;;
  ret tt.

Definition unarchiveConversation (channelId : string)
    (net : Net SlackApiResponse) : M unit :=
  _ <- request "conversations.unarchive" [("channel", JStr channelId)] net ;;
  ret tt.

Definition renameConversation (channelId name : string)
    (net : Net ChannelResponse) : M Conversation :=
  result <- request "conversations.rename"
              [("channel", JStr channelId); ("name", JStr name)] net ;;
  ret (channel result).

Definition setConversationTopic (channelId topic : string)
    (net : Net ChannelResponse) : M Conversation :=
  result <- request "conversations.setTopic"
              [("channel", JStr channelId); ("topic", JStr topic)] net ;;
  ret (channel result).

Definition setConversationPurpose (channelId purpose : string)
    (net : Net ChannelResponse) : M Conversation :=
  result <- request "conversations.setPurpose"
              [("channel", JStr channelId); ("purpose", JStr purpose)] net ;;
  ret (channel result).

Definition inviteToConversation (channelId : string) (userIds : list string)
    (net : Net ChannelResponse) : M Conversation :=
  result <- request "conversations.invite"
              [("channel", JStr channelId);
               ("users", JStr (join "," userIds))] net ;;
  ret (channel result).

Definition kickFromConversation (channelId userId : string)
    (net : Net SlackApiResponse) : M unit :=
  _ <- request "conversations.kick"
         [("channel", JStr channelId); ("user", JStr userId)] net ;;
  ret tt.

Definition joinConversation (channelId : string) (net : Net ChannelResponse)
    : M Conversation :=
  result <- request "conversations.join" [("channel", JStr channelId)] net ;;
  ret (channel result).

Definition leaveConversation (channelId : string)
    (net : Net SlackApiResponse) : M unit :=
  _ <- request "conversations.leave" [("channel", JStr channelId)] net ;;
  ret tt.

Definition getConversationMembers (channelId : string)
    (params : option PaginationParams) (net : Net (MembersResponse string))
    : M (PaginatedResponse string) :=
  result <- request "conversations.members"
              [("channel", JStr channelId);
               ("limit", JNum (or_number (opt_field params limit) (Num 100)));
               ("cursor", opt_str (opt_field params cursor))] net ;;
  ret (createPaginatedResponse (members result)
         (Some {| Options.hasMore :=
                    Some (truthy_opt_string (next_cursor_of (envelope result)));
                  Options.nextCursor := next_cursor_of (envelope result) |})).

(** **** Chat/Messages *)

Definition postMessage (params : PostMessageParams)
    (net : Net PostMessageResponse) : M Message :=
  result <- request "chat.postMessage"
              [("channel", JStr (pm_channel params));
               ("text", opt_str (pm_text params));
               ("blocks", opt_arr (pm_blocks params));
               ("attachments", opt_arr (pm_attachments params));
               ("thread_ts", opt_str (pm_thread_ts params));
               ("reply_broadcast", opt_bool (pm_reply_broadcast params));
               ("unfurl_links", opt_bool (pm_unfurl_links params));
               ("unfurl_media", opt_bool (pm_unfurl_media params));
               ("mrkdwn", opt_bool (pm_mrkdwn params));
               ("metadata", opt_val (pm_metadata params))] net ;;
  ret (post_message result).

Definition updateMessage (params : UpdateMessageParams)
    (net : Net UpdateMessageResponse) : M Message :=
  result <- request "chat.update"
              [("channel", JStr (um_channel params));
               ("ts", JStr (um_ts params));
               ("text", opt_str (um_text params));
               ("blocks", opt_arr (um_blocks params));
               ("attachments", opt_arr (um_attachments params));
               ("as_user", opt_bool (um_as_user params));
               ("metadata", opt_val (um_metadata params))] net ;;
  ret (update_message result).

Definition deleteMessage (channelId ts : string) (net : Net SlackApiResponse)
    : M unit :=
  _ <- request "chat.delete"
         [("channel", JStr channelId); ("ts", JStr ts)] net ;;
  ret tt.

(** [scheduleMessage(params)]; [now] is the value of [Date.now()] when the
    result is built. *)
Definition scheduleMessage (params : ScheduleMessageParams) (now : Z)
    (net : Net ScheduleMessageResponse) : M NewScheduledMessage :=
  result <- request "chat.scheduleMessage"
              [("channel", JStr (sm_channel params));
               ("post_at", JNum (sm_post_at params));
               ("text", opt_str (sm_text params));
               ("blocks", opt_arr (sm_blocks params));
               ("attachments", opt_arr (sm_attachments params));
               ("thread_ts", opt_str (sm_thread_ts params));
               ("reply_broadcast", opt_bool (sm_reply_broadcast params));
               ("unfurl_links", opt_bool (sm_unfurl_links params));
               ("unfurl_media", opt_bool (sm_unfurl_media params));
               ("metadata", opt_val (sm_metadata params))] net ;;
  ret {| id := scheduled_message_id result;
         channel_id := schedule_channel result;
         post_at := schedule_post_at result;
         date_created := now / 1000;
         scheduled_text := Some (text (schedule_message result)) |}.

Definition deleteScheduledMessage (channelId scheduledMessageId : string)
    (net : Net SlackApiResponse) : M unit :=
  _ <- request "chat.deleteScheduledMessage"
         [("channel", JStr channelId);
          ("scheduled_message_id", JStr scheduledMessageId)] net ;;
  ret tt.

Definition listScheduledMessages (channelId : option string)
    (params : option PaginationParams) (net : Net ScheduledMessagesResponse)
    : M (PaginatedResponse ScheduledMessage) :=
  result <- request "chat.scheduledMessages.list"
              [("channel", opt_str channelId);
               ("limit", JNum (or_number (opt_field params limit) (Num 100)));
               ("cursor", opt_str (opt_field params cursor))] net ;;
  ret (createPaginatedResponse (scheduled_messages result)
         (Some {| Options.hasMore :=
                    Some (truthy_opt_string (next_cursor_of (envelope result)));
                  Options.nextCursor := next_cursor_of (envelope result) |})).

Definition getPermalink (channelId messageTs : string)
    (net : Net PermalinkResponse) : M string :=
  result <- request "chat.getPermalink"
              [("channel", JStr channelId);
               ("message_ts", JStr messageTs)] net ;;
  ret (permalink result).

(** **** Users *)

Definition listUsers (params : option PaginationParams)
    (net : Net (MembersResponse User)) : M (PaginatedResponse User) :=
  result <- request "users.list"
              [("limit", JNum (or_number (opt_field params limit) (Num 100)));
               ("cursor", opt_str (opt_field params cursor))] net ;;
  ret (createPaginatedResponse (members result)
         (Some {| Options.hasMore :=
                    Some (truthy_opt_string (next_cursor_of (envelope result)));
                  Options.nextCursor := next_cursor_of (envelope result) |})).

Definition getUserInfo (userId : string) (net : Net UserResponse) : M User :=
  result <- request "users.info" [("user", JStr userId)] net ;;
  ret (resp_user result).

Definition getUserByEmail (email : string) (net : Net UserResponse) : M User :=
  result <- request "users.lookupByEmail" [("email", JStr email)] net ;;
  ret (resp_user result).

Definition getUserPresence (userId : string) (net : Net PresenceResponse)
    : M UserPresence :=
  result <- request "users.getPresence" [("user", JStr userId)] net ;;
  ret {| presence := resp_presence result;
         online := resp_online result;
         auto_away := resp_auto_away result;
         manual_away := resp_manual_away result;
         connection_count := resp_connection_count result;
         last_activity := resp_last_activity result |}.

Definition setUserPresence (presence : PresenceSetting)
    (net : Net SlackApiResponse) : M unit :=
  _ <- request "users.setPresence"
         [("presence", JStr (presence_string presence))] net ;;
  ret tt.

Definition getUserConversations (userId : option string)
    (params : option ConversationListParams) (net : Net ChannelsResponse)
    : M (PaginatedResponse Conversation) :=
  result <- request "users.conversations"
              [("user", opt_str userId);
               ("types", JStr (or_string (opt_field params cl_types)
                                 "public_channel,private_channel,mpim,im"));
               ("exclude_archived",
                JBool (nullish (opt_field params cl_exclude_archived) true));
               ("limit", JNum (or_number (opt_field params cl_limit) (Num 100)));
               ("cursor", opt_str (opt_field params cl_cursor))] net ;;
  ret (createPaginatedResponse (channels result)
         (Some {| Options.hasMore :=
                    Some (truthy_opt_string (next_cursor_of (envelope result)));
                  Options.nextCursor := next_cursor_of (envelope result) |})).

(** **** Files *)

Definition listFiles (params : option FileListParams) (net : Net FilesResponse)
    : M (PaginatedResponse SlackFile) :=
  result <- request "files.list"
              [("channel", opt_str (opt_field params fl_channel));
               ("user", opt_str (opt_field params fl_user));
               ("types", opt_str (opt_field params fl_types));
               ("ts_from", opt_num (opt_field params ts_from));
               ("ts_to", opt_num (opt_field params ts_to));
               ("count", JNum (or_number (opt_field params fl_limit) (Num 100)))]
              net ;;
  ret (createPaginatedResponse (files result)
         (Some {| Options.hasMore :=
                    Some (lt_number (page (files_paging result))
                            (pages (files_paging result)));
                  Options.nextCursor := None |})).

Definition getFileInfo (fileId : string) (net : Net FileResponse)
    : M SlackFile :=
  result <- request "files.info" [("file", JStr fileId)] net ;;
  ret (file result).

Definition deleteFile (fileId : string) (net : Net SlackApiResponse) : M unit :=
  _ <- request "files.delete" [("file", JStr fileId)] net ;;
  ret tt.

(** [uploadFile(channels, content, filename, title?, initialComment?,
    threadTs?)]; the value is [completeResult.files[0]], which is
    [undefined] ([None]) when the array is empty. *)
Definition uploadFile (channels : string) (content : utf16) (filename : string)
    (title initialComment threadTs : option string)
    (net1 : Net GetUploadUrlResponse) (net2 : Net unit)
    (net3 : Net CompleteUploadResponse) : M (option SlackFile) :=
  (* Step 1: Get upload URL *)
  let contentBytes := TextEncoder_encode content in
  uploadUrlResult <- request "files.getUploadURLExternal"
                       [("filename", JStr filename);
                        ("length",
                         JNum (Num (Z.of_nat (List.length contentBytes))))]
                       net1 ;;
  (* Step 2: Upload content to the URL *)
  _ <- fetch net2 {| url := upload_url uploadUrlResult;
                     method := "POST";
                     headers := [];
                     body := BodyUtf16 content |} ;;
  (* Step 3: Complete the upload *)
  completeResult <- request "files.completeUploadExternal"
                      [("files",
                        JArr [JObj [("id", JStr (file_id uploadUrlResult));
                                    ("title", JStr (or_string title filename))]]);
                       ("channel_id", JStr channels);
                       ("initial_comment", opt_str initialComment);
                       ("thread_ts", opt_str threadTs)] net3 ;;
  ret (nth_error (complete_files completeResult) 0).

(** **** Reactions *)

Definition addReaction (channelId timestamp name : string)
    (net : Net SlackApiResponse) : M unit :=
  _ <- request "reactions.add"
         [("channel", JStr channelId);
          ("timestamp", JStr timestamp);
          ("name", JStr name)] net ;;
  ret tt.

Definition removeReaction (channelId timestamp name : string)
    (net : Net SlackApiResponse) : M unit :=
  _ <- request "reactions.remove"
         [("channel", JStr channelId);
          ("timestamp", JStr timestamp);
          ("name", JStr name)] net ;;
  ret tt.

Definition getReactions (channelId timestamp : string)
    (net : Net ReactionsResponse) : M MessageAndReactions :=
  result <- request "reactions.get"
              [("channel", JStr channelId);
               ("timestamp", JStr timestamp);
               ("full", JBool true)] net ;;
  ret {| reacted_message := reactions_message result;
         message_reactions :=
           nullish (reactions (reactions_message result)) [] |}.

Definition listUserReactions (userId : option string)
    (params : option PaginationParams) (net : Net (ItemsResponse ReactionItem))
    : M (PaginatedResponse ReactionItem) :=
  result <- request "reactions.list"
              [("user", opt_str userId);
               ("count", JNum (or_number (opt_field params limit) (Num 100)));
               ("full", JBool true)] net ;;
  ret (createPaginatedResponse (resp_items result)
         (Some {| Options.hasMore :=
                    Some (lt_number (page (items_paging result))
                            (pages (items_paging result)));
                  Options.nextCursor := None |})).

(** **** Search *)

Definition searchMessages (params : SearchParams)
    (net : Net SearchMessagesResponse) : M SearchResult :=
  result <- request "search.messages"
              [("query", JStr (query params));
               ("sort", JStr (or_string (sort params) "timestamp"));
               ("sort_dir", JStr (or_string (sort_dir params) "desc"));
               ("count", JNum (or_number (sp_limit params) (Num 20)));
               ("highlight", opt_bool (highlight params))] net ;;
  ret (found_messages result).

Definition searchFiles (params : SearchParams) (net : Net SearchFilesResponse)
    : M SearchResult :=
  result <- request "search.files"
              [("query", JStr (query params));
               ("sort", JStr (or_string (sort params) "timestamp"));
               ("sort_dir", JStr (or_string (sort_dir params) "desc"));
               ("count", JNum (or_number (sp_limit params) (Num 20)));
               ("highlight", opt_bool (highlight params))] net ;;
  ret (found_files result).

Definition searchAll (params : SearchParams) (net : Net SearchAllResponse)
    : M MessagesAndFiles :=
  result <- request "search.all"
              [("query", JStr (query params));
               ("sort", JStr (or_string (sort params) "timestamp"));
               ("sort_dir", JStr (or_string (sort_dir params) "desc"));
               ("count", JNum (or_number (sp_limit params) (Num 20)));
               ("highlight", opt_bool (highlight params))] net ;;
  ret {| messages_found := all_messages result;
         files_found := all_files result |}.

(** **** Pins *)

Definition addPin (channelId timestamp : string) (net : Net SlackApiResponse)
    : M unit :=
  _ <- request "pins.add"
         [("channel", JStr channelId); ("timestamp", JStr timestamp)] net ;;
  ret tt.

Definition removePin (channelId timestamp : string)
    (net : Net SlackApiResponse) : M unit :=
  _ <- request "pins.remove"
         [("channel", JStr channelId); ("timestamp", JStr timestamp)] net ;;
  ret tt.

Definition listPins (channelId : string) (net : Net PinsResponse)
    : M (list PinnedItem) :=
  result <- request "pins.list" [("channel", JStr channelId)] net ;;
  ret (pinned_items result).

(** **** Stars *)

Definition addStar (channelId : string) (timestamp fileId : option string)
    (net : Net SlackApiResponse) : M unit :=
  _ <- request "stars.add"
         [("channel", JStr channelId);
          ("timestamp", opt_str timestamp);
          ("file", opt_str fileId)] net ;;
  ret tt.

Definition removeStar (channelId : string) (timestamp fileId : option string)
    (net : Net SlackApiResponse) : M unit :=
  _ <- request "stars.remove"
         [("channel", JStr channelId);
          ("timestamp", opt_str timestamp);
          ("file", opt_str fileId)] net ;;
  ret tt.

Definition listStars (params : option PaginationParams)
    (net : Net (ItemsResponse StarredItem)) : M (PaginatedResponse StarredItem) :=
  result <- request "stars.list"
              [("count", JNum (or_number (opt_field params limit) (Num 100)))]
              net ;;
  ret (createPaginatedResponse (resp_items result)
         (Some {| Options.hasMore :=
                    Some (lt_number (page (items_paging result))
                            (pages (items_paging result)));
                  Options.nextCursor := None |})).

(** **** Reminders *)

(** [addReminder(text, time: string | number, userId?)] *)
Definition addReminder (text : string) (time : string + number)
    (userId : option string) (net : Net ReminderResponse) : M Reminder :=
  result <- request "reminders.add"
              [("text", JStr text);
               ("time", match time with
                        | inl s => JStr s
                        | inr n => JNum n
                        end);
               ("user", opt_str userId)] net ;;
  ret (reminder result).

Definition completeReminder (reminderId : string)
    (net : Net SlackApiResponse) : M unit :=
  _ <- request "reminders.complete" [("reminder", JStr reminderId)] net ;;
  ret tt.

Definition deleteReminder (reminderId : string) (net : Net SlackApiResponse)
    : M unit :=
  _ <- request "reminders.delete" [("reminder", JStr reminderId)] net ;;
  ret tt.

Definition getReminder (reminderId : string) (net : Net ReminderResponse)
    : M Reminder :=
  result <- request "reminders.info" [("reminder", JStr reminderId)] net ;;
  ret (reminder result).

Definition listReminders (net : Net RemindersResponse) : M (list Reminder) :=
  result <- request "reminders.list" [] net ;;
  ret (reminders result).

(** **** Bookmarks *)

Definition addBookmark (channelId title : string) (type : BookmarkType)
    (link emoji : option string) (net : Net BookmarkResponse) : M Bookmark :=
  result <- request "bookmarks.add"
              [("channel_id", JStr channelId);
               ("title", JStr title);
               ("type", JStr (bookmark_type_string type));
               ("link", opt_str link);
               ("emoji", opt_str emoji)] net ;;
  ret (bookmark result).

(** [editBookmark(channelId, bookmarkId, updates)]: [...updates] adds the
    properties of [updates] after the two identifiers. *)
Definition editBookmark (channelId bookmarkId : string)
    (updates : BookmarkUpdates) (net : Net BookmarkResponse) : M Bookmark :=
  result <- request "bookmarks.edit"
              [("channel_id", JStr channelId);
               ("bookmark_id", JStr bookmarkId);
               ("title", opt_str (bu_title updates));
               ("link", opt_str (bu_link updates));
               ("emoji", opt_str (bu_emoji updates))] net ;;
  ret (bookmark result).

Definition removeBookmark (channelId bookmarkId : string)
    (net : Net SlackApiResponse) : M unit :=
  _ <- request "bookmarks.remove"
         [("channel_id", JStr channelId);
          ("bookmark_id", JStr bookmarkId)] net ;;
  ret tt.

Definition listBookmarks (channelId : string) (net : Net BookmarksResponse)
    : M (list Bookmark) :=
  result <- request "bookmarks.list" [("channel_id", JStr channelId)] net ;;
  ret (bookmarks result).

(** **** User Groups *)

(** [listUserGroups(includeUsers = false, includeDisabled = false)] *)
Definition listUserGroups (includeUsers includeDisabled : option bool)
    (net : Net UserGroupsResponse) : M (list UserGroup) :=
  result <- request "usergroups.list"
              [("include_users", JBool (nullish includeUsers false));
               ("include_disabled", JBool (nullish includeDisabled false))]
              net ;;
  ret (usergroups result).

Record UserGroupUpdates : Type := mkUserGroupUpdates {
  ug_name : option string;
  ug_handle : option string;
  ug_description : option string;
  ug_channels : option (list string)
}.

(** [channels?.join(',')] *)
Definition join_opt (l : option (list string)) : option string :=
  match l with
  | Some l => Some (join "," l)
  | None => None
  end.

Definition createUserGroup (name : string) (handle description : option string)
    (channels : option (list string)) (net : Net UserGroupResponse)
    : M UserGroup :=
  result <- request "usergroups.create"
              [("name", JStr name);
               ("handle", opt_str handle);
               ("description", opt_str description);
               ("channels", opt_str (join_opt channels))] net ;;
  ret (usergroup result).

Definition updateUserGroup (userGroupId : string) (updates : UserGroupUpdates)
    (net : Net UserGroupResponse) : M UserGroup :=
  result <- request "usergroups.update"
              [("usergroup", JStr userGroupId);
               ("name", opt_str (ug_name updates));
               ("handle", opt_str (ug_handle updates));
               ("description", opt_str (ug_description updates));
               ("channels", opt_str (join_opt (ug_channels updates)))] net ;;
  ret (usergroup result).

Definition disableUserGroup (userGroupId : string)
    (net : Net UserGroupResponse) : M UserGroup :=
  result <- request "usergroups.disable" [("usergroup", JStr userGroupId)] net ;;
  ret (usergroup result).

Definition enableUserGroup (userGroupId : string)
    (net : Net UserGroupResponse) : M UserGroup :=
  result <- request "usergroups.enable" [("usergroup", JStr userGroupId)] net ;;
  ret (usergroup result).

Definition getUserGroupMembers (userGroupId : string) (net : Net UsersResponse)
    : M (list string) :=
  result <- request "usergroups.users.list"
              [("usergroup", JStr userGroupId)] net ;;
  ret (users result).

Definition updateUserGroupMembers (userGroupId : string)
    (userIds : list string) (net : Net UserGroupResponse) : M UserGroup :=
  result <- request "usergroups.users.update"
              [("usergroup", JStr userGroupId);
               ("users", JStr (join "," userIds))] net ;;
  ret (usergroup result).

(** **** Team *)

Definition getTeamInfo (net : Net TeamResponse) : M Team :=
  result <- request "team.info" [] net ;;
  ret (resp_team result).

Definition getBillableInfo (userId : option string)
    (net : Net BillableInfoResponse) : M jsval :=
  result <- request "team.billableInfo" [("user", opt_str userId)] net ;;
  ret (billable_info result).

(** **** DND (Do Not Disturb) *)

Definition getDndInfo (userId : option string) (net : Net DndInfoResponse)
    : M DndStatus :=
  result <- request "dnd.info" [("user", opt_str userId)] net ;;
  ret {| dnd_enabled := info_dnd_enabled result;
         next_dnd_start_ts := info_next_dnd_start_ts result;
         next_dnd_end_ts := info_next_dnd_end_ts result;
         snooze_enabled := info_snooze_enabled result;
         snooze_endtime := info_snooze_endtime result;
         snooze_remaining := info_snooze_remaining result |}.

Definition setDndSnooze (numMinutes : number) (net : Net SetSnoozeResponse)
    : M DndStatus :=
  result <- request "dnd.setSnooze" [("num_minutes", JNum numMinutes)] net ;;
  ret {| dnd_enabled := true;
         next_dnd_start_ts := None;
         next_dnd_end_ts := None;
         snooze_enabled := Some (set_snooze_enabled result);
         snooze_endtime := Some (set_snooze_endtime result);
         snooze_remaining := Some (set_snooze_remaining result) |}.

Definition endDndSnooze (net : Net EndSnoozeResponse) : M DndStatus :=
  result <- request "dnd.endSnooze" [] net ;;
  ret {| dnd_enabled := end_dnd_enabled result;
         next_dnd_start_ts := end_next_dnd_start_ts result;
         next_dnd_end_ts := end_next_dnd_end_ts result;
         snooze_enabled := Some false;
         snooze_endtime := None;
         snooze_remaining := None |}.

Definition setDnd (numMinutes : number) (net : Net SlackApiResponse) : M unit :=
  _ <- request "dnd.setSnooze" [("num_minutes", JNum numMinutes)] net ;;
  ret tt.

Definition endDnd (net : Net SlackApiResponse) : M unit :=
  _ <- request "dnd.endDnd" [] net ;;
  ret tt.

(** **** Emoji *)

Definition listEmoji (net : Net EmojiResponse) : M EmojiList :=
  result <- request "emoji.list" [] net ;;
  ret {| emoji := resp_emoji result; cache_ts := resp_cache_ts result |}.

End SlackClientImpl.

(** *** Vocabulary of the statements below *)

(** [P] holds of the value of [m] whenever [m] ends in a value. *)
Definition on_success {A : Type} (m : M A) (P : A -> Prop) : Prop :=
  forall a, outcome m = Ok a -> P a.

(** The remote answered [req] with a success: a status other than 429 and
    a JSON envelope [data] whose [ok] flag is set. *)
Definition answered_ok {T : Type} `{Extends T} (net : Net T)
    (req : HttpRequest) (data : T) : Prop :=
  exists response,
    net req = Responded response
    /\ status response <> 429
    /\ json response = JsonValue data
    /\ ok (envelope data) = true.

(** The operation [op] is one call of the dispatcher followed by a
    projection of its result: it issues the requests of that call, fails
    with the error of that call, and ends in a value only if that call
    did. *)
Definition single_call {T A : Type} `{Extends T}
    (credentials : TenantCredentials) (net : Net T) (op : M A) : Prop :=
  exists method params,
    requests op = requests (request credentials method params net)
    /\ (forall e, outcome (request credentials method params net) = Throw e ->
                  outcome op = Throw e)
    /\ (forall a, outcome op = Ok a ->
                  exists data,
                    outcome (request credentials method params net) = Ok data).

(** The error that the dispatcher throws for the answer [response] of
    status 429:
    [new RateLimitError('Rate limit exceeded',
                        retryAfter ? parseInt(retryAfter, 10) : 60)]. *)
Definition rate_limit_error {T : Type} (response : HttpResponse T)
    : SlackApiError :=
  new_RateLimitError "Rate limit exceeded"
    (match headers_get response "Retry-After" with
     | Some s => if truthy_string s then parseInt s else Num 60
     | None => Num 60
     end).

(** The operation [op] fails on an answer of status 429: when one of its
    requests is answered so, that request is the only one it issued and
    it throws the [RateLimitError] of the dispatcher. *)
Definition fails_rate_limited {T A : Type} (net : Net T) (op : M A) : Prop :=
  forall req response,
    In req (requests op) -> net req = Responded response ->
    status response = 429 ->
    op = ([req], Throw (SlackError (rate_limit_error response))).

(** [count == items.length] *)
Definition count_is_length {T : Type} (r : PaginatedResponse T) : Prop :=
  count r = Z.of_nat (List.length (items r)).

(** A page [r] that [m] ends in comes from a successful answer [data] of
    the remote, its [nextCursor] being the [next_cursor] of [data] and its
    [hasMore] being [flag data]. *)
Definition page_from_remote {T R : Type} `{Extends T} (net : Net T)
    (m : M (PaginatedResponse R)) (flag : T -> bool) : Prop :=
  forall r, outcome m = Ok r ->
    exists req data,
      answered_ok net req data
      /\ nextCursor r = next_cursor_of (envelope data)
      /\ hasMore r = flag data.

(** [hasMore] as the cursor-style operations compute it:
    [!!result.response_metadata?.next_cursor]. *)
Definition has_cursor {T : Type} `{Extends T} (data : T) : bool :=
  truthy_opt_string (next_cursor_of (envelope data)).

End Client.

(* ===================================================================== *)
(** ** Fixtures: credentials and remote answers used in the examples *)
(* ===================================================================== *)

Module Fixtures.
Import Js Errors Pagination Client.

Definition tenant : TenantCredentials :=
  {| botToken := Some "xoxb-test"; userToken := None |}.

Definition ok_envelope (cursor : option string) : SlackApiResponse :=
  {| ok := true;
     error := None;
     warning := None;
     response_metadata :=
       Some {| next_cursor := cursor; messages_md := None; warnings := None |} |}.

Definition no_headers : string -> option string := fun _ => None.

(** The remote answers every request with status 200 and the body [data]. *)
Definition answers {T : Type} (data : T) : Net T :=
  fun _ => Responded {| status := 200;
                        headers_get := no_headers;
                        json := JsonValue data |}.

(** The remote answers every request with status 429 and
    [Retry-After: 30]. *)
Definition rate_limited {T : Type} : Net T :=
  fun _ => Responded {| status := 429;
                        headers_get := fun h =>
                          if String.eqb h "Retry-After" then Some "30"
                          else None;
                        json := JsonSyntaxError "Unexpected end of JSON input" |}.

Definition C1 : Conversation := JObj [("id", JStr "C1")].
Definition C2 : Conversation := JObj [("id", JStr "C2")].

(** [{ok:true, channels:[C1,C2], response_metadata:{next_cursor:"abc"}}] *)
Definition conversations_page : ChannelsResponse :=
  {| channels_base := ok_envelope (Some "abc"); channels := [C1; C2] |}.

(** The last page of a cursor-style listing: the remote sends an empty
    [next_cursor]. *)
Definition conversations_last_page : ChannelsResponse :=
  {| channels_base := ok_envelope (Some EmptyString); channels := [C1; C2] |}.

(** A history page whose [has_more] flag is false while
    [response_metadata] carries a cursor. *)
Definition history_page : MessagesResponse :=
  {| messages_base := ok_envelope (Some "abc");
     messages := [JObj [("ts", JStr "1700000000.000100")]];
     has_more := false |}.

Definition upload_slot : GetUploadUrlResponse :=
  {| upload_base := ok_envelope None;
     upload_url := "https://files.slack.com/upload/v1/abc";
     file_id := "F123" |}.

(** [{ok:true, files:[{id:'F123'}]}] *)
Definition upload_completed : CompleteUploadResponse :=
  {| complete_base := ok_envelope None;
     complete_files := [JObj [("id", JStr "F123")]] |}.

(** [{ok:true, files:[]}] *)
Definition upload_completed_without_files : CompleteUploadResponse :=
  {| complete_base := ok_envelope None; complete_files := [] |}.

(** A text of ten ASCII characters. *)
Definition ten_bytes : utf16 := utf16_of_ascii "0123456789".

End Fixtures.

(* ===================================================================== *)
(** ** More built-ins: strings, [Math.min], indented [JSON.stringify] *)
(* ===================================================================== *)

Module JsText.
Import Js.

(** [s.startsWith(p)] *)
Fixpoint starts_with (p s : string) : bool :=
  match p with
  | EmptyString => true
  | String a p' =>
      match s with
      | String b s' => Ascii.eqb a b && starts_with p' s'
      | EmptyString => false
      end
  end.

(** [s.includes(sub)] *)
Fixpoint includes (s sub : string) : bool :=
  starts_with sub s
  || match s with
     | String _ r => includes r sub
     | EmptyString => false
     end.

(** The piece of [s] before the first [sep], and the pieces after it. *)
Fixpoint split_from (sep : ascii) (s : string) : string * list string :=
  match s with
  | EmptyString => (EmptyString, [])
  | String c r =>
      let '(piece, pieces) := split_from sep r in
      if Ascii.eqb c sep then (EmptyString, piece :: pieces)
      else (String c piece, pieces)
  end.

(** [s.split(sep)] for a separator of one character: the empty string
    splits into one empty piece. *)
Definition split (sep : ascii) (s : string) : list string :=
  let '(piece, pieces) := split_from sep s in piece :: pieces.

Fixpoint trim_end (s : string) : string :=
  match s with
  | EmptyString => EmptyString
  | String c r =>
      match trim_end r with
      | EmptyString =>
          if is_white_space c then EmptyString else String c EmptyString
      | r' => String c r'
      end
  end.

(** [s.trim()] *)
Definition trim (s : string) : string := trim_end (skip_white_space s).

(** [Math.min(a, b)] *)
Definition Math_min (a b : number) : number :=
  match a, b with
  | NaN, _ | _, NaN => NaN
  | NegInfinity, _ | _, NegInfinity => NegInfinity
  | Infinity, n | n, Infinity => n
  | Num x, Num y => Num (Z.min x y)
  end.

(** [Number.isNaN(n)] *)
Definition isNaN (n : number) : bool :=
  match n with
  | NaN => true
  | _ => false
  end.

Definition newline : string := String (ascii_of_nat 10) EmptyString.

(** [JSON.stringify(v, null, 2)] below the indentation [indent]: an empty
    array or object is written [[]] or [{}]; otherwise each element or
    property stands on a line of its own, two spaces further in, and a
    space follows the colon of a property. *)
Fixpoint stringify_indented (indent : string) (v : jsval) : option string :=
  match v with
  | JUndefined => None
  | JNull => Some "null"
  | JBool true => Some "true"
  | JBool false => Some "false"
  | JNum NaN | JNum Infinity | JNum NegInfinity => Some "null"
  | JNum (Num z) => Some (string_of_Z z)
  | JStr s => Some (quote s)
  | JArr elems =>
      let inner := indent ++ "  " in
      match map (fun x => match stringify_indented inner x with
                          | Some t => t
                          | None => "null"
                          end) elems with
      | [] => Some "[]"
      | partial =>
          Some ("[" ++ newline ++ inner
                    ++ join ("," ++ newline ++ inner) partial
                    ++ newline ++ indent ++ "]")
      end
  | JObj props =>
      let inner := indent ++ "  " in
      match flat_map (fun kv => match stringify_indented inner (snd kv) with
                                | Some t => [quote (fst kv) ++ ": " ++ t]
                                | None => []
                                end) props with
      | [] => Some "{}"
      | partial =>
          Some ("{" ++ newline ++ inner
                    ++ join ("," ++ newline ++ inner) partial
                    ++ newline ++ indent ++ "}")
      end
  end.

(** [JSON.stringify(v, null, 2)] *)
Definition JSON_stringify_2 (v : jsval) : option string :=
  stringify_indented EmptyString v.

(** *** Vocabulary of the statements below *)

(** No character of [s] is white space for [trim]. *)
Definition no_white_space (s : string) : Prop :=
  Forall (fun c => is_white_space c = false) (list_ascii_of_string s).

(** A UTF-16 code unit; a byte. *)
Definition code_unit (c : Z) : Prop := 0 <= c < 65536.
Definition byte (b : Z) : Prop := 0 <= b < 256.

End JsText.

(* ===================================================================== *)
(** ** utils/errors.ts: [isRetryableError] and [formatErrorForLogging] *)
(* ===================================================================== *)

Module ErrorReports.
Import Js JsText Errors Client.

(** [isRetryableError(error)], for an exception of the client. *)
Definition isRetryableError (error : Exn) : bool :=
  match error with
  | SlackError e => retryable e
  | PlainError _ m =>
      includes m "network" || includes m "timeout" || includes m "ECONNRESET"
  end.

(** [formatErrorForLogging(error)], for an exception of the client;
    [stack] is the [stack] property of the error object, read for an error
    that is no [SlackApiError]. *)
Definition formatErrorForLogging (error : Exn) (stack : option string)
    : list (string * jsval) :=
  match error with
  | SlackError e =>
      ([("name", JStr (name e));
        ("message", JStr (Errors.message e));
        ("code", JStr (code e));
        ("statusCode", match statusCode e with
                       | Some z => JNum (Num z)
                       | None => JUndefined
                       end);
        ("retryable", JBool (retryable e))]
       ++ match class e with
          | RateLimitErrorClass =>
              [("retryAfterSeconds", opt_num (retryAfterSeconds e))]
          | _ => []
          end)%list
  | PlainError n m =>
      [("name", JStr n); ("message", JStr m); ("stack", opt_str stack)]
  end.

End ErrorReports.

(* ===================================================================== *)
(** ** utils/pagination.ts: [normalizePaginationParams] *)
(* ===================================================================== *)

Module PaginationUtils.
Import Js JsText.

(** [PAGINATION_DEFAULTS] *)
Definition default_limit : number := Num 20.
Definition default_maxLimit : number := Num 100.

(** [Required<Pick<PaginationParams, 'limit'>> & Omit<PaginationParams,
    'limit'>] *)
Record NormalizedParams : Type := mkNormalizedParams {
  limit : number;
  cursor : option string
}.

(** [normalizePaginationParams(params?, maxLimit = PAGINATION_DEFAULTS.maxLimit)] *)
Definition normalizePaginationParams
    (params : option Pagination.PaginationParams) (maxLimit : option number)
    : NormalizedParams :=
  let maxLimit := nullish maxLimit default_maxLimit in
  {| limit :=
       Math_min
         (or_number (match params with
                     | Some p => Pagination.limit p
                     | None => None
                     end) default_limit)
         maxLimit;
     cursor := match params with
               | Some p => Pagination.cursor p
               | None => None
               end |}.

(** The normalized parameters, passed on as [PaginationParams]. *)
Definition as_params (n : NormalizedParams) : Pagination.PaginationParams :=
  {| Pagination.limit := Some (limit n); Pagination.cursor := cursor n |}.

End PaginationUtils.

(* ===================================================================== *)
(** ** types/env.ts: request headers and environment values *)
(* ===================================================================== *)

Module Env.
Import Js JsText Client.

(** [parseTenantCredentials(request)], from [request.headers.get]. *)
Definition parseTenantCredentials (headers_get : string -> option string)
    : TenantCredentials :=
  {| botToken := or_opt_string (headers_get "X-Slack-Bot-Token") None;
     userToken := or_opt_string (headers_get "X-Slack-User-Token") None |}.

(** A KV or Durable Object namespace, which the code never looks into. *)
Inductive Binding : Type := binding.

Record Env : Type := mkEnv {
  CHARACTER_LIMIT : string;
  DEFAULT_PAGE_SIZE : string;
  MAX_PAGE_SIZE : string;
  CACHE_KV : option Binding;
  MCP_SESSIONS : option Binding
}.

(** [keyof Env] *)
Inductive EnvKey : Type :=
| key_CHARACTER_LIMIT
| key_DEFAULT_PAGE_SIZE
| key_MAX_PAGE_SIZE
| key_CACHE_KV
| key_MCP_SESSIONS.

Inductive EnvValue : Type :=
| EnvString (s : string)
| EnvBinding (b : Binding)
| EnvUndefined.

(** [env[key]] *)
Definition env_get (env : Env) (key : EnvKey) : EnvValue :=
  match key with
  | key_CHARACTER_LIMIT => EnvString (CHARACTER_LIMIT env)
  | key_DEFAULT_PAGE_SIZE => EnvString (DEFAULT_PAGE_SIZE env)
  | key_MAX_PAGE_SIZE => EnvString (MAX_PAGE_SIZE env)
  | key_CACHE_KV =>
      match CACHE_KV env with Some b => EnvBinding b | None => EnvUndefined end
  | key_MCP_SESSIONS =>
      match MCP_SESSIONS env with
      | Some b => EnvBinding b
      | None => EnvUndefined
      end
  end.

(** [getEnvNumber(env, key, defaultValue)] *)
Definition getEnvNumber (env : Env) (key : EnvKey) (defaultValue : number)
    : number :=
  match env_get env key with
  | EnvString value =>
      let parsed := parseInt value in
      if isNaN parsed then defaultValue else parsed
  | _ => defaultValue
  end.

Definition getCharacterLimit (env : Env) : number :=
  getEnvNumber env key_CHARACTER_LIMIT (Num 50000).

Definition getDefaultPageSize (env : Env) : number :=
  getEnvNumber env key_DEFAULT_PAGE_SIZE (Num 20).

Definition getMaxPageSize (env : Env) : number :=
  getEnvNumber env key_MAX_PAGE_SIZE (Num 100).

End Env.

(* ===================================================================== *)
(** ** utils/formatters.ts: [formatError] *)
(* ===================================================================== *)

Module Formatters.
Import Js JsText Errors Client ErrorReports.

(** [{ type: 'text'; text: string }] *)
Record ContentItem : Type := mkContentItem {
  type : string;
  text : option string
}.

Record ToolResponse : Type := mkToolResponse {
  content : list ContentItem;
  isError : option bool
}.

(** The [message] that [formatError] builds, for an exception of the
    client. *)
Definition error_line (error : Exn) : string :=
  match error with
  | SlackError e =>
      if truthy_string (code e)
      then "Error: " ++ Errors.message e
             ++ (if retryable e then " (retryable)" else EmptyString)
      else "Error: " ++ Errors.message e
  | PlainError _ m => "Error: " ++ m
  end.

(** [formatError(error)], for an exception of the client with the stack
    [stack]. *)
Definition formatError (error : Exn) (stack : option string) : ToolResponse :=
  let errorInfo := formatErrorForLogging error stack in
  let message := error_line error in
  {| content :=
       [{| type := "text";
           text := JSON_stringify_2
                     (JObj [("error", JStr message);
                            ("details", JObj errorInfo)]) |}];
     isError := Some true |}.

End Formatters.

(* ===================================================================== *)
(** ** Tool handlers of the tools directory and of index.ts *)
(* ===================================================================== *)

Module Tools.
Import Js JsText Errors Client ErrorReports Formatters.

(** [channels?.split(',').map((c) => c.trim())] *)
Definition split_ids (s : string) : list string :=
  map trim (split ","%char s).

(** The object that a [ConnectionStatus] stands for. *)
Definition ConnectionStatus_object (r : ConnectionStatus) : jsval :=
  JObj [("connected", JBool (connected r));
        ("message", JStr (status_message r));
        ("team", opt_str (status_team r));
        ("user", opt_str (status_user r))].

(** The handler [handler] of the operation [op] never throws: it issues
    the requests of [op] and ends in a response, which is the report
    [formatError] of the error when [op] threw and is marked as an error in
    that case only. *)
Definition reports {A : Type} (stack_of : Exn -> option string)
    (handler : M ToolResponse) (op : M A) : Prop :=
  exists r,
    outcome handler = Ok r
    /\ requests handler = requests op
    /\ (isError r = Some true <-> exists e, outcome op = Throw e)
    /\ (forall e, outcome op = Throw e -> r = formatError e (stack_of e)).

Section Handlers.

(** The client, built from the credentials of the tenant. *)
Variable credentials : TenantCredentials.

(** [error.stack] of a caught error. *)
Variable stack_of : Exn -> option string.

(** [slack_invite_to_conversation] *)
Definition slack_invite_to_conversation (channel_id user_ids : string)
    (net : Net ChannelResponse) : M ToolResponse :=
  try_catch
    (let userIdList := split_ids user_ids in
     conversation <- inviteToConversation credentials channel_id userIdList
                       net ;;
     ret {| content :=
              [{| type := "text";
                  text := JSON_stringify_2
                            (JObj [("success", JBool true);
                                   ("message", JStr "Users invited");
                                   ("channel", conversation)]) |}];
            isError := None |})
    (fun error => ret (formatError error (stack_of error))).

(** [slack_create_usergroup] *)
Definition slack_create_usergroup (name : string)
    (handle description channels : option string)
    (net : Net UserGroupResponse) : M ToolResponse :=
  try_catch
    (let channelList := option_map split_ids channels in
     group <- createUserGroup credentials name handle description channelList
                net ;;
     ret {| content :=
              [{| type := "text";
                  text := JSON_stringify_2
                            (JObj [("success", JBool true);
                                   ("message", JStr "User group created");
                                   ("usergroup", group)]) |}];
            isError := None |})
    (fun error => ret (formatError error (stack_of error))).

(** [slack_update_usergroup] *)
Definition slack_update_usergroup (usergroup_id : string)
    (name handle description channels : option string)
    (net : Net UserGroupResponse) : M ToolResponse :=
  try_catch
    (let channelList := option_map split_ids channels in
     group <- updateUserGroup credentials usergroup_id
                {| ug_name := name;
                   ug_handle := handle;
                   ug_description := description;
                   ug_channels := channelList |} net ;;
     ret {| content :=
              [{| type := "text";
                  text := JSON_stringify_2
                            (JObj [("success", JBool true);
                                   ("message", JStr "User group updated");
                                   ("usergroup", group)]) |}];
            isError := None |})
    (fun error => ret (formatError error (stack_of error))).

(** [slack_update_usergroup_members] *)
Definition slack_update_usergroup_members (usergroup_id user_ids : string)
    (net : Net UserGroupResponse) : M ToolResponse :=
  try_catch
    (let userList := split_ids user_ids in
     group <- updateUserGroupMembers credentials usergroup_id userList net ;;
     ret {| content :=
              [{| type := "text";
                  text := JSON_stringify_2
                            (JObj [("success", JBool true);
                                   ("message", JStr "Members updated");
                                   ("usergroup", group)]) |}];
            isError := None |})
    (fun error => ret (formatError error (stack_of error))).

(** [slack_upload_file] *)
Definition slack_upload_file (channels : string) (content : utf16)
    (filename : string) (title initial_comment thread_ts : option string)
    (net1 : Net GetUploadUrlResponse) (net2 : Net unit)
    (net3 : Net CompleteUploadResponse) : M ToolResponse :=
  try_catch
    (file <- uploadFile credentials channels content filename title
               initial_comment thread_ts net1 net2 net3 ;;
     ret {| Formatters.content :=
              [{| type := "text";
                  text := JSON_stringify_2
                            (JObj [("success", JBool true);
                                   ("message", JStr "File uploaded");
                                   ("file", opt_val file)]) |}];
            isError := None |})
    (fun error => ret (formatError error (stack_of error))).

(** [slack_test_connection] of index.ts *)
Definition slack_test_connection (net : Net AuthTestResponse)
    : M ToolResponse :=
  try_catch
    (result <- testConnection credentials net ;;
     ret {| content :=
              [{| type := "text";
                  text := JSON_stringify_2 (ConnectionStatus_object result) |}];
            isError := None |})
    (fun error =>
       ret {| content :=
                [{| type := "text";
                    text := Some ("Connection failed: " ++ exn_message error) |}];
              isError := Some true |}).

End Handlers.

End Tools.

(* ===================================================================== *)
(** ** index.ts: the worker *)
(* ===================================================================== *)

Module Worker.
Import Js JsText Client Env.

Definition SERVER_NAME : string := "primrose-mcp-slack".
Definition SERVER_VERSION : string := "1.0.0".

(** What the worker reads of a [Request]: the path of its URL, its method
    and [headers.get]. *)
Record Request : Type := mkRequest {
  pathname : string;
  method : string;
  headers_get : string -> option string
}.

(** [new Response(body, { status, headers })] *)
Record Response : Type := mkResponse {
  body : option string;
  init_status : option Z;
  init_headers : list (string * string)
}.

(** [response.status]: 200 unless the constructor was given one. *)
Definition status (r : Response) : Z := nullish (init_status r) 200.

(** What [fetch] resolves to: a response of its own, or the response of
    the MCP handler of a server built for [credentials]. *)
Inductive Served : Type :=
| Replied (r : Response)
| Delegated (credentials : TenantCredentials).

(** The description of the server that the worker serves by default. *)
Definition api_info : jsval :=
  JObj
    [("name", JStr SERVER_NAME);
     ("version", JStr SERVER_VERSION);
     ("description", JStr "Multi-tenant Slack MCP Server");
     ("endpoints",
      JObj
        [("mcp", JStr "/mcp (POST) - Streamable HTTP MCP endpoint");
         ("health", JStr "/health - Health check")]);
     ("authentication",
      JObj
        [("description", JStr "Pass Slack credentials via request headers");
         ("required_headers",
          JObj
            [("X-Slack-Bot-Token", JStr "Bot OAuth token (xoxb-...)")]);
         ("optional_headers",
          JObj
            [("X-Slack-User-Token",
              JStr "User OAuth token for user-level operations (xoxp-...)")])]);
     ("tools",
      JObj
        [("conversations",
          JArr
            [JStr "slack_list_conversations";
             JStr "slack_get_conversation_info";
             JStr "slack_get_conversation_history";
             JStr "slack_get_thread_replies";
             JStr "slack_create_conversation";
             JStr "slack_archive_conversation";
             JStr "slack_unarchive_conversation";
             JStr "slack_rename_conversation";
             JStr "slack_set_conversation_topic";
             JStr "slack_set_conversation_purpose";
             JStr "slack_invite_to_conversation";
             JStr "slack_kick_from_conversation";
             JStr "slack_join_conversation";
             JStr "slack_leave_conversation";
             JStr "slack_get_conversation_members"]);
         ("messages",
          JArr
            [JStr "slack_post_message";
             JStr "slack_update_message";
             JStr "slack_delete_message";
             JStr "slack_schedule_message";
             JStr "slack_delete_scheduled_message";
             JStr "slack_list_scheduled_messages";
             JStr "slack_get_permalink"]);
         ("users",
          JArr
            [JStr "slack_list_users";
             JStr "slack_get_user_info";
             JStr "slack_get_user_by_email";
             JStr "slack_get_user_presence";
             JStr "slack_set_presence";
             JStr "slack_get_user_conversations"]);
         ("files",
          JArr
            [JStr "slack_list_files";
             JStr "slack_get_file_info";
             JStr "slack_delete_file";
             JStr "slack_upload_file"]);
         ("search",
          JArr
            [JStr "slack_search_messages";
             JStr "slack_search_files";
             JStr "slack_search_all"]);
         ("reactions",
          JArr
            [JStr "slack_add_reaction";
             JStr "slack_remove_reaction";
             JStr "slack_get_reactions";
             JStr "slack_list_user_reactions"]);
         ("pins",
          JArr
            [JStr "slack_add_pin";
             JStr "slack_remove_pin";
             JStr "slack_list_pins"]);
         ("stars",
          JArr
            [JStr "slack_add_star";
             JStr "slack_remove_star";
             JStr "slack_list_stars"]);
         ("reminders",
          JArr
            [JStr "slack_add_reminder";
             JStr "slack_complete_reminder";
             JStr "slack_delete_reminder";
             JStr "slack_get_reminder";
             JStr "slack_list_reminders"]);
         ("bookmarks",
          JArr
            [JStr "slack_add_bookmark";
             JStr "slack_edit_bookmark";
             JStr "slack_remove_bookmark";
             JStr "slack_list_bookmarks"]);
         ("usergroups",
          JArr
            [JStr "slack_list_usergroups";
             JStr "slack_create_usergroup";
             JStr "slack_update_usergroup";
             JStr "slack_disable_usergroup";
             JStr "slack_enable_usergroup";
             JStr "slack_get_usergroup_members";
             JStr "slack_update_usergroup_members"]);
         ("team",
          JArr [JStr "slack_get_team_info"; JStr "slack_get_billable_info"]);
         ("dnd",
          JArr
            [JStr "slack_get_dnd_info";
             JStr "slack_set_dnd_snooze";
             JStr "slack_end_dnd_snooze";
             JStr "slack_end_dnd"]);
         ("emoji", JArr [JStr "slack_list_emoji"]);
         ("connection", JArr [JStr "slack_test_connection"])])].

(** [fetch(request, env, ctx)] of the default export. *)
Definition fetch (request : Request) : Served :=
  if String.eqb (pathname request) "/health"
  then
    Replied {| body := JSON_stringify
                         (JObj [("status", JStr "ok");
                                ("server", JStr SERVER_NAME)]);
               init_status := None;
               init_headers := [("Content-Type", "application/json")] |}
  else if String.eqb (pathname request) "/mcp"
          && String.eqb (method request) "POST"
  then
    let credentials := parseTenantCredentials (headers_get request) in
    match validateCredentials credentials with
    | Throw error =>
        Replied {| body := JSON_stringify
                             (JObj [("error", JStr "Unauthorized");
                                    ("message", JStr (exn_message error));
                                    ("required_headers",
                                     JArr [JStr "X-Slack-Bot-Token or X-Slack-User-Token"])]);
                   init_status := Some 401;
                   init_headers := [("Content-Type", "application/json")] |}
    | Ok _ => Delegated credentials
    end
  else if String.eqb (pathname request) "/sse"
  then
    Replied {| body := Some "SSE endpoint requires Durable Objects. Enable in wrangler.jsonc.";
               init_status := Some 501;
               init_headers := [] |}
  else
    Replied {| body := JSON_stringify api_info;
               init_status := None;
               init_headers := [("Content-Type", "application/json")] |}.

End Worker.

(* ===================================================================== *)
(** ** Properties of the built-ins *)
(* ===================================================================== *)

Module JsFacts.
Import Js.

Lemma parse_digits_acc (d : Decimal.uint) (p : positive) :
  parse_digits (NilEmpty.string_of_uint d) (Some (Z.pos p))
  = Some (Z.pos (Pos.of_uint_acc d p)).
Proof.
  revert p; induction d; intro p; cbn [NilEmpty.string_of_uint parse_digits];
    try reflexivity;
    match goal with
    | |- context [digit_of ?c] =>
        let v := eval vm_compute in (digit_of c) in
        change (digit_of c) with v; cbv iota beta
    end;
    cbn [Pos.of_uint_acc nullish]; rewrite <- IHd; f_equal; f_equal; lia.
Qed.

Lemma parse_digits_zero (d : Decimal.uint) :
  parse_digits (NilEmpty.string_of_uint d) (Some 0)
  = Some (Z.of_N (Pos.of_uint d)).
Proof.
  induction d; cbn [NilEmpty.string_of_uint parse_digits Pos.of_uint];
    try reflexivity;
    match goal with
    | |- context [digit_of ?c] =>
        let v := eval vm_compute in (digit_of c) in
        change (digit_of c) with v; cbv iota beta
    end;
    cbn [nullish];
    try (rewrite <- IHd; reflexivity);
    match goal with
    | |- parse_digits _ (Some ?a) = _ =>
        let v := eval vm_compute in a in change a with v
    end;
    rewrite parse_digits_acc; reflexivity.
Qed.

Lemma parse_digits_none (d : Decimal.uint) :
  d <> Decimal.Nil ->
  parse_digits (NilEmpty.string_of_uint d) None
  = parse_digits (NilEmpty.string_of_uint d) (Some 0).
Proof.
  destruct d; intro Hd; try reflexivity; congruence.
Qed.

Lemma to_uint_nonnil (n : N) : N.to_uint n <> Decimal.Nil.
Proof.
  destruct n; cbn; [discriminate | apply DecimalPos.Unsigned.to_uint_nonnil].
Qed.

Lemma parse_digits_to_uint (n : N) :
  parse_digits (NilZero.string_of_uint (N.to_uint n)) None = Some (Z.of_N n).
Proof.
  pose proof (to_uint_nonnil n) as Hn.
  assert (NilZero.string_of_uint (N.to_uint n)
          = NilEmpty.string_of_uint (N.to_uint n)) as ->
    by (destruct (N.to_uint n); [congruence | reflexivity ..]).
  rewrite parse_digits_none by assumption.
  rewrite parse_digits_zero.
  change (Pos.of_uint (N.to_uint n)) with (N.of_uint (N.to_uint n)).
  now rewrite DecimalN.Unsigned.of_to.
Qed.

(** A decimal numeral starts with a digit: no white space, no sign. *)
Lemma to_uint_head (n : N) :
  exists c r, NilZero.string_of_uint (N.to_uint n) = String c r
              /\ is_white_space c = false
              /\ c <> "-"%char /\ c <> "+"%char.
Proof.
  pose proof (to_uint_nonnil n) as Hn.
  destruct (N.to_uint n); [congruence | ..]; cbn;
    eexists; eexists; (split; [reflexivity |]);
    (split; [reflexivity | split; discriminate]).
Qed.

(** [parseInt] reads the decimal rendering of an integer as the double
    nearest to it. *)
Lemma parseInt_string_of_Z (z : Z) :
  parseInt (string_of_Z z) = round_to_double z.
Proof.
  unfold string_of_Z.
  destruct (Z.ltb_spec z 0) as [Hneg | Hpos].
  - unfold parseInt. cbn [append skip_white_space].
    change (is_white_space "-") with false. cbv iota.
    rewrite parse_digits_to_uint. f_equal. lia.
  - destruct (to_uint_head (Z.to_N z)) as (c & r & Hs & Hw & Hm & Hp).
    unfold parseInt. rewrite Hs. cbn [skip_white_space]. rewrite Hw.
    assert ((let '(sign, s2) :=
               match String c r with
               | String "-"%char r0 => (-1, r0)
               | String "+"%char r0 => (1, r0)
               | _ => (1, String c r)
               end in
             match parse_digits s2 None with
             | Some v => round_to_double (sign * v)
             | None => NaN
             end)
            = match parse_digits (String c r) None with
              | Some v => round_to_double (1 * v)
              | None => NaN
              end) as ->.
    { destruct c as [[] [] [] [] [] [] [] []]; try reflexivity; congruence. }
    rewrite <- Hs, parse_digits_to_uint. f_equal. lia.
Qed.

(** An integer up to 2^53 in magnitude is a double. *)
Lemma round_to_double_exact (z : Z) :
  - 2 ^ 53 <= z <= 2 ^ 53 -> round_to_double z = Num z.
Proof.
  intro Hz. unfold round_to_double.
  destruct (Z.ltb_spec (Z.abs z) (2 ^ 53)) as [Hlt | Hge]; [reflexivity |].
  change (2 ^ 53) with 9007199254740992 in *.
  assert (z = 9007199254740992 \/ z = - 9007199254740992) as [-> | ->] by lia;
    reflexivity.
Qed.

Lemma round_to_double_not_NaN (z : Z) : round_to_double z <> NaN.
Proof.
  unfold round_to_double.
  destruct (Z.abs z <? 2 ^ 53); [discriminate |].
  match goal with |- context [if ?b then _ else Num ?w] => destruct b end;
    [destruct (z <? 0) |]; discriminate.
Qed.

Lemma length_append (a b : string) :
  String.length (a ++ b) = (String.length a + String.length b)%nat.
Proof. induction a; cbn; [reflexivity | now rewrite IHa]. Qed.

(** Inserting one more non-empty piece makes the joined text longer. *)
Lemma join_insert_longer (sep : string) (c : ascii) (x : string)
    (l r : list string) :
  (String.length (join sep (l ++ r))
   < String.length (join sep (l ++ String c x :: r)))%nat.
Proof.
  induction l as [| a l IH]; cbn [app].
  - destruct r as [| b r]; cbn [join]; [cbn; lia |].
    rewrite !length_append. cbn [String.length]. lia.
  - destruct l as [| a' l].
    + cbn [app] in *. destruct r as [| b r]; cbn [join] in *;
        rewrite ?length_append in *; cbn [String.length] in *; lia.
    + cbn [app join] in *. rewrite !length_append.
      destruct (l ++ r)%list eqn:E1, (l ++ String c x :: r)%list eqn:E2;
        rewrite ?length_append in *; lia.
Qed.

End JsFacts.

(* ===================================================================== *)
(** ** Properties of the error classifier *)
(* ===================================================================== *)

Module ErrorsFacts.
Import Js Errors.

Lemma case_of_true (labels : list string) (x : string) :
  In x labels -> case_of labels x = true.
Proof.
  intro Hin. apply existsb_exists. exists x. split; [assumption |].
  apply String.eqb_refl.
Qed.

Lemma case_of_false (labels : list string) (x : string) :
  ~ In x labels -> case_of labels x = false.
Proof.
  intro Hnot. destruct (case_of labels x) eqn:E; [| reflexivity].
  apply existsb_exists in E. destruct E as (y & Hin & Heq).
  apply String.eqb_eq in Heq. subst y. contradiction.
Qed.

(** The families are pairwise disjoint, so the order of the [case] groups
    does not matter. *)
Ltac in_family H :=
  cbn [In auth_codes permission_codes not_found_codes] in H;
  repeat (destruct H as [H | H]; [subst; try reflexivity |]);
  try contradiction.

(** C1. [mapSlackError] is defined on every code and every message, and
    follows the table: the authentication codes give an
    [AuthenticationError] with status 401, not retryable; the permission
    codes a [PermissionError] with status 403, not retryable; the not-found
    codes a [NotFoundError] with status 404, not retryable; [ratelimited]
    gives a retryable [RateLimitError] with [retryAfterSeconds] 60; every
    other code gives a plain [SlackApiError], not retryable. *)
Theorem mapSlackError_classification (errorCode : string)
    (message : option string) :
  let e := mapSlackError errorCode message in
  (In errorCode auth_codes ->
     class e = AuthenticationErrorClass /\ statusCode e = Some 401
     /\ retryable e = false)
  /\ (In errorCode permission_codes ->
        class e = PermissionErrorClass /\ statusCode e = Some 403
        /\ retryable e = false)
  /\ (In errorCode not_found_codes ->
        class e = NotFoundErrorClass /\ statusCode e = Some 404
        /\ retryable e = false)
  /\ (errorCode = "ratelimited" ->
        class e = RateLimitErrorClass /\ statusCode e = Some 429
        /\ retryable e = true /\ retryAfterSeconds e = Some (Num 60))
  /\ (~ In errorCode (auth_codes ++ permission_codes ++ not_found_codes
                        ++ ["ratelimited"])%list ->
        class e = SlackApiErrorClass /\ statusCode e = None
        /\ retryable e = false /\ code e = or_string (Some errorCode) "SLACK_ERROR").
Proof.
  cbv zeta. split; [| split; [| split; [| split]]]; intro H.
  - in_family H; repeat split.
  - in_family H; repeat split.
  - in_family H; repeat split.
  - subst errorCode. repeat split.
  - unfold mapSlackError.
    rewrite (case_of_false auth_codes), (case_of_false permission_codes),
      (case_of_false not_found_codes)
      by (intro Hin; apply H; rewrite !in_app_iff; tauto).
    destruct (String.eqb_spec errorCode "ratelimited") as [-> | _].
    + exfalso. apply H. cbn. tauto.
    + repeat split.
Qed.

Lemma mapSlackError_classification_witness :
  (let e := mapSlackError "invalid_auth" (Some "any text") in
   class e = AuthenticationErrorClass /\ statusCode e = Some 401
   /\ retryable e = false)
  /\ (let e := mapSlackError "missing_scope" None in
      class e = PermissionErrorClass /\ statusCode e = Some 403
      /\ retryable e = false)
  /\ (let e := mapSlackError "user_not_found" None in
      class e = NotFoundErrorClass /\ statusCode e = Some 404
      /\ retryable e = false)
  /\ (let e := mapSlackError "ratelimited" (Some "slow down") in
      class e = RateLimitErrorClass /\ statusCode e = Some 429
      /\ retryable e = true /\ retryAfterSeconds e = Some (Num 60))
  /\ (let e := mapSlackError "fatal_error" None in
      class e = SlackApiErrorClass /\ statusCode e = None
      /\ retryable e = false /\ code e = "fatal_error").
Proof.
  split; [| split; [| split; [| split]]]; cbv zeta.
  - destruct (mapSlackError_classification "invalid_auth" (Some "any text"))
      as (H & _).
    apply H. cbn. tauto.
  - destruct (mapSlackError_classification "missing_scope" None)
      as (_ & H & _).
    apply H. cbn. tauto.
  - destruct (mapSlackError_classification "user_not_found" None)
      as (_ & _ & H & _).
    apply H. cbn. tauto.
  - destruct (mapSlackError_classification "ratelimited" (Some "slow down"))
      as (_ & _ & _ & H & _).
    apply H. reflexivity.
  - destruct (mapSlackError_classification "fatal_error" None)
      as (_ & _ & _ & _ & H).
    apply H. cbn. intro Hin.
    repeat (destruct Hin as [Hin | Hin]; [discriminate |]). contradiction.
Defined.

(** C9. For a not-found code the message is built from the code alone,
    whatever message was supplied; for every other code a supplied
    non-empty message is kept. *)
Theorem mapSlackError_not_found_message (errorCode : string) :
  (In errorCode not_found_codes ->
   forall message : option string,
     Errors.message (mapSlackError errorCode message)
     = "resource with ID '" ++ errorCode ++ "' not found")
  /\ (~ In errorCode not_found_codes ->
      forall c m,
        Errors.message (mapSlackError errorCode (Some (String c m)))
        = String c m).
Proof.
  split.
  - intros H message. in_family H.
  - intros H c m. unfold mapSlackError.
    rewrite (case_of_false not_found_codes) by assumption.
    destruct (case_of auth_codes errorCode);
      [reflexivity | destruct (case_of permission_codes errorCode)];
      [reflexivity | destruct (errorCode =? "ratelimited")%string];
      reflexivity.
Qed.

Lemma mapSlackError_not_found_message_witness :
  (forall message : option string,
     Errors.message (mapSlackError "channel_not_found" message)
     = "resource with ID 'channel_not_found' not found")
  /\ Errors.message (mapSlackError "invalid_auth" (Some "bad token"))
     = "bad token".
Proof.
  split.
  - apply (mapSlackError_not_found_message "channel_not_found").
    cbn; tauto.
  - apply (mapSlackError_not_found_message "invalid_auth").
    cbn. intro H. repeat (destruct H as [H | H]; [discriminate |]).
    contradiction.
Defined.

End ErrorsFacts.

(* ===================================================================== *)
(** ** Properties of the client *)
(* ===================================================================== *)

Module ClientFacts.
Import Js Errors Pagination Client.

(** *** The monad *)

Lemma outcome_bind_Ok {A B : Type} (m : M A) (k : A -> M B) (b : B) :
  outcome (bind m k) = Ok b ->
  exists a, outcome m = Ok a /\ outcome (k a) = Ok b.
Proof.
  destruct m as [log [a | e]]; cbn.
  - destruct (k a) as [log' r] eqn:E. cbn. intros ->. exists a.
    rewrite E. auto.
  - discriminate.
Qed.

Lemma bind_Throw {A B : Type} (m : M A) (k : A -> M B) (e : Exn) :
  outcome m = Throw e -> bind m k = (requests m, Throw e).
Proof. destruct m as [log [a | e']]; cbn; congruence. Qed.

Lemma bind_Ok {A B : Type} (m : M A) (k : A -> M B) (a : A) :
  outcome m = Ok a ->
  bind m k = ((requests m ++ requests (k a))%list, outcome (k a)).
Proof.
  destruct m as [log [a' | e']]; cbn; [| discriminate].
  intros [= ->]. now destruct (k a).
Qed.

Lemma bind_ret_requests {A B : Type} (m : M A) (f : A -> B) :
  requests (bind m (fun a => ret (f a))) = requests m.
Proof.
  destruct m as [log [a | e]]; cbn; [apply app_nil_r | reflexivity].
Qed.

Lemma bind_ret_Ok {A B : Type} (m : M A) (f : A -> B) (b : B) :
  outcome (bind m (fun a => ret (f a))) = Ok b ->
  exists a, outcome m = Ok a /\ b = f a.
Proof.
  intro H. apply outcome_bind_Ok in H. destruct H as (a & Ha & Hb).
  exists a. split; [assumption |]. cbn in Hb. congruence.
Qed.

(** *** Credential resolution *)

(** C5. Credential resolution picks one token, the bot token first: a
    non-empty bot token gives [Bearer <bot token>] whatever the user token
    is (so [{A, B}] gives [Bearer A]); without a bot token a non-empty user
    token is used; with both tokens absent or empty no header is produced
    and resolution fails: [getAuthHeaders] throws its
    [AuthenticationError] and [validateCredentials] its
    missing-credentials [Error]. *)
Theorem getAuthHeaders_resolution (credentials : TenantCredentials) :
  (forall c a, botToken credentials = Some (String c a) ->
     getAuthHeaders credentials
     = Ok [("Authorization", "Bearer " ++ String c a);
           ("Content-Type", "application/json; charset=utf-8")])
  /\ (forall c b, truthy_opt_string (botToken credentials) = false ->
        userToken credentials = Some (String c b) ->
        getAuthHeaders credentials
        = Ok [("Authorization", "Bearer " ++ String c b);
              ("Content-Type", "application/json; charset=utf-8")])
  /\ (truthy_opt_string (botToken credentials) = false ->
      truthy_opt_string (userToken credentials) = false ->
      getAuthHeaders credentials
      = Throw (SlackError (new_AuthenticationError
          "No credentials provided. Include X-Slack-Bot-Token or X-Slack-User-Token header."))
      /\ validateCredentials credentials
         = Throw (PlainError "Error"
             "Missing credentials. Provide X-Slack-Bot-Token or X-Slack-User-Token header.")).
Proof.
  destruct credentials as [bot usr]. cbn [botToken userToken].
  split; [| split].
  - intros c a ->. reflexivity.
  - intros c b Hbot ->. unfold getAuthHeaders, or_opt_string.
    cbn [botToken userToken]. rewrite Hbot. reflexivity.
  - intros Hbot Husr. unfold getAuthHeaders, validateCredentials, or_opt_string.
    cbn [botToken userToken]. rewrite Hbot, Husr. split; reflexivity.
Qed.

Lemma getAuthHeaders_resolution_witness :
  getAuthHeaders {| botToken := Some "A"; userToken := Some "B" |}
  = Ok [("Authorization", "Bearer A");
        ("Content-Type", "application/json; charset=utf-8")]
  /\ getAuthHeaders {| botToken := None; userToken := Some "B" |}
     = Ok [("Authorization", "Bearer B");
           ("Content-Type", "application/json; charset=utf-8")]
  /\ getAuthHeaders {| botToken := Some EmptyString; userToken := Some "B" |}
     = Ok [("Authorization", "Bearer B");
           ("Content-Type", "application/json; charset=utf-8")]
  /\ (exists e, getAuthHeaders {| botToken := None; userToken := None |}
                = Throw e)
  /\ (exists e, getAuthHeaders {| botToken := Some EmptyString;
                                  userToken := Some EmptyString |}
                = Throw e).
Proof.
  split; [| split; [| split; [| split]]].
  - destruct (getAuthHeaders_resolution
                {| botToken := Some "A"; userToken := Some "B" |})
      as (H & _).
    apply H. reflexivity.
  - destruct (getAuthHeaders_resolution
                {| botToken := None; userToken := Some "B" |})
      as (_ & H & _).
    apply H; reflexivity.
  - destruct (getAuthHeaders_resolution
                {| botToken := Some EmptyString; userToken := Some "B" |})
      as (_ & H & _).
    apply H; reflexivity.
  - destruct (getAuthHeaders_resolution
                {| botToken := None; userToken := None |})
      as (_ & _ & H).
    eexists. apply H; reflexivity.
  - destruct (getAuthHeaders_resolution
                {| botToken := Some EmptyString;
                   userToken := Some EmptyString |})
      as (_ & _ & H).
    eexists. apply H; reflexivity.
Defined.

(** *** The request dispatcher *)

Lemma request_no_credentials {T : Type} `{Extends T}
    (credentials : TenantCredentials) (method : string)
    (params : list (string * jsval)) (net : Net T) (e : Exn) :
  getAuthHeaders credentials = Throw e ->
  request credentials method params net = ([], Throw e).
Proof. intro Hauth. unfold request. rewrite Hauth. reflexivity. Qed.

(** With credentials, [request] issues exactly one HTTP request and
    decides on its answer. *)
Lemma request_with_credentials {T : Type} `{Extends T}
    (credentials : TenantCredentials) (method : string)
    (params : list (string * jsval)) (net : Net T)
    (auth : list (string * string)) :
  getAuthHeaders credentials = Ok auth ->
  let req := {| url := SLACK_API_BASE_URL ++ "/" ++ method;
                method := "POST";
                headers := auth;
                body := body_of_json (JSON_stringify (JObj params)) |} in
  request credentials method params net
  = ([req],
     match net req with
     | Rejected n m => Throw (PlainError n m)
     | Responded response =>
         if status response =? 429
         then Throw (SlackError (new_RateLimitError "Rate limit exceeded"
                (match headers_get response "Retry-After" with
                 | Some s => if truthy_string s then parseInt s else Num 60
                 | None => Num 60
                 end)))
         else match json response with
              | JsonValue data =>
                  if negb (ok (envelope data))
                  then Throw (SlackError
                         (mapSlackError
                            (or_string (error (envelope data)) "unknown_error")
                            (error (envelope data))))
                  else Ok data
              | JsonSyntaxError m => Throw (PlainError "SyntaxError" m)
              end
     end).
Proof.
  intros Hauth req. unfold request. rewrite Hauth.
  unfold lift, fetch, response_json, ret, throw. cbn [bind app]. fold req.
  destruct (net req) as [n m | response]; cbn [bind app]; [reflexivity |].
  destruct (status response =? 429); [reflexivity |].
  destruct (json response) as [data | m]; cbn [bind app]; [| reflexivity].
  destruct (ok (envelope data)); reflexivity.
Qed.

Lemma getAuthHeaders_cases (credentials : TenantCredentials) :
  (exists auth, getAuthHeaders credentials = Ok auth)
  \/ (exists e, getAuthHeaders credentials = Throw e).
Proof. destruct (getAuthHeaders credentials); eauto. Qed.

(** [request] never issues a second HTTP request. *)
Lemma request_at_most_one {T : Type} `{Extends T}
    (credentials : TenantCredentials) (method : string)
    (params : list (string * jsval)) (net : Net T) :
  (List.length (requests (request credentials method params net)) <= 1)%nat.
Proof.
  destruct (getAuthHeaders_cases credentials) as [(auth & Ha) | (e & He)].
  - rewrite (request_with_credentials _ _ _ _ _ Ha). cbn. lia.
  - rewrite (request_no_credentials _ _ _ _ _ He). cbn. lia.
Qed.

(** [request] ends in a value only when the remote answered its one
    request with a success, and the value is the decoded envelope. *)
Lemma request_Ok {T : Type} `{Extends T}
    (credentials : TenantCredentials) (method : string)
    (params : list (string * jsval)) (net : Net T) (data : T) :
  outcome (request credentials method params net) = Ok data ->
  exists auth req,
    getAuthHeaders credentials = Ok auth
    /\ req = {| url := SLACK_API_BASE_URL ++ "/" ++ method;
                method := "POST";
                headers := auth;
                body := body_of_json (JSON_stringify (JObj params)) |}
    /\ requests (request credentials method params net) = [req]
    /\ answered_ok net req data.
Proof.
  destruct (getAuthHeaders_cases credentials) as [(auth & Ha) | (e & He)].
  - rewrite (request_with_credentials _ _ _ _ _ Ha). cbn [outcome requests fst snd].
    intro Hok. eexists auth, _. repeat split; [assumption |].
    set (req := mkHttpRequest _ _ _ _) in *.
    destruct (net req) as [n m | response] eqn:Enet; [discriminate |].
    exists response.
    destruct (Z.eqb_spec (status response) 429); [discriminate |].
    destruct (json response) as [d | m] eqn:Ejson; [| discriminate].
    destruct (ok (envelope d)) eqn:Eok; [| discriminate].
    cbn in Hok. injection Hok as <-. auto.
  - rewrite (request_no_credentials _ _ _ _ _ He). discriminate.
Qed.

(** *** Operations made of one call and a projection *)

Lemma request_then_ret_Ok {T A : Type} `{Extends T}
    (credentials : TenantCredentials) (method : string)
    (params : list (string * jsval)) (net : Net T) (f : T -> A) (a : A) :
  outcome (result <- request credentials method params net ;; ret (f result))
  = Ok a ->
  exists req data,
    requests (result <- request credentials method params net ;;
              ret (f result)) = [req]
    /\ answered_ok net req data
    /\ a = f data.
Proof.
  intro Hok. apply bind_ret_Ok in Hok. destruct Hok as (data & Hdata & ->).
  destruct (request_Ok _ _ _ _ _ Hdata) as (auth & req & _ & _ & Hreq & Hans).
  exists req, data. rewrite bind_ret_requests. auto.
Qed.

Lemma request_then_ret_single_call {T A : Type} `{Extends T}
    (credentials : TenantCredentials) (method : string)
    (params : list (string * jsval)) (net : Net T) (f : T -> A) :
  single_call credentials net
    (result <- request credentials method params net ;; ret (f result)).
Proof.
  exists method, params. split; [apply bind_ret_requests | split].
  - intros e He. rewrite (bind_Throw _ _ _ He). reflexivity.
  - intros a Ha. apply bind_ret_Ok in Ha. destruct Ha as (data & Hdata & _).
    eauto.
Qed.

(** Every list operation is a call followed by
    [createPaginatedResponse]. *)
Ltac list_page Hr :=
  apply request_then_ret_Ok in Hr;
  destruct Hr as (?req & ?data & _ & ?Hanswered & ->).

Lemma request_single_call {T : Type} `{Extends T}
    (credentials : TenantCredentials) (method : string)
    (params : list (string * jsval)) (net : Net T) :
  single_call credentials net (request credentials method params net).
Proof. exists method, params. eauto. Qed.

Lemma string_of_Z_truthy (z : Z) : truthy_string (string_of_Z z) = true.
Proof.
  unfold string_of_Z. destruct (z <? 0); [reflexivity |].
  destruct (JsFacts.to_uint_head (Z.to_N z)) as (c & r & -> & _).
  reflexivity.
Qed.

(** *** Pagination *)

(** C3. Every [PaginatedResponse] built by the pagination helpers has its
    [count] equal to the number of its [items], whatever the items and
    the options; so has the page of every list operation that ends in a
    value. *)
Theorem count_is_length_of_items :
  (forall (T : Type) (items : list T) (options : option Options.t),
     count_is_length (createPaginatedResponse items options))
  /\ (forall T : Type, count_is_length (@emptyPaginatedResponse T))
  /\ (forall c params net,
        on_success (listConversations c params net) count_is_length)
  /\ (forall c channelId params net,
        on_success (getConversationHistory c channelId params net)
          count_is_length)
  /\ (forall c channelId threadTs params net,
        on_success (getConversationReplies c channelId threadTs params net)
          count_is_length)
  /\ (forall c channelId params net,
        on_success (getConversationMembers c channelId params net)
          count_is_length)
  /\ (forall c channelId params net,
        on_success (listScheduledMessages c channelId params net)
          count_is_length)
  /\ (forall c params net,
        on_success (listUsers c params net) count_is_length)
  /\ (forall c userId params net,
        on_success (getUserConversations c userId params net) count_is_length)
  /\ (forall c params net,
        on_success (listFiles c params net) count_is_length)
  /\ (forall c userId params net,
        on_success (listUserReactions c userId params net) count_is_length)
  /\ (forall c params net,
        on_success (listStars c params net) count_is_length).
Proof.
  repeat match goal with |- _ /\ _ => split end;
    try (intros; reflexivity);
    intros; intros r Hr; list_page Hr; reflexivity.
Qed.

(** The list-conversations scenario: two channels and the cursor [abc]. *)
Lemma count_is_length_of_items_witness :
  exists r,
    outcome (listConversations Fixtures.tenant
               (Some {| cl_limit := Some (Num 2); cl_cursor := None;
                        cl_types := None; cl_exclude_archived := None;
                        cl_team_id := None |})
               (Fixtures.answers Fixtures.conversations_page)) = Ok r
    /\ items r = [Fixtures.C1; Fixtures.C2]
    /\ count r = 2
    /\ hasMore r = true
    /\ nextCursor r = Some "abc".
Proof.
  eexists. split; [reflexivity |].
  split; [reflexivity |]. split; [| split; reflexivity].
  destruct count_is_length_of_items as (_ & _ & H & _).
  exact (H Fixtures.tenant
           (Some {| cl_limit := Some (Num 2); cl_cursor := None;
                    cl_types := None; cl_exclude_archived := None;
                    cl_team_id := None |})
           (Fixtures.answers Fixtures.conversations_page) _ eq_refl).
Defined.

(** The invariant "a page without more has no cursor" does not hold: the
    last page of a cursor-style listing carries the empty cursor that the
    remote sent, a history page carries the cursor of [response_metadata]
    whatever [has_more] says, and [createPaginatedResponse] itself couples
    nothing. *)
Lemma no_more_but_cursor_present :
  (exists r,
     outcome (listConversations Fixtures.tenant None
                (Fixtures.answers Fixtures.conversations_last_page)) = Ok r
     /\ hasMore r = false
     /\ nextCursor r = Some EmptyString)
  /\ (exists r,
        outcome (getConversationHistory Fixtures.tenant "C1" None
                   (Fixtures.answers Fixtures.history_page)) = Ok r
        /\ hasMore r = false
        /\ nextCursor r = Some "abc")
  /\ (let r := createPaginatedResponse (@nil jsval)
                 (Some {| Options.hasMore := Some false;
                          Options.nextCursor := Some "abc" |}) in
      hasMore r = false /\ nextCursor r = Some "abc").
Proof.
  split; [| split].
  - eexists. repeat split.
  - eexists. repeat split.
  - split; reflexivity.
Qed.

(** C4, as the code has it.  [createPaginatedResponse] passes its two
    hints through, [hasMore] being false when it is not given.  The page
    of a cursor-style operation has the [next_cursor] of the remote as
    [nextCursor] and [hasMore] true exactly when that cursor is a
    non-empty string, so that a page without more has no cursor or the
    empty one.  The page of conversation history and replies has the
    remote [has_more] flag as [hasMore] and the remote [next_cursor] as
    [nextCursor], each on its own.  The page of a page-counted operation
    has no [nextCursor].  In every case a [nextCursor] is one that the
    remote sent. *)
Theorem cursor_follows_remote :
  (forall (T : Type) (items : list T) (h : option bool) (c : option string),
     let r := createPaginatedResponse items
                (Some {| Options.hasMore := h; Options.nextCursor := c |}) in
     hasMore r = nullish h false /\ nextCursor r = c)
  /\ (forall (T : Type) (items : list T),
        let r := createPaginatedResponse items None in
        hasMore r = false /\ nextCursor r = None)
  /\ (forall c params net,
        let m := listConversations c params net in
        page_from_remote net m has_cursor
        /\ on_success m (fun r =>
             hasMore r = false ->
             nextCursor r = None \/ nextCursor r = Some EmptyString))
  /\ (forall c channelId params net,
        let m := getConversationMembers c channelId params net in
        page_from_remote net m has_cursor
        /\ on_success m (fun r =>
             hasMore r = false ->
             nextCursor r = None \/ nextCursor r = Some EmptyString))
  /\ (forall c channelId params net,
        let m := listScheduledMessages c channelId params net in
        page_from_remote net m has_cursor
        /\ on_success m (fun r =>
             hasMore r = false ->
             nextCursor r = None \/ nextCursor r = Some EmptyString))
  /\ (forall c params net,
        let m := listUsers c params net in
        page_from_remote net m has_cursor
        /\ on_success m (fun r =>
             hasMore r = false ->
             nextCursor r = None \/ nextCursor r = Some EmptyString))
  /\ (forall c userId params net,
        let m := getUserConversations c userId params net in
        page_from_remote net m has_cursor
        /\ on_success m (fun r =>
             hasMore r = false ->
             nextCursor r = None \/ nextCursor r = Some EmptyString))
  /\ (forall c channelId params net,
        page_from_remote net
          (getConversationHistory c channelId params net) has_more)
  /\ (forall c channelId threadTs params net,
        page_from_remote net
          (getConversationReplies c channelId threadTs params net) has_more)
  /\ (forall c params net,
        on_success (listFiles c params net) (fun r => nextCursor r = None))
  /\ (forall c userId params net,
        on_success (listUserReactions c userId params net)
          (fun r => nextCursor r = None))
  /\ (forall c params net,
        on_success (listStars c params net) (fun r => nextCursor r = None)).
Proof.
  assert (Hempty : forall o : option string,
             truthy_opt_string o = false -> o = None \/ o = Some EmptyString).
  { intros [[| ch s] |]; cbn; auto; discriminate. }
  repeat match goal with |- _ /\ _ => split end;
    intros; cbv zeta;
    try (split; reflexivity);
    try (intros r Hr; list_page Hr; reflexivity);
    try (intros r Hr; list_page Hr; eexists _, _;
         split; [eassumption | split; reflexivity]).
  all: split;
    [ intros r Hr; list_page Hr; eexists _, _;
      split; [eassumption | split; reflexivity]
    | intros r Hr; list_page Hr; cbn [hasMore nextCursor createPaginatedResponse
        nullish Options.hasMore Options.nextCursor]; apply Hempty ].
Qed.

Lemma cursor_follows_remote_witness :
  (exists r,
     outcome (listConversations Fixtures.tenant None
                (Fixtures.answers Fixtures.conversations_page)) = Ok r
     /\ nextCursor r = Some "abc" /\ hasMore r = true)
  /\ (exists r,
        outcome (listConversations Fixtures.tenant None
                   (Fixtures.answers Fixtures.conversations_last_page)) = Ok r
        /\ (nextCursor r = None \/ nextCursor r = Some EmptyString))
  /\ (exists r,
        outcome (getConversationHistory Fixtures.tenant "C1" None
                   (Fixtures.answers Fixtures.history_page)) = Ok r
        /\ exists req data,
             answered_ok (Fixtures.answers Fixtures.history_page) req data
             /\ nextCursor r = next_cursor_of (envelope data)
             /\ hasMore r = has_more data).
Proof.
  destruct cursor_follows_remote
    as (_ & _ & Hlist & _ & _ & _ & _ & Hhistory & _).
  split; [| split].
  - eexists. split; [reflexivity |]. split; reflexivity.
  - eexists. split; [reflexivity |].
    apply (proj2 (Hlist Fixtures.tenant None
                    (Fixtures.answers Fixtures.conversations_last_page)) _
             eq_refl).
    reflexivity.
  - eexists. split; [reflexivity |].
    apply (Hhistory Fixtures.tenant "C1" None
             (Fixtures.answers Fixtures.history_page) _ eq_refl).
Defined.

(** C10. The page-counted list operations never read the cursor of their
    parameters: two calls whose parameters differ in the cursor alone send
    the same request bodies, and indeed behave alike in everything. *)
Theorem page_counted_lists_ignore_cursor :
  (forall c (p p' : FileListParams) net,
     fl_limit p = fl_limit p' -> fl_channel p = fl_channel p' ->
     fl_user p = fl_user p' -> fl_types p = fl_types p' ->
     ts_from p = ts_from p' -> ts_to p = ts_to p' ->
     map body (requests (listFiles c (Some p) net))
     = map body (requests (listFiles c (Some p') net))
     /\ listFiles c (Some p) net = listFiles c (Some p') net)
  /\ (forall c (p p' : PaginationParams) net,
        limit p = limit p' ->
        map body (requests (listStars c (Some p) net))
        = map body (requests (listStars c (Some p') net))
        /\ listStars c (Some p) net = listStars c (Some p') net)
  /\ (forall c userId (p p' : PaginationParams) net,
        limit p = limit p' ->
        map body (requests (listUserReactions c userId (Some p) net))
        = map body (requests (listUserReactions c userId (Some p') net))
        /\ listUserReactions c userId (Some p) net
           = listUserReactions c userId (Some p') net).
Proof.
  split; [| split].
  - intros c p p' net Hl Hc Hu Ht Hf Hto.
    assert (listFiles c (Some p) net = listFiles c (Some p') net) as E
      by (unfold listFiles; cbn [opt_field];
          now rewrite Hl, Hc, Hu, Ht, Hf, Hto).
    now rewrite E.
  - intros c p p' net Hl.
    assert (listStars c (Some p) net = listStars c (Some p') net) as E
      by (unfold listStars; cbn [opt_field]; now rewrite Hl).
    now rewrite E.
  - intros c userId p p' net Hl.
    assert (listUserReactions c userId (Some p) net
            = listUserReactions c userId (Some p') net) as E
      by (unfold listUserReactions; cbn [opt_field]; now rewrite Hl).
    now rewrite E.
Qed.

Lemma page_counted_lists_ignore_cursor_witness :
  listFiles Fixtures.tenant
    (Some {| fl_limit := Some (Num 50); fl_cursor := None;
             fl_channel := Some "C1"; fl_user := None; fl_types := None;
             ts_from := None; ts_to := None |})
    Fixtures.rate_limited
  = listFiles Fixtures.tenant
      (Some {| fl_limit := Some (Num 50); fl_cursor := Some "bmV4dDoy";
               fl_channel := Some "C1"; fl_user := None; fl_types := None;
               ts_from := None; ts_to := None |})
      Fixtures.rate_limited
  /\ listStars Fixtures.tenant
       (Some {| limit := Some (Num 50); cursor := None |})
       Fixtures.rate_limited
     = listStars Fixtures.tenant
         (Some {| limit := Some (Num 50); cursor := Some "bmV4dDoy" |})
         Fixtures.rate_limited
  /\ listUserReactions Fixtures.tenant None
       (Some {| limit := Some (Num 50); cursor := None |})
       Fixtures.rate_limited
     = listUserReactions Fixtures.tenant None
         (Some {| limit := Some (Num 50); cursor := Some "bmV4dDoy" |})
         Fixtures.rate_limited.
Proof.
  destruct page_counted_lists_ignore_cursor as (Hfiles & Hstars & Hreactions).
  split; [| split].
  - apply Hfiles; reflexivity.
  - apply Hstars; reflexivity.
  - apply Hreactions; reflexivity.
Defined.

(** *** Serialization of the parameters *)

Lemma stringify_object (props : list (string * jsval)) :
  JSON_stringify (JObj props)
  = Some ("{" ++ join ","
            (flat_map (fun kv => match JSON_stringify (snd kv) with
                                 | Some t => [quote (fst kv) ++ ":" ++ t]
                                 | None => []
                                 end) props) ++ "}").
Proof. reflexivity. Qed.

Lemma stringify_undefined_omitted (props1 props2 : list (string * jsval))
    (k : string) :
  JSON_stringify (JObj (props1 ++ (k, JUndefined) :: props2))
  = JSON_stringify (JObj (props1 ++ props2)).
Proof.
  rewrite !stringify_object, !flat_map_app. reflexivity.
Qed.

Lemma stringify_empty_string_kept (props1 props2 : list (string * jsval))
    (k : string) :
  JSON_stringify (JObj (props1 ++ (k, JStr EmptyString) :: props2))
  <> JSON_stringify (JObj (props1 ++ (k, JUndefined) :: props2)).
Proof.
  rewrite stringify_undefined_omitted, !stringify_object, !flat_map_app.
  set (piece := fun kv : string * jsval =>
                  match JSON_stringify (snd kv) with
                  | Some t => [quote (fst kv) ++ ":" ++ t]
                  | None => []
                  end).
  change (flat_map piece ((k, JStr EmptyString) :: props2))
    with ((quote k ++ ":" ++ quote EmptyString) :: flat_map piece props2).
  assert (exists c x, quote k ++ ":" ++ quote EmptyString = String c x)
    as (c & x & ->) by (eexists; eexists; reflexivity).
  intros [= E]. apply (f_equal String.length) in E.
  pose proof (JsFacts.join_insert_longer "," c x (flat_map piece props1)
                (flat_map piece props2)) as Hlt.
  rewrite !JsFacts.length_append in E. lia.
Qed.

(** The requests of the dispatcher carry [JSON.stringify(params)]. *)
Lemma request_bodies {T : Type} `{Extends T}
    (credentials : TenantCredentials) (method : string)
    (params : list (string * jsval)) (net : Net T)
    (auth : list (string * string)) :
  getAuthHeaders credentials = Ok auth ->
  map body (requests (request credentials method params net))
  = [body_of_json (JSON_stringify (JObj params))].
Proof.
  intro Hauth. rewrite (request_with_credentials _ _ _ _ _ Hauth). reflexivity.
Qed.

(** An explicit empty string is not left out: clearing a topic sends the
    [topic] key with an empty string, and an update of a user group whose
    description is the empty string sends another body than one without a
    description. *)
Lemma empty_string_field_is_sent :
  map body (requests (setConversationTopic Fixtures.tenant "C1" EmptyString
                        Fixtures.rate_limited))
  = [BodyString ("{" ++ quote "channel" ++ ":" ++ quote "C1" ++ ","
                     ++ quote "topic" ++ ":" ++ dquote ++ dquote ++ "}")]
  /\ map body (requests (updateUserGroup Fixtures.tenant "S1"
                           {| ug_name := None; ug_handle := None;
                              ug_description := Some EmptyString;
                              ug_channels := None |}
                           Fixtures.rate_limited))
     <> map body (requests (updateUserGroup Fixtures.tenant "S1"
                              {| ug_name := None; ug_handle := None;
                                 ug_description := None;
                                 ug_channels := None |}
                              Fixtures.rate_limited)).
Proof.
  split; [reflexivity |]. vm_compute. discriminate.
Qed.

(** C6, as the code has it.  A parameter whose value is absent is left out
    of the body, which is the body of the parameters without that key and
    so holds no [null] for it.  A parameter whose value is the empty
    string is written, as the key with an empty string, and the body
    differs from the one that omits the key. *)
Theorem absent_omitted_empty_string_kept {T : Type} `{Extends T}
    (credentials : TenantCredentials) (method : string) (net : Net T)
    (props1 props2 : list (string * jsval)) (k : string) :
  request credentials method (props1 ++ (k, JUndefined) :: props2) net
  = request credentials method (props1 ++ props2) net
  /\ (forall auth, getAuthHeaders credentials = Ok auth ->
      map body (requests (request credentials method
                            (props1 ++ (k, JStr EmptyString) :: props2) net))
      <> map body (requests (request credentials method
                               (props1 ++ (k, JUndefined) :: props2) net))).
Proof.
  split.
  - unfold request. now rewrite stringify_undefined_omitted.
  - intros auth Hauth. rewrite !(request_bodies _ _ _ _ _ Hauth).
    intro E.
    apply (stringify_empty_string_kept props1 props2 k).
    rewrite !stringify_object in E |- *. cbn [body_of_json] in E.
    congruence.
Qed.

Lemma absent_omitted_empty_string_kept_witness :
  request Fixtures.tenant "conversations.setTopic"
    [("channel", JStr "C1"); ("topic", JUndefined)]
    (Fixtures.answers {| channel_base := Fixtures.ok_envelope None;
                         channel := Fixtures.C1 |})
  = request Fixtures.tenant "conversations.setTopic"
      [("channel", JStr "C1")]
      (Fixtures.answers {| channel_base := Fixtures.ok_envelope None;
                           channel := Fixtures.C1 |})
  /\ map body (requests (request Fixtures.tenant "conversations.setTopic"
                           [("channel", JStr "C1"); ("topic", JStr EmptyString)]
                           (Fixtures.answers
                              {| channel_base := Fixtures.ok_envelope None;
                                 channel := Fixtures.C1 |})))
     <> map body (requests (request Fixtures.tenant "conversations.setTopic"
                              [("channel", JStr "C1"); ("topic", JUndefined)]
                              (Fixtures.answers
                                 {| channel_base := Fixtures.ok_envelope None;
                                    channel := Fixtures.C1 |}))).
Proof.
  destruct (absent_omitted_empty_string_kept Fixtures.tenant
              "conversations.setTopic"
              (Fixtures.answers {| channel_base := Fixtures.ok_envelope None;
                                   channel := Fixtures.C1 |})
              [("channel", JStr "C1")] [] "topic") as (Habsent & Hempty).
  split; [exact Habsent | exact (Hempty _ eq_refl)].
Defined.

(** *** File upload *)

Lemma TextEncoder_encode_ascii (content : utf16) :
  Forall (fun c => 0 <= c < 128) content ->
  TextEncoder_encode content = content.
Proof.
  induction 1 as [| c r Hc _ IH]; [reflexivity |].
  cbn [TextEncoder_encode].
  destruct (Z.ltb_spec c 128); [now rewrite IH | lia].
Qed.

(** The byte length of an ASCII text is its number of characters; other
    texts are longer in bytes than in code units. *)
Lemma ascii_text_byte_length (s : string) :
  Forall (fun c => 0 <= c < 128) (utf16_of_ascii s) ->
  List.length (TextEncoder_encode (utf16_of_ascii s)) = String.length s.
Proof.
  intro Hascii. rewrite (TextEncoder_encode_ascii _ Hascii).
  clear Hascii. induction s as [| c s IH]; cbn; [reflexivity | now rewrite IH].
Qed.

Example TextEncoder_encode_beyond_ascii :
  TextEncoder_encode [0xE9] = [0xC3; 0xA9]
  /\ TextEncoder_encode [0x20AC] = [0xE2; 0x82; 0xAC]
  /\ TextEncoder_encode [0xD83D; 0xDE00] = [0xF0; 0x9F; 0x98; 0x80]
  /\ TextEncoder_encode [0xD83D] = [0xEF; 0xBF; 0xBD].
Proof. repeat split. Qed.

(** A successful upload went through its three steps in order: the slot
    request, sized to the UTF-8 length of the content; the POST of the
    content to the URL the first step returned; the completion request
    for the file the first step returned.  Its value is the first of the
    files of the completion answer, if there is one. *)
Lemma uploadFile_steps (c : TenantCredentials) (channels : string)
    (content : utf16) (filename : string)
    (title initialComment threadTs : option string)
    (net1 : Net GetUploadUrlResponse) (net2 : Net unit)
    (net3 : Net CompleteUploadResponse) (f : option SlackFile) :
  outcome (uploadFile c channels content filename title initialComment
             threadTs net1 net2 net3) = Ok f ->
  exists r1 r2 r3 d1 d3,
    requests (uploadFile c channels content filename title initialComment
                threadTs net1 net2 net3) = [r1; r2; r3]
    /\ answered_ok net1 r1 d1
    /\ body r1
       = body_of_json
           (JSON_stringify
              (JObj [("filename", JStr filename);
                     ("length",
                      JNum (Num (Z.of_nat
                                   (List.length (TextEncoder_encode content)))))]))
    /\ r2 = {| url := upload_url d1; method := "POST"; headers := [];
               body := BodyUtf16 content |}
    /\ (exists response, net2 r2 = Responded response)
    /\ answered_ok net3 r3 d3
    /\ body r3
       = body_of_json
           (JSON_stringify
              (JObj [("files",
                      JArr [JObj [("id", JStr (file_id d1));
                                  ("title", JStr (or_string title filename))]]);
                     ("channel_id", JStr channels);
                     ("initial_comment", opt_str initialComment);
                     ("thread_ts", opt_str threadTs)]))
    /\ f = nth_error (complete_files d3) 0.
Proof.
  unfold uploadFile. intro Hok.
  pose proof Hok as H1. apply outcome_bind_Ok in H1.
  destruct H1 as (d1 & Hd1 & H2).
  pose proof H2 as H2'. apply outcome_bind_Ok in H2'.
  destruct H2' as (resp2 & Hfetch & H3).
  pose proof H3 as H3'. apply bind_ret_Ok in H3'.
  destruct H3' as (d3 & Hd3 & ->).
  destruct (request_Ok _ _ _ _ _ Hd1) as (a1 & r1 & _ & Hr1 & Hreq1 & Hans1).
  destruct (request_Ok _ _ _ _ _ Hd3) as (a3 & r3 & _ & Hr3 & Hreq3 & Hans3).
  eexists r1, _, r3, d1, d3.
  rewrite (bind_Ok _ _ _ Hd1), (bind_Ok _ _ _ Hfetch), bind_ret_requests.
  cbn [requests fst]. rewrite Hreq1, Hreq3. cbn [app fetch fst].
  split; [reflexivity |]. split; [assumption |].
  split; [now subst r1 |]. split; [reflexivity |].
  split.
  - unfold fetch, outcome in Hfetch. cbn [snd] in Hfetch.
    match type of Hfetch with
    | context [net2 ?r] => destruct (net2 r) as [n m | response]
    end; [discriminate | eauto].
  - split; [assumption |]. split; [now subst r3 | reflexivity].
Qed.

(** A failure of the first step ends the upload: nothing is posted and no
    completion is requested. *)
Lemma uploadFile_first_step_fails (c : TenantCredentials) (channels : string)
    (content : utf16) (filename : string)
    (title initialComment threadTs : option string)
    (net1 : Net GetUploadUrlResponse) (net2 : Net unit)
    (net3 : Net CompleteUploadResponse) (e : Exn) :
  let step1 :=
    request c "files.getUploadURLExternal"
      [("filename", JStr filename);
       ("length",
        JNum (Num (Z.of_nat (List.length (TextEncoder_encode content)))))]
      net1 in
  outcome step1 = Throw e ->
  uploadFile c channels content filename title initialComment threadTs
    net1 net2 net3
  = (requests step1, Throw e).
Proof. intros step1 He. unfold uploadFile. now rewrite (bind_Throw _ _ _ He). Qed.

(** C7: the code at the failing input.  The upload of a ten-byte text
    asks for a slot of length 10, posts the text to the URL it was given
    and requests the completion, in this order; when the completion
    answers [ok] with no file, [uploadFile] does not fail: it ends
    normally, in [undefined]. *)
Theorem uploadFile_without_files_returns_undefined :
  let m := uploadFile Fixtures.tenant "C1" Fixtures.ten_bytes "notes.txt"
             None None None
             (Fixtures.answers Fixtures.upload_slot)
             (Fixtures.answers tt)
             (Fixtures.answers Fixtures.upload_completed_without_files) in
  outcome m = Ok None
  /\ map url (requests m)
     = ["https://slack.com/api/files.getUploadURLExternal";
        "https://files.slack.com/upload/v1/abc";
        "https://slack.com/api/files.completeUploadExternal"]
  /\ map body (requests m)
     = [BodyString ("{" ++ quote "filename" ++ ":" ++ quote "notes.txt" ++ ","
                        ++ quote "length" ++ ":10}");
        BodyUtf16 Fixtures.ten_bytes;
        BodyString ("{" ++ quote "files" ++ ":[{" ++ quote "id" ++ ":"
                        ++ quote "F123" ++ "," ++ quote "title" ++ ":"
                        ++ quote "notes.txt" ++ "}],"
                        ++ quote "channel_id" ++ ":" ++ quote "C1" ++ "}")].
Proof. cbv zeta. split; [| split]; reflexivity. Qed.

(** *** Rate limits *)

Lemma request_rate_limited {T : Type} `{Extends T}
    (credentials : TenantCredentials) (method : string)
    (params : list (string * jsval)) (net : Net T) :
  fails_rate_limited net (request credentials method params net).
Proof.
  intros req response Hin Hnet Hstatus.
  destruct (getAuthHeaders_cases credentials) as [(auth & Ha) | (e & He)].
  - rewrite (request_with_credentials _ _ _ _ _ Ha) in Hin |- *.
    cbn [requests fst In] in Hin. destruct Hin as [<- | []].
    now rewrite Hnet, Hstatus.
  - rewrite (request_no_credentials _ _ _ _ _ He) in Hin. contradiction.
Qed.

Lemma single_call_rate_limited {T A : Type} `{Extends T}
    (credentials : TenantCredentials) (net : Net T) (op : M A) :
  single_call credentials net op -> fails_rate_limited net op.
Proof.
  intros (method & params & Hreqs & Hthrow & _) req response Hin Hnet Hstatus.
  rewrite Hreqs in Hin.
  pose proof (request_rate_limited credentials method params net
                req response Hin Hnet Hstatus) as Hrun.
  rewrite Hrun in Hreqs, Hthrow. cbn [requests outcome fst snd] in *.
  specialize (Hthrow _ eq_refl).
  destruct op as [log r]. unfold requests, outcome in *.
  cbn [fst snd] in *. now subst.
Qed.

(** A call whose request the remote answers with a success ends in the
    envelope of that answer. *)
Lemma request_answered_ok {T : Type} `{Extends T}
    (credentials : TenantCredentials) (method : string)
    (params : list (string * jsval)) (net : Net T)
    (req : HttpRequest) (data : T) :
  In req (requests (request credentials method params net)) ->
  answered_ok net req data ->
  outcome (request credentials method params net) = Ok data.
Proof.
  intros Hin (response & Hnet & Hstatus & Hjson & Hok).
  destruct (getAuthHeaders_cases credentials) as [(auth & Ha) | (e & He)].
  - rewrite (request_with_credentials _ _ _ _ _ Ha) in Hin |- *.
    cbn [requests outcome fst snd In] in *. destruct Hin as [<- | []].
    rewrite Hnet, Hjson, Hok.
    now destruct (Z.eqb_spec (status response) 429).
  - rewrite (request_no_credentials _ _ _ _ _ He) in Hin. contradiction.
Qed.

(** The upload, step by step: the slot request; if it succeeded, the POST
    of the content; if that was not rejected, whatever its answer, the
    completion request. *)
Lemma uploadFile_run (c : TenantCredentials) (channels : string)
    (content : utf16) (filename : string)
    (title initialComment threadTs : option string)
    (net1 : Net GetUploadUrlResponse) (net2 : Net unit)
    (net3 : Net CompleteUploadResponse) :
  let m := uploadFile c channels content filename title initialComment
             threadTs net1 net2 net3 in
  let step1 :=
    request c "files.getUploadURLExternal"
      [("filename", JStr filename);
       ("length",
        JNum (Num (Z.of_nat (List.length (TextEncoder_encode content)))))]
      net1 in
  match outcome step1 with
  | Throw e => m = (requests step1, Throw e)
  | Ok d1 =>
      let post := {| url := upload_url d1; method := "POST"; headers := [];
                     body := BodyUtf16 content |} in
      match net2 post with
      | Rejected n msg =>
          m = ((requests step1 ++ [post])%list, Throw (PlainError n msg))
      | Responded _ =>
          let step3 :=
            request c "files.completeUploadExternal"
              [("files",
                JArr [JObj [("id", JStr (file_id d1));
                            ("title", JStr (or_string title filename))]]);
               ("channel_id", JStr channels);
               ("initial_comment", opt_str initialComment);
               ("thread_ts", opt_str threadTs)] net3 in
          m = ((requests step1 ++ post :: requests step3)%list,
               match outcome step3 with
               | Ok d3 => Ok (nth_error (complete_files d3) 0)
               | Throw e => Throw e
               end)
      end
  end.
Proof.
  cbv zeta. unfold uploadFile.
  destruct (request c "files.getUploadURLExternal" _ net1)
    as [log1 [d1 | e]]; cbn [outcome requests fst snd bind]; [| reflexivity].
  unfold fetch.
  destruct (net2 _) as [n msg | response]; cbn [bind app]; [reflexivity |].
  destruct (request c "files.completeUploadExternal" _ net3)
    as [log3 [d3 | e]]; cbn [outcome requests fst snd bind ret app];
    rewrite ?app_nil_r; reflexivity.
Qed.

(** C2, as the code has it.  An answer of status 429 makes the dispatcher
    throw [RateLimitError] on the spot, having issued that one request:
    the error is retryable, of status 429, and its [retryAfterSeconds] is
    read from the [Retry-After] header alone (60 when the header is absent
    or empty, the integer of a decimal header such as 30, rounded to a
    double beyond 2^53), the body of the response playing no part.  Every operation that is one call of the
    dispatcher throws that very error and returns nothing; these are all
    the operations of [SlackClient] but two.  The connection test catches
    the error and returns the normal result
    [{connected: false, message: 'Rate limit exceeded'}].  The upload
    throws the error when its slot request or its completion request is
    answered 429, but the answer to its POST of the content is not looked
    at: answered 429 or not, the upload goes on and can return a file. *)
Theorem rate_limit_by_operation :
  (forall (T : Type) (response : HttpResponse T),
     let e := rate_limit_error response in
     class e = RateLimitErrorClass
     /\ name e = "RateLimitError"
     /\ retryable e = true
     /\ statusCode e = Some 429
     /\ (headers_get response "Retry-After" = None ->
         retryAfterSeconds e = Some (Num 60))
     /\ (headers_get response "Retry-After" = Some EmptyString ->
         retryAfterSeconds e = Some (Num 60))
     /\ (forall z, 0 <= z <= 2 ^ 53 ->
         headers_get response "Retry-After" = Some (string_of_Z z) ->
         retryAfterSeconds e = Some (Num z))
     /\ (forall z,
         headers_get response "Retry-After" = Some (string_of_Z z) ->
         retryAfterSeconds e = Some (round_to_double z))
     /\ (forall response' : HttpResponse T,
           headers_get response' "Retry-After"
           = headers_get response "Retry-After" ->
           rate_limit_error response' = e))
  /\ (forall (T : Type) (E : Extends T) c method params (net : Net T),
        fails_rate_limited net (request c method params net))
  /\ (forall (T A : Type) (E : Extends T) c (net : Net T) (op : M A),
        single_call c net op -> fails_rate_limited net op)
  /\ (forall c net req response,
        In req (requests (testConnection c net)) ->
        net req = Responded response -> status response = 429 ->
        testConnection c net
        = ([req], Ok {| connected := false;
                        status_message := "Rate limit exceeded";
                        status_team := None;
                        status_user := None |}))
  /\ (forall c channels content filename title initialComment threadTs
             net1 net2 net3,
        let m := uploadFile c channels content filename title initialComment
                   threadTs net1 net2 net3 in
        (forall r1 rest response,
           requests m = r1 :: rest ->
           net1 r1 = Responded response -> status response = 429 ->
           m = ([r1], Throw (SlackError (rate_limit_error response))))
        /\ (forall r1 r2 rest response,
              requests m = r1 :: r2 :: rest ->
              net2 r2 = Responded response ->
              exists r3, rest = [r3])
        /\ (forall r1 r2 r3 response,
              requests m = [r1; r2; r3] ->
              net3 r3 = Responded response -> status response = 429 ->
              outcome m = Throw (SlackError (rate_limit_error response)))
        /\ (forall r1 r2 r3 d3,
              requests m = [r1; r2; r3] ->
              answered_ok net3 r3 d3 ->
              outcome m = Ok (nth_error (complete_files d3) 0)))
  /\ (forall c params net, fails_rate_limited net (listConversations c params net))
  /\ (forall c channelId net,
        fails_rate_limited net (getConversationInfo c channelId net))
  /\ (forall c channelId params net,
        fails_rate_limited net (getConversationHistory c channelId params net))
  /\ (forall c channelId threadTs params net,
        fails_rate_limited net
          (getConversationReplies c channelId threadTs params net))
  /\ (forall c name isPrivate net,
        fails_rate_limited net (createConversation c name isPrivate net))
  /\ (forall c channelId net,
        fails_rate_limited net (archiveConversation c channelId net))
  /\ (forall c channelId net,
        fails_rate_limited net (unarchiveConversation c channelId net))
  /\ (forall c channelId name net,
        fails_rate_limited net (renameConversation c channelId name net))
  /\ (forall c channelId topic net,
        fails_rate_limited net (setConversationTopic c channelId topic net))
  /\ (forall c channelId purpose net,
        fails_rate_limited net (setConversationPurpose c channelId purpose net))
  /\ (forall c channelId userIds net,
        fails_rate_limited net (inviteToConversation c channelId userIds net))
  /\ (forall c channelId userId net,
        fails_rate_limited net (kickFromConversation c channelId userId net))
  /\ (forall c channelId net,
        fails_rate_limited net (joinConversation c channelId net))
  /\ (forall c channelId net,
        fails_rate_limited net (leaveConversation c channelId net))
  /\ (forall c channelId params net,
        fails_rate_limited net (getConversationMembers c channelId params net))
  /\ (forall c params net, fails_rate_limited net (postMessage c params net))
  /\ (forall c params net, fails_rate_limited net (updateMessage c params net))
  /\ (forall c channelId ts net,
        fails_rate_limited net (deleteMessage c channelId ts net))
  /\ (forall c params now net,
        fails_rate_limited net (scheduleMessage c params now net))
  /\ (forall c channelId scheduledMessageId net,
        fails_rate_limited net
          (deleteScheduledMessage c channelId scheduledMessageId net))
  /\ (forall c channelId params net,
        fails_rate_limited net (listScheduledMessages c channelId params net))
  /\ (forall c channelId messageTs net,
        fails_rate_limited net (getPermalink c channelId messageTs net))
  /\ (forall c params net, fails_rate_limited net (listUsers c params net))
  /\ (forall c userId net, fails_rate_limited net (getUserInfo c userId net))
  /\ (forall c email net, fails_rate_limited net (getUserByEmail c email net))
  /\ (forall c userId net, fails_rate_limited net (getUserPresence c userId net))
  /\ (forall c presence net,
        fails_rate_limited net (setUserPresence c presence net))
  /\ (forall c userId params net,
        fails_rate_limited net (getUserConversations c userId params net))
  /\ (forall c params net, fails_rate_limited net (listFiles c params net))
  /\ (forall c fileId net, fails_rate_limited net (getFileInfo c fileId net))
  /\ (forall c fileId net, fails_rate_limited net (deleteFile c fileId net))
  /\ (forall c channelId timestamp name net,
        fails_rate_limited net (addReaction c channelId timestamp name net))
  /\ (forall c channelId timestamp name net,
        fails_rate_limited net (removeReaction c channelId timestamp name net))
  /\ (forall c channelId timestamp net,
        fails_rate_limited net (getReactions c channelId timestamp net))
  /\ (forall c userId params net,
        fails_rate_limited net (listUserReactions c userId params net))
  /\ (forall c params net, fails_rate_limited net (searchMessages c params net))
  /\ (forall c params net, fails_rate_limited net (searchFiles c params net))
  /\ (forall c params net, fails_rate_limited net (searchAll c params net))
  /\ (forall c channelId timestamp net,
        fails_rate_limited net (addPin c channelId timestamp net))
  /\ (forall c channelId timestamp net,
        fails_rate_limited net (removePin c channelId timestamp net))
  /\ (forall c channelId net, fails_rate_limited net (listPins c channelId net))
  /\ (forall c channelId timestamp fileId net,
        fails_rate_limited net (addStar c channelId timestamp fileId net))
  /\ (forall c channelId timestamp fileId net,
        fails_rate_limited net (removeStar c channelId timestamp fileId net))
  /\ (forall c params net, fails_rate_limited net (listStars c params net))
  /\ (forall c text time userId net,
        fails_rate_limited net (addReminder c text time userId net))
  /\ (forall c reminderId net,
        fails_rate_limited net (completeReminder c reminderId net))
  /\ (forall c reminderId net,
        fails_rate_limited net (deleteReminder c reminderId net))
  /\ (forall c reminderId net,
        fails_rate_limited net (getReminder c reminderId net))
  /\ (forall c net, fails_rate_limited net (listReminders c net))
  /\ (forall c channelId title type link emoji net,
        fails_rate_limited net (addBookmark c channelId title type link emoji net))
  /\ (forall c channelId bookmarkId updates net,
        fails_rate_limited net (editBookmark c channelId bookmarkId updates net))
  /\ (forall c channelId bookmarkId net,
        fails_rate_limited net (removeBookmark c channelId bookmarkId net))
  /\ (forall c channelId net,
        fails_rate_limited net (listBookmarks c channelId net))
  /\ (forall c includeUsers includeDisabled net,
        fails_rate_limited net (listUserGroups c includeUsers includeDisabled net))
  /\ (forall c name handle description channels net,
        fails_rate_limited net
          (createUserGroup c name handle description channels net))
  /\ (forall c userGroupId updates net,
        fails_rate_limited net (updateUserGroup c userGroupId updates net))
  /\ (forall c userGroupId net,
        fails_rate_limited net (disableUserGroup c userGroupId net))
  /\ (forall c userGroupId net,
        fails_rate_limited net (enableUserGroup c userGroupId net))
  /\ (forall c userGroupId net,
        fails_rate_limited net (getUserGroupMembers c userGroupId net))
  /\ (forall c userGroupId userIds net,
        fails_rate_limited net (updateUserGroupMembers c userGroupId userIds net))
  /\ (forall c net, fails_rate_limited net (getTeamInfo c net))
  /\ (forall c userId net, fails_rate_limited net (getBillableInfo c userId net))
  /\ (forall c userId net, fails_rate_limited net (getDndInfo c userId net))
  /\ (forall c numMinutes net,
        fails_rate_limited net (setDndSnooze c numMinutes net))
  /\ (forall c net, fails_rate_limited net (endDndSnooze c net))
  /\ (forall c numMinutes net, fails_rate_limited net (setDnd c numMinutes net))
  /\ (forall c net, fails_rate_limited net (endDnd c net))
  /\ (forall c net, fails_rate_limited net (listEmoji c net)).
Proof.
  split.
  { intros T response e. subst e. unfold rate_limit_error.
    repeat split.
    - intros ->. reflexivity.
    - intros ->. reflexivity.
    - intros z Hz ->. cbn [retryAfterSeconds new_RateLimitError subclass].
      rewrite string_of_Z_truthy, JsFacts.parseInt_string_of_Z.
      rewrite JsFacts.round_to_double_exact; [reflexivity | lia].
    - intros z ->. cbn [retryAfterSeconds new_RateLimitError subclass].
      now rewrite string_of_Z_truthy, JsFacts.parseInt_string_of_Z.
    - intros response' ->. reflexivity. }
  split; [intros; apply request_rate_limited |].
  split; [intros T A E c net op Hop; exact (single_call_rate_limited _ _ _ Hop) |].
  split.
  { intros c net req response Hin Hnet Hstatus. unfold testConnection in *.
    assert (Hreqs : requests
                      (try_catch
                         (result <- request c "auth.test" [] net ;;
                          ret {| connected := true;
                                 status_message :=
                                   "Successfully connected to Slack";
                                 status_team := Some (team result);
                                 status_user := Some (user result) |})
                         (fun error =>
                            ret {| connected := false;
                                   status_message := exn_message error;
                                   status_team := None;
                                   status_user := None |}))
                    = requests (request c "auth.test" [] net)).
    { destruct (request c "auth.test" [] net) as [log [d | e]]; cbn;
        now rewrite app_nil_r. }
    rewrite Hreqs in Hin.
    rewrite (request_rate_limited c "auth.test" [] net req response
               Hin Hnet Hstatus).
    reflexivity. }
  split.
  { intros c channels content filename title initialComment threadTs
      net1 net2 net3 m.
    pose proof (uploadFile_run c channels content filename title
                  initialComment threadTs net1 net2 net3) as Hrun.
    cbv zeta in Hrun. fold m in Hrun.
    set (step1 := request c "files.getUploadURLExternal" _ net1) in Hrun.
    pose proof (request_at_most_one c "files.getUploadURLExternal"
                  [("filename", JStr filename);
                   ("length",
                    JNum (Num (Z.of_nat
                                 (List.length (TextEncoder_encode content)))))]
                  net1) as Hone.
    fold step1 in Hone.
    destruct (outcome step1) as [d1 | e] eqn:E1.
    - destruct (request_Ok _ _ _ _ _ E1) as (a1 & q1 & _ & _ & Hq1 & Hans1).
      fold step1 in Hq1. rewrite Hq1 in Hrun. cbn [app] in Hrun.
      set (post := mkHttpRequest (upload_url d1) _ _ _) in Hrun.
      destruct (net2 post) as [n msg | resp2] eqn:E2.
      + rewrite Hrun. cbn [requests outcome fst snd].
        repeat split.
        * intros r1 rest response [= <- <-] Hnet Hs.
          destruct Hans1 as (r & Hr & Hne & _). congruence.
        * intros r1 r2 rest response [= <- <- <-] Hnet. congruence.
        * intros r1 r2 r3 response Hr. discriminate Hr.
        * intros r1 r2 r3 d3 Hr. discriminate Hr.
      + set (step3 := request c "files.completeUploadExternal" _ net3) in Hrun.
        pose proof (request_at_most_one c "files.completeUploadExternal"
                      [("files",
                        JArr [JObj [("id", JStr (file_id d1));
                                    ("title",
                                     JStr (or_string title filename))]]);
                       ("channel_id", JStr channels);
                       ("initial_comment", opt_str initialComment);
                       ("thread_ts", opt_str threadTs)] net3) as Hone3.
        fold step3 in Hone3.
        rewrite Hrun. cbn [requests outcome fst snd].
        repeat split.
        * intros r1 rest response [= <- <-] Hnet Hs.
          destruct Hans1 as (r & Hr & Hne & _). congruence.
        * intros r1 r2 rest response [= <- <- <-] Hnet.
          destruct (requests step3) as [| r3 [| r4 l]] eqn:E3;
            [| eauto | cbn in Hone3; lia].
          exfalso.
          destruct (getAuthHeaders_cases c) as [(auth & Ha) | (e & He)].
          -- unfold step3 in E3.
             rewrite (request_with_credentials _ _ _ _ _ Ha) in E3.
             discriminate E3.
          -- unfold step1 in E1.
             rewrite (request_no_credentials _ _ _ _ _ He) in E1.
             discriminate E1.
        * intros r1 r2 r3 response [= <- <- Hr3] Hnet Hs.
          assert (Hin : In r3 (requests step3)) by (rewrite Hr3; now left).
          unfold step3 in *.
          rewrite (request_rate_limited _ _ _ _ _ _ Hin Hnet Hs).
          reflexivity.
        * intros r1 r2 r3 d3 [= <- <- Hr3] Hans.
          assert (Hin : In r3 (requests step3)) by (rewrite Hr3; now left).
          unfold step3 in *.
          now rewrite (request_answered_ok _ _ _ _ _ _ Hin Hans).
    - rewrite Hrun. cbn [requests outcome fst snd].
      repeat split.
      + intros r1 rest response Hr Hnet Hs.
        assert (Hin : In r1 (requests step1)) by (rewrite Hr; now left).
        pose proof (request_rate_limited _ _ _ _ _ _ Hin Hnet Hs) as Hrl.
        fold step1 in Hrl. rewrite Hrl in E1 |- *.
        cbn [requests outcome fst snd] in *. congruence.
      + intros r1 r2 rest response Hr. rewrite Hr in Hone. cbn in Hone. lia.
      + intros r1 r2 r3 response Hr. rewrite Hr in Hone. cbn in Hone. lia.
      + intros r1 r2 r3 d3 Hr. rewrite Hr in Hone. cbn in Hone. lia. }
  repeat match goal with
         | |- _ /\ _ => split
         end;
    intros;
    apply (single_call_rate_limited c);
    apply request_then_ret_single_call.
Qed.

(** Against a remote that answers 429 with [Retry-After: 30], a list
    operation throws the error with the delay 30; an upload whose POST of
    the content is answered so goes on and returns its file. *)
Lemma rate_limit_by_operation_witness :
  listConversations Fixtures.tenant None Fixtures.rate_limited
  = ([{| url := "https://slack.com/api/conversations.list";
         method := "POST";
         headers := [("Authorization", "Bearer xoxb-test");
                     ("Content-Type", "application/json; charset=utf-8")];
         body := BodyString
                   ("{" ++ quote "types" ++ ":"
                        ++ quote "public_channel,private_channel" ++ ","
                        ++ quote "exclude_archived" ++ ":true,"
                        ++ quote "limit" ++ ":100}") |}],
     Throw (SlackError (new_RateLimitError "Rate limit exceeded" (Num 30))))
  /\ outcome (uploadFile Fixtures.tenant "C1" Fixtures.ten_bytes "notes.txt"
                None None None
                (Fixtures.answers Fixtures.upload_slot)
                Fixtures.rate_limited
                (Fixtures.answers Fixtures.upload_completed))
     = Ok (Some (JObj [("id", JStr "F123")])).
Proof.
  destruct rate_limit_by_operation as (_ & _ & _ & _ & Hupload & Hlist & _).
  split.
  - apply (Hlist Fixtures.tenant None (@Fixtures.rate_limited ChannelsResponse)
             _ _ (or_introl eq_refl) eq_refl eq_refl).
  - destruct (Hupload Fixtures.tenant "C1" Fixtures.ten_bytes "notes.txt"
                None None None
                (Fixtures.answers Fixtures.upload_slot)
                (@Fixtures.rate_limited unit)
                (Fixtures.answers Fixtures.upload_completed))
      as (_ & _ & _ & Hfile).
    eapply (Hfile _ _ _ Fixtures.upload_completed eq_refl).
    eexists. split; [reflexivity |]. split; [discriminate |].
    split; reflexivity.
Defined.

(** C2: the connection test against a remote that answers its one request
    with status 429 and [Retry-After: 30].  The dispatcher throws, and the
    operation ends normally all the same: no error reaches the caller, and
    the delay of 30 seconds is lost. *)
Lemma rate_limited_connection_test_returns :
  let m := testConnection Fixtures.tenant Fixtures.rate_limited in
  (exists req response,
     requests m = [req]
     /\ @Fixtures.rate_limited AuthTestResponse req = Responded response
     /\ status response = 429
     /\ headers_get response "Retry-After" = Some "30")
  /\ outcome m = Ok {| connected := false;
                       status_message := "Rate limit exceeded";
                       status_team := None;
                       status_user := None |}.
Proof.
  cbv zeta. split; [| reflexivity].
  eexists. eexists. split; [reflexivity |].
  split; [reflexivity |]. split; reflexivity.
Qed.

(** *** Propagation of failures *)

(** The connection test turns a failure of its call into a normal result:
    against a remote that answers 429 the dispatcher throws and
    [testConnection] returns. *)
Lemma testConnection_returns_on_failure :
  outcome (request Fixtures.tenant "auth.test" []
             (@Fixtures.rate_limited AuthTestResponse))
  = Throw (SlackError (new_RateLimitError "Rate limit exceeded" (Num 30)))
  /\ outcome (testConnection Fixtures.tenant Fixtures.rate_limited)
     = Ok {| connected := false;
             status_message := "Rate limit exceeded";
             status_team := None;
             status_user := None |}
  /\ ~ single_call Fixtures.tenant (@Fixtures.rate_limited AuthTestResponse)
        (testConnection Fixtures.tenant Fixtures.rate_limited).
Proof.
  split; [reflexivity | split; [reflexivity |]].
  intros (method & params & _ & Hthrow & _).
  specialize (Hthrow _ eq_refl). discriminate Hthrow.
Qed.

Lemma request_failures {T : Type} `{Extends T}
    (credentials : TenantCredentials) (method : string)
    (params : list (string * jsval)) (net : Net T) :
  let m := request credentials method params net in
  (List.length (requests m) <= 1)%nat
  /\ (forall e, getAuthHeaders credentials = Throw e -> m = ([], Throw e))
  /\ (forall req n msg,
        In req (requests m) -> net req = Rejected n msg ->
        outcome m = Throw (PlainError n msg))
  /\ (forall req response,
        In req (requests m) -> net req = Responded response ->
        status response = 429 ->
        exists e, outcome m = Throw (SlackError e)
                  /\ class e = RateLimitErrorClass /\ retryable e = true)
  /\ (forall req response msg,
        In req (requests m) -> net req = Responded response ->
        status response <> 429 -> json response = JsonSyntaxError msg ->
        outcome m = Throw (PlainError "SyntaxError" msg))
  /\ (forall req response data,
        In req (requests m) -> net req = Responded response ->
        status response <> 429 -> json response = JsonValue data ->
        ok (envelope data) = false ->
        outcome m
        = Throw (SlackError
                   (mapSlackError
                      (or_string (error (envelope data)) "unknown_error")
                      (error (envelope data)))))
  /\ (forall data,
        outcome m = Ok data ->
        exists req, requests m = [req] /\ answered_ok net req data).
Proof.
  cbv zeta. split; [apply request_at_most_one |].
  split; [intros; now apply request_no_credentials |].
  assert (Hlast : forall data,
             outcome (request credentials method params net) = Ok data ->
             exists req,
               requests (request credentials method params net) = [req]
               /\ answered_ok net req data).
  { intros data Hd.
    destruct (request_Ok _ _ _ _ _ Hd) as (a & r & _ & _ & Hr & Hans). eauto. }
  destruct (getAuthHeaders_cases credentials) as [(auth & Ha) | (e & He)].
  - rewrite (request_with_credentials _ _ _ _ _ Ha) in *.
    cbn [requests outcome fst snd In] in *.
    repeat split; try assumption.
    + intros req n msg [<- | []] Hnet. now rewrite Hnet.
    + intros req response [<- | []] Hnet Hs. rewrite Hnet, Hs.
      eexists. repeat split.
    + intros req response msg [<- | []] Hnet Hs Hj. rewrite Hnet, Hj.
      now destruct (Z.eqb_spec (status response) 429).
    + intros req response data [<- | []] Hnet Hs Hj Hok. rewrite Hnet, Hj, Hok.
      now destruct (Z.eqb_spec (status response) 429).
  - rewrite (request_no_credentials _ _ _ _ _ He) in *.
    cbn [requests outcome fst snd In] in *.
    repeat split; try assumption; intros; contradiction.
Qed.

(** C8, as the code has it.  The dispatcher issues at most one HTTP
    request and ends in a value only when the remote answered with a
    success; missing credentials, a rejected [fetch], a 429, a body that
    is not JSON and an envelope whose [ok] is false each make it throw: a
    [SlackApiError] for the remote error envelope, the rate limit and the
    missing credentials, the error of [fetch] or of [json()] otherwise.
    Every operation of [SlackClient] but the connection test and the
    upload is one call of the dispatcher whose failure it passes on
    unchanged.  The upload is a call, a POST and a call, each made once
    and in this order: the failure of either call and the rejection of
    the POST end it on the spot and are passed on unchanged, so that it
    ends in a value only when both calls were answered with a success and
    the POST was not rejected; the answer to the POST is not looked at,
    whatever its status.  The connection test never throws: it turns the
    failure of its call into the normal result
    [{connected: false, message}]. *)
Theorem failures_surface_except_in_testConnection :
  (forall (T : Type) (E : Extends T) c method params (net : Net T),
     let m := request c method params net in
     (List.length (requests m) <= 1)%nat
     /\ (forall e, getAuthHeaders c = Throw e -> m = ([], Throw e))
     /\ (forall req n msg,
           In req (requests m) -> net req = Rejected n msg ->
           outcome m = Throw (PlainError n msg))
     /\ (forall req response,
           In req (requests m) -> net req = Responded response ->
           status response = 429 ->
           exists e, outcome m = Throw (SlackError e)
                     /\ class e = RateLimitErrorClass /\ retryable e = true)
     /\ (forall req response msg,
           In req (requests m) -> net req = Responded response ->
           status response <> 429 -> json response = JsonSyntaxError msg ->
           outcome m = Throw (PlainError "SyntaxError" msg))
     /\ (forall req response data,
           In req (requests m) -> net req = Responded response ->
           status response <> 429 -> json response = JsonValue data ->
           ok (envelope data) = false ->
           outcome m
           = Throw (SlackError
                      (mapSlackError
                         (or_string (error (envelope data)) "unknown_error")
                         (error (envelope data)))))
     /\ (forall data,
           outcome m = Ok data ->
           exists req, requests m = [req] /\ answered_ok net req data))
  /\ (forall c net,
        requests (testConnection c net)
        = requests (request c "auth.test" [] net)
        /\ (forall e,
              outcome (request c "auth.test" [] net) = Throw e ->
              outcome (testConnection c net)
              = Ok {| connected := false;
                      status_message := exn_message e;
                      status_team := None;
                      status_user := None |})
        /\ (forall data,
              outcome (request c "auth.test" [] net) = Ok data ->
              outcome (testConnection c net)
              = Ok {| connected := true;
                      status_message := "Successfully connected to Slack";
                      status_team := Some (team data);
                      status_user := Some (user data) |}))
  /\ (forall c channels content filename title initialComment threadTs
             net1 net2 net3,
        let m := uploadFile c channels content filename title initialComment
                   threadTs net1 net2 net3 in
        let step1 :=
          request c "files.getUploadURLExternal"
            [("filename", JStr filename);
             ("length",
              JNum (Num (Z.of_nat
                           (List.length (TextEncoder_encode content)))))]
            net1 in
        (forall f, outcome m = Ok f ->
           exists r1 r2 r3 d1 d3,
             requests m = [r1; r2; r3]
             /\ answered_ok net1 r1 d1
             /\ (exists response, net2 r2 = Responded response)
             /\ answered_ok net3 r3 d3)
        /\ match outcome step1 with
           | Throw e => m = (requests step1, Throw e)
           | Ok d1 =>
               let post := {| url := upload_url d1; method := "POST";
                              headers := [];
                              body := BodyUtf16 content |} in
               match net2 post with
               | Rejected n msg =>
                   m = ((requests step1 ++ [post])%list,
                        Throw (PlainError n msg))
               | Responded _ =>
                   let step3 :=
                     request c "files.completeUploadExternal"
                       [("files",
                         JArr [JObj [("id", JStr (file_id d1));
                                     ("title",
                                      JStr (or_string title filename))]]);
                        ("channel_id", JStr channels);
                        ("initial_comment", opt_str initialComment);
                        ("thread_ts", opt_str threadTs)] net3 in
                   m = ((requests step1 ++ post :: requests step3)%list,
                        match outcome step3 with
                        | Ok d3 => Ok (nth_error (complete_files d3) 0)
                        | Throw e => Throw e
                        end)
               end
           end)
  /\ (forall c params net, single_call c net (listConversations c params net))
  /\ (forall c channelId net,
        single_call c net (getConversationInfo c channelId net))
  /\ (forall c channelId params net,
        single_call c net (getConversationHistory c channelId params net))
  /\ (forall c channelId threadTs params net,
        single_call c net
          (getConversationReplies c channelId threadTs params net))
  /\ (forall c name isPrivate net,
        single_call c net (createConversation c name isPrivate net))
  /\ (forall c channelId net,
        single_call c net (archiveConversation c channelId net))
  /\ (forall c channelId net,
        single_call c net (unarchiveConversation c channelId net))
  /\ (forall c channelId name net,
        single_call c net (renameConversation c channelId name net))
  /\ (forall c channelId topic net,
        single_call c net (setConversationTopic c channelId topic net))
  /\ (forall c channelId purpose net,
        single_call c net (setConversationPurpose c channelId purpose net))
  /\ (forall c channelId userIds net,
        single_call c net (inviteToConversation c channelId userIds net))
  /\ (forall c channelId userId net,
        single_call c net (kickFromConversation c channelId userId net))
  /\ (forall c channelId net,
        single_call c net (joinConversation c channelId net))
  /\ (forall c channelId net,
        single_call c net (leaveConversation c channelId net))
  /\ (forall c channelId params net,
        single_call c net (getConversationMembers c channelId params net))
  /\ (forall c params net, single_call c net (postMessage c params net))
  /\ (forall c params net, single_call c net (updateMessage c params net))
  /\ (forall c channelId ts net,
        single_call c net (deleteMessage c channelId ts net))
  /\ (forall c params now net,
        single_call c net (scheduleMessage c params now net))
  /\ (forall c channelId scheduledMessageId net,
        single_call c net
          (deleteScheduledMessage c channelId scheduledMessageId net))
  /\ (forall c channelId params net,
        single_call c net (listScheduledMessages c channelId params net))
  /\ (forall c channelId messageTs net,
        single_call c net (getPermalink c channelId messageTs net))
  /\ (forall c params net, single_call c net (listUsers c params net))
  /\ (forall c userId net, single_call c net (getUserInfo c userId net))
  /\ (forall c email net, single_call c net (getUserByEmail c email net))
  /\ (forall c userId net, single_call c net (getUserPresence c userId net))
  /\ (forall c presence net,
        single_call c net (setUserPresence c presence net))
  /\ (forall c userId params net,
        single_call c net (getUserConversations c userId params net))
  /\ (forall c params net, single_call c net (listFiles c params net))
  /\ (forall c fileId net, single_call c net (getFileInfo c fileId net))
  /\ (forall c fileId net, single_call c net (deleteFile c fileId net))
  /\ (forall c channelId timestamp name net,
        single_call c net (addReaction c channelId timestamp name net))
  /\ (forall c channelId timestamp name net,
        single_call c net (removeReaction c channelId timestamp name net))
  /\ (forall c channelId timestamp net,
        single_call c net (getReactions c channelId timestamp net))
  /\ (forall c userId params net,
        single_call c net (listUserReactions c userId params net))
  /\ (forall c params net, single_call c net (searchMessages c params net))
  /\ (forall c params net, single_call c net (searchFiles c params net))
  /\ (forall c params net, single_call c net (searchAll c params net))
  /\ (forall c channelId timestamp net,
        single_call c net (addPin c channelId timestamp net))
  /\ (forall c channelId timestamp net,
        single_call c net (removePin c channelId timestamp net))
  /\ (forall c channelId net, single_call c net (listPins c channelId net))
  /\ (forall c channelId timestamp fileId net,
        single_call c net (addStar c channelId timestamp fileId net))
  /\ (forall c channelId timestamp fileId net,
        single_call c net (removeStar c channelId timestamp fileId net))
  /\ (forall c params net, single_call c net (listStars c params net))
  /\ (forall c text time userId net,
        single_call c net (addReminder c text time userId net))
  /\ (forall c reminderId net,
        single_call c net (completeReminder c reminderId net))
  /\ (forall c reminderId net,
        single_call c net (deleteReminder c reminderId net))
  /\ (forall c reminderId net,
        single_call c net (getReminder c reminderId net))
  /\ (forall c net, single_call c net (listReminders c net))
  /\ (forall c channelId title type link emoji net,
        single_call c net (addBookmark c channelId title type link emoji net))
  /\ (forall c channelId bookmarkId updates net,
        single_call c net (editBookmark c channelId bookmarkId updates net))
  /\ (forall c channelId bookmarkId net,
        single_call c net (removeBookmark c channelId bookmarkId net))
  /\ (forall c channelId net,
        single_call c net (listBookmarks c channelId net))
  /\ (forall c includeUsers includeDisabled net,
        single_call c net (listUserGroups c includeUsers includeDisabled net))
  /\ (forall c name handle description channels net,
        single_call c net
          (createUserGroup c name handle description channels net))
  /\ (forall c userGroupId updates net,
        single_call c net (updateUserGroup c userGroupId updates net))
  /\ (forall c userGroupId net,
        single_call c net (disableUserGroup c userGroupId net))
  /\ (forall c userGroupId net,
        single_call c net (enableUserGroup c userGroupId net))
  /\ (forall c userGroupId net,
        single_call c net (getUserGroupMembers c userGroupId net))
  /\ (forall c userGroupId userIds net,
        single_call c net (updateUserGroupMembers c userGroupId userIds net))
  /\ (forall c net, single_call c net (getTeamInfo c net))
  /\ (forall c userId net, single_call c net (getBillableInfo c userId net))
  /\ (forall c userId net, single_call c net (getDndInfo c userId net))
  /\ (forall c numMinutes net,
        single_call c net (setDndSnooze c numMinutes net))
  /\ (forall c net, single_call c net (endDndSnooze c net))
  /\ (forall c numMinutes net, single_call c net (setDnd c numMinutes net))
  /\ (forall c net, single_call c net (endDnd c net))
  /\ (forall c net, single_call c net (listEmoji c net)).
Proof.
  split; [intros; apply request_failures |].
  split.
  { intros c net. unfold testConnection.
    destruct (request c "auth.test" [] net) as [log [data | e]] eqn:E;
      cbn; rewrite ?app_nil_r; repeat split; congruence. }
  split.
  { intros c channels content filename title initialComment threadTs
      net1 net2 net3 m step1. subst m step1. split.
    - intros f Hf. apply uploadFile_steps in Hf.
      destruct Hf as (r1 & r2 & r3 & d1 & d3 & Hr & H1 & _ & _ & H2 & H3 & _).
      exists r1, r2, r3, d1, d3. auto.
    - apply uploadFile_run. }
  repeat match goal with
         | |- _ /\ _ => split
         end;
    intros; apply request_then_ret_single_call.
Qed.

Lemma failures_surface_except_in_testConnection_witness :
  outcome (listConversations Fixtures.tenant None Fixtures.rate_limited)
  = Throw (SlackError (new_RateLimitError "Rate limit exceeded" (Num 30)))
  /\ outcome (testConnection Fixtures.tenant Fixtures.rate_limited)
     = Ok {| connected := false;
             status_message := "Rate limit exceeded";
             status_team := None;
             status_user := None |}.
Proof.
  destruct failures_surface_except_in_testConnection
    as (_ & Htest & _ & Hlist & _).
  split.
  - destruct (Hlist Fixtures.tenant None Fixtures.rate_limited)
      as (method & params & _ & Hthrow & _).
    apply Hthrow. reflexivity.
  - destruct (Htest Fixtures.tenant Fixtures.rate_limited) as (_ & Hfail & _).
    apply (Hfail (SlackError (new_RateLimitError "Rate limit exceeded" (Num 30)))).
    reflexivity.
Defined.

End ClientFacts.

(* ===================================================================== *)
(** ** Properties of the string built-ins and of the encoder *)
(* ===================================================================== *)

Module JsTextFacts.
Import Js JsText.

Lemma starts_with_spec (p s : string) :
  starts_with p s = true <-> exists b, s = p ++ b.
Proof.
  revert s. induction p as [| a p IH]; intro s; cbn.
  - split; [intros _; now exists s | reflexivity].
  - destruct s as [| b s].
    + split; [discriminate | intros (r & Hr); discriminate Hr].
    + rewrite andb_true_iff, IH. split.
      * intros (Hab & r & ->). apply Ascii.eqb_eq in Hab. subst b. now exists r.
      * intros (r & [= -> ->]). split; [apply Ascii.eqb_refl | now exists r].
Qed.

(** [includes] finds exactly the substrings. *)
Lemma includes_spec (s sub : string) :
  includes s sub = true <-> exists a b, s = a ++ sub ++ b.
Proof.
  induction s as [| c s IH].
  - cbn [includes]. rewrite orb_false_r, starts_with_spec. split.
    + intros (b & Hb). now exists EmptyString, b.
    + intros (a & b & Hab). destruct a; [now exists b | discriminate Hab].
  - cbn [includes]. rewrite orb_true_iff, starts_with_spec, IH. split.
    + intros [(b & ->) | (a & b & ->)].
      * now exists EmptyString, b.
      * now exists (String c a), b.
    + intros (a & b & Hab). destruct a as [| c' a].
      * left. now exists b.
      * right. injection Hab as -> ->. now exists a, b.
Qed.

(** Splitting and joining again gives the string back. *)
Lemma join_split (sep : ascii) (s : string) :
  join (String sep EmptyString) (split sep s) = s.
Proof.
  unfold split.
  induction s as [| c s IH]; [reflexivity |].
  cbn [split_from]. destruct (split_from sep s) as [piece pieces].
  destruct (Ascii.eqb_spec c sep) as [-> | Hne].
  - cbn [join append]. now rewrite <- IH.
  - rewrite <- IH. destruct pieces; reflexivity.
Qed.

Lemma trim_end_no_white_space (s : string) :
  no_white_space s -> trim_end s = s.
Proof.
  unfold no_white_space. induction s as [| c s IH]; [reflexivity |].
  cbn. intro H. inversion H as [| ? ? Hc Hs]; subst.
  rewrite (IH Hs). destruct s; [now rewrite Hc | reflexivity].
Qed.

Lemma trim_no_white_space (s : string) : no_white_space s -> trim s = s.
Proof.
  intro H. unfold trim.
  assert (skip_white_space s = s) as ->.
  { destruct s as [| c s]; [reflexivity |]. cbn.
    inversion H as [| ? ? Hc _]; subst. now rewrite Hc. }
  now apply trim_end_no_white_space.
Qed.

(** The pieces of a string without white space have none either. *)
Lemma split_no_white_space (sep : ascii) (s : string) :
  no_white_space s -> Forall no_white_space (split sep s).
Proof.
  unfold split, no_white_space.
  induction s as [| c s IH]; cbn [split_from list_ascii_of_string].
  - intros _. repeat constructor.
  - intro H. inversion H as [| ? ? Hc Hs]; subst. specialize (IH Hs).
    destruct (split_from sep s) as [piece pieces].
    inversion IH as [| ? ? Hp Hps]; subst.
    destruct (Ascii.eqb c sep).
    + constructor; [constructor | now constructor].
    + constructor; [| assumption]. cbn. now constructor.
Qed.

Lemma map_trim_no_white_space (l : list string) :
  Forall no_white_space l -> map trim l = l.
Proof.
  induction 1 as [| s l Hs _ IH]; [reflexivity |].
  cbn. now rewrite IH, (trim_no_white_space _ Hs).
Qed.

(** A string that starts with neither white space, a sign nor a digit is
    no number for [parseInt]. *)
Lemma parseInt_not_a_number (c : ascii) (r : string) :
  is_white_space c = false -> digit_of c = None ->
  c <> "-"%char -> c <> "+"%char ->
  parseInt (String c r) = NaN.
Proof.
  intros Hw Hd Hm Hp. unfold parseInt. cbn [skip_white_space]. rewrite Hw.
  assert ((let '(sign, s2) :=
             match String c r with
             | String "-"%char r0 => (-1, r0)
             | String "+"%char r0 => (1, r0)
             | _ => (1, String c r)
             end in
           match parse_digits s2 None with
           | Some v => round_to_double (sign * v)
           | None => NaN
           end)
          = match parse_digits (String c r) None with
            | Some v => round_to_double (1 * v)
            | None => NaN
            end) as ->.
  { destruct c as [[] [] [] [] [] [] [] []]; try reflexivity; congruence. }
  cbn [parse_digits]. now rewrite Hd.
Qed.

(** *** The UTF-8 encoder *)

Lemma lor_bound (a b : Z) : 0 <= a -> 0 <= b -> 0 <= Z.lor a b <= a + b.
Proof.
  intros Ha Hb. split; [now apply Z.lor_nonneg |].
  pose proof (Z.add_lor_land a b) as E.
  assert (0 <= Z.land a b) by (apply Z.land_nonneg; auto). lia.
Qed.

Lemma land_63 (a : Z) : 0 <= Z.land a 63 < 64.
Proof.
  change 63 with (Z.ones 6). rewrite Z.land_ones by lia.
  apply Z.mod_pos_bound. reflexivity.
Qed.

Lemma continuation_byte (a : Z) : byte (Z.lor 128 (Z.land a 63)).
Proof.
  pose proof (land_63 a). pose proof (lor_bound 128 (Z.land a 63)).
  unfold byte. lia.
Qed.

Lemma shiftr_bound (c n k : Z) :
  0 <= n -> 0 <= c < k * 2 ^ n -> 0 <= Z.shiftr c n < k.
Proof.
  intros Hn Hc. rewrite Z.shiftr_div_pow2 by assumption.
  assert (0 < 2 ^ n) by (apply Z.pow_pos_nonneg; lia).
  split; [apply Z.div_pos; lia | apply Z.div_lt_upper_bound; lia].
Qed.

Lemma utf8_3_bytes (c : Z) : code_unit c -> Forall byte (utf8_3 c).
Proof.
  intros Hc. unfold code_unit in Hc. unfold utf8_3.
  pose proof (shiftr_bound c 12 16). pose proof (lor_bound 224 (Z.shiftr c 12)).
  repeat constructor; try apply continuation_byte; unfold byte; lia.
Qed.

Lemma utf8_4_bytes (c : Z) : 0 <= c < 0x110000 -> Forall byte (utf8_4 c).
Proof.
  intros Hc. unfold utf8_4.
  pose proof (shiftr_bound c 18 5). pose proof (lor_bound 240 (Z.shiftr c 18)).
  repeat constructor; try apply continuation_byte; unfold byte; lia.
Qed.

Lemma surrogate_pair_code_point (c d : Z) :
  is_high_surrogate c = true -> is_low_surrogate d = true ->
  0 <= 0x10000 + Z.shiftl (c - 0xD800) 10 + (d - 0xDC00) < 0x110000.
Proof.
  unfold is_high_surrogate, is_low_surrogate.
  rewrite !andb_true_iff, !Z.leb_le. intros (H1 & H2) (H3 & H4).
  rewrite Z.shiftl_mul_pow2 by lia. change (2 ^ 10) with 1024. lia.
Qed.

Lemma encode_bounds_upto (n : nat) (s : utf16) :
  (List.length s <= n)%nat ->
  Forall code_unit s ->
  Forall byte (TextEncoder_encode s)
  /\ (List.length s <= List.length (TextEncoder_encode s)
      <= 3 * List.length s)%nat.
Proof.
  revert s. induction n as [| n IH]; intros s Hn Hs.
  - destruct s; [cbn; auto | cbn in Hn; lia].
  - destruct s as [| c r]; [cbn; auto |].
    inversion Hs as [| ? ? Hc Hr]; subst. cbn [List.length] in Hn.
    destruct (IH r ltac:(lia) Hr) as (Hbr & Hlr).
    cbn [TextEncoder_encode].
    destruct (Z.ltb_spec c 128).
    { unfold code_unit in Hc. split;
        [constructor; [unfold byte; lia | assumption] | cbn [List.length]; lia]. }
    destruct (Z.ltb_spec c 2048).
    { pose proof (shiftr_bound c 6 32). pose proof (lor_bound 192 (Z.shiftr c 6)).
      unfold code_unit in Hc. split.
      - constructor; [unfold byte; lia |].
        constructor; [apply continuation_byte | assumption].
      - cbn [List.length]. lia. }
    destruct (is_high_surrogate c) eqn:Hhigh.
    { destruct r as [| d r']; [cbn; split; [repeat constructor; unfold byte; lia | lia] |].
      destruct (is_low_surrogate d) eqn:Hlow.
      - inversion Hr as [| ? ? Hd Hr']; subst. cbn [List.length] in Hn.
        destruct (IH r' ltac:(lia) Hr') as (Hb' & Hl').
        split.
        + apply Forall_app. split; [| assumption].
          apply utf8_4_bytes. now apply surrogate_pair_code_point.
        + rewrite length_app. cbn [List.length utf8_4]. lia.
      - split.
        + apply Forall_app. split; [| assumption].
          repeat constructor; unfold byte; lia.
        + rewrite length_app. cbn [List.length replacement] in Hlr |- *. lia. }
    destruct (is_low_surrogate c).
    { split.
      - apply Forall_app. split; [| assumption].
        repeat constructor; unfold byte; lia.
      - rewrite length_app. cbn [List.length replacement]. lia. }
    split.
    + apply Forall_app. split; [now apply utf8_3_bytes | assumption].
    + rewrite length_app. cbn [List.length utf8_3]. lia.
Qed.

End JsTextFacts.

(* ===================================================================== *)
(** ** Properties of the error reports *)
(* ===================================================================== *)

Module ErrorReportsFacts.
Import Js JsText Errors Client ErrorReports.


(** X1. An error that is no [SlackApiError] is retryable exactly when its
    message holds [network], [timeout] or [ECONNRESET] somewhere, in this
    very spelling. *)
Theorem isRetryableError_plain (n m : string) :
  isRetryableError (PlainError n m) = true
  <-> exists a w b,
        In w ["network"; "timeout"; "ECONNRESET"] /\ m = a ++ w ++ b.
Proof.
  cbn [isRetryableError].
  rewrite !orb_true_iff, !JsTextFacts.includes_spec. split.
  - intros [[(a & b & ->) | (a & b & ->)] | (a & b & ->)];
      eexists a, _, b; (split; [| reflexivity]); cbn; auto.
  - intros (a & w & b & Hw & ->). cbn in Hw.
    destruct Hw as [<- | [<- | [<- | []]]]; eauto.
Qed.

Lemma isRetryableError_plain_witness :
  isRetryableError (PlainError "TypeError" "Request timeout after 30s") = true.
Proof.
  apply (proj2 (isRetryableError_plain "TypeError" "Request timeout after 30s")).
  exists "Request ", "timeout", " after 30s". cbn. auto.
Defined.

(** X2. Among the errors that [mapSlackError] builds, the retryable ones
    are those of the code [ratelimited], whatever the message. *)
Theorem isRetryableError_mapSlackError (errorCode : string)
    (message : option string) :
  isRetryableError (SlackError (mapSlackError errorCode message)) = true
  <-> errorCode = "ratelimited".
Proof.
  cbn [isRetryableError]. unfold mapSlackError.
  destruct (case_of auth_codes errorCode) eqn:Ea.
  { split; [discriminate | intros ->; discriminate Ea]. }
  destruct (case_of permission_codes errorCode) eqn:Ep.
  { split; [discriminate | intros ->; discriminate Ep]. }
  destruct (case_of not_found_codes errorCode) eqn:En.
  { split; [discriminate | intros ->; discriminate En]. }
  destruct (String.eqb_spec errorCode "ratelimited") as [-> | Hne].
  - split; reflexivity.
  - split; [discriminate | contradiction].
Qed.

Lemma isRetryableError_mapSlackError_witness :
  isRetryableError (SlackError (mapSlackError "ratelimited" (Some "slow down")))
  = true.
Proof.
  exact (proj2 (isRetryableError_mapSlackError "ratelimited" (Some "slow down"))
           eq_refl).
Defined.

End ErrorReportsFacts.

(* ===================================================================== *)
(** ** More properties of the client *)
(* ===================================================================== *)

Module ClientMoreFacts.
Import Js JsText Errors Pagination Client.

Lemma or_string_nonempty (a : option string) (c : ascii) (d : string) :
  or_string a (String c d) <> EmptyString.
Proof.
  destruct a as [[| c' s] |]; cbn; discriminate.
Qed.

Lemma append_nonempty (c : ascii) (a b : string) :
  String c a ++ b <> EmptyString.
Proof. discriminate. Qed.

(** The shape of a [SlackApiError] as its constructors leave it. *)
Lemma mapSlackError_shape (errorCode : string) (message : option string) :
  let e := mapSlackError errorCode message in
  (class e = RateLimitErrorClass <-> retryable e = true)
  /\ (retryable e = true <-> statusCode e = Some 429)
  /\ (retryable e = true <-> retryAfterSeconds e <> None)
  /\ Errors.message e <> EmptyString
  /\ code e <> EmptyString
  /\ name e = match class e with
              | SlackApiErrorClass => "SlackApiError"
              | RateLimitErrorClass => "RateLimitError"
              | AuthenticationErrorClass => "AuthenticationError"
              | NotFoundErrorClass => "NotFoundError"
              | PermissionErrorClass => "PermissionError"
              end.
Proof.
  cbv zeta. unfold mapSlackError.
  destruct (case_of auth_codes errorCode);
    [| destruct (case_of permission_codes errorCode);
       [| destruct (case_of not_found_codes errorCode);
          [| destruct (errorCode =? "ratelimited")%string]]];
    cbn [new_AuthenticationError new_PermissionError new_NotFoundError
         new_RateLimitError new_SlackApiError subclass class retryable
         statusCode retryAfterSeconds Errors.message code name nullish];
    repeat split; try discriminate; try congruence;
    try apply or_string_nonempty; try (intros _; discriminate).
Qed.


Lemma In_requests_request {T : Type} `{Extends T}
    (credentials : TenantCredentials) (method : string)
    (params : list (string * jsval)) (net : Net T) (req : HttpRequest) :
  In req (requests (request credentials method params net)) ->
  exists auth,
    getAuthHeaders credentials = Ok auth
    /\ req = {| url := SLACK_API_BASE_URL ++ "/" ++ method;
                method := "POST";
                headers := auth;
                body := body_of_json (JSON_stringify (JObj params)) |}.
Proof.
  destruct (ClientFacts.getAuthHeaders_cases credentials)
    as [(auth & Ha) | (e & He)].
  - rewrite (ClientFacts.request_with_credentials _ _ _ _ _ Ha).
    cbn. intros [<- | []]. eauto.
  - rewrite (ClientFacts.request_no_credentials _ _ _ _ _ He).
    intros [].
Qed.

Lemma request_throws_shaped {T : Type} `{Extends T}
    (credentials : TenantCredentials) (method : string)
    (params : list (string * jsval)) (net : Net T) (e : SlackApiError) :
  outcome (request credentials method params net) = Throw (SlackError e) ->
  (class e = RateLimitErrorClass <-> retryable e = true)
  /\ (retryable e = true <-> statusCode e = Some 429)
  /\ (retryable e = true <-> retryAfterSeconds e <> None)
  /\ Errors.message e <> EmptyString
  /\ code e <> EmptyString
  /\ name e = match class e with
              | SlackApiErrorClass => "SlackApiError"
              | RateLimitErrorClass => "RateLimitError"
              | AuthenticationErrorClass => "AuthenticationError"
              | NotFoundErrorClass => "NotFoundError"
              | PermissionErrorClass => "PermissionError"
              end.
Proof.
  destruct (ClientFacts.getAuthHeaders_cases credentials)
    as [(auth & Ha) | (e' & He)].
  - rewrite (ClientFacts.request_with_credentials _ _ _ _ _ Ha).
    cbn [outcome snd].
    match goal with |- context [net ?r] => destruct (net r) as [n m | response] end;
      [discriminate |].
    destruct (status response =? 429).
    + intros [= <-]. repeat split; try discriminate; try congruence.
    + destruct (json response) as [data | m]; [| discriminate].
      destruct (negb (ok (envelope data))); [| discriminate].
      intros [= <-]. apply mapSlackError_shape.
  - rewrite (ClientFacts.request_no_credentials _ _ _ _ _ He).
    cbn [outcome snd]. intros [= ->].
    unfold getAuthHeaders in He.
    destruct (negb _) in He; [| discriminate].
    injection He as <-. repeat split; try discriminate; try congruence.
    intro Habs. now elim Habs.
Qed.

(** X3. Every [SlackApiError] that the dispatcher throws, whether for
    missing credentials, a 429 or an error envelope, has the shape its
    class promises: it is retryable exactly when it is a
    [RateLimitError], exactly when its status is 429 and exactly when it
    carries [retryAfterSeconds]; its message and its code are not empty;
    its name is that of its class. *)
Theorem thrown_SlackApiError_shape {T : Type} `{Extends T}
    (credentials : TenantCredentials) (method : string)
    (params : list (string * jsval)) (net : Net T) (e : SlackApiError) :
  outcome (request credentials method params net) = Throw (SlackError e) ->
  (class e = RateLimitErrorClass <-> retryable e = true)
  /\ (retryable e = true <-> statusCode e = Some 429)
  /\ (retryable e = true <-> retryAfterSeconds e <> None)
  /\ Errors.message e <> EmptyString
  /\ code e <> EmptyString
  /\ name e = match class e with
              | SlackApiErrorClass => "SlackApiError"
              | RateLimitErrorClass => "RateLimitError"
              | AuthenticationErrorClass => "AuthenticationError"
              | NotFoundErrorClass => "NotFoundError"
              | PermissionErrorClass => "PermissionError"
              end.
Proof. apply request_throws_shaped. Qed.

Lemma thrown_SlackApiError_shape_witness :
  exists e,
    outcome (request Fixtures.tenant "users.list" []
               (@Fixtures.rate_limited SlackApiResponse))
    = Throw (SlackError e)
    /\ (retryable e = true <-> statusCode e = Some 429)
    /\ Errors.message e <> EmptyString.
Proof.
  eexists. split; [reflexivity |].
  destruct (thrown_SlackApiError_shape Fixtures.tenant "users.list" []
              (@Fixtures.rate_limited SlackApiResponse) _ eq_refl)
    as (_ & Hstatus & _ & Hmessage & _).
  split; assumption.
Defined.

(** X4. When the remote answers with an envelope whose [ok] is false, the
    message of the error thrown is the remote error code itself, unless
    the code is one of the not-found codes; and when the envelope brings
    no code, or an empty one, the error is the plain [SlackApiError] of
    code [unknown_error] with the message
    [Slack API error: unknown_error]. *)
Theorem error_envelope_message {T : Type} `{Extends T}
    (credentials : TenantCredentials) (method : string)
    (params : list (string * jsval)) (net : Net T)
    (req : HttpRequest) (response : HttpResponse T) (data : T) :
  In req (requests (request credentials method params net)) ->
  net req = Responded response ->
  status response <> 429 ->
  json response = JsonValue data ->
  ok (envelope data) = false ->
  (truthy_opt_string (error (envelope data)) = false ->
   outcome (request credentials method params net)
   = Throw (SlackError
              (new_SlackApiError "Slack API error: unknown_error"
                 (Some "unknown_error") None None)))
  /\ (forall c s,
        error (envelope data) = Some (String c s) ->
        ~ In (String c s) not_found_codes ->
        exists e,
          outcome (request credentials method params net)
          = Throw (SlackError e)
          /\ Errors.message e = String c s).
Proof.
  intros Hin Hnet Hstatus Hjson Hok.
  destruct (ClientFacts.request_failures credentials method params net)
    as (_ & _ & _ & _ & _ & Henv & _).
  specialize (Henv req response data Hin Hnet Hstatus Hjson Hok).
  rewrite Henv. split.
  - intro Hfalsy.
    destruct (error (envelope data)) as [[| c s] |]; try discriminate Hfalsy;
      reflexivity.
  - intros c s -> Hnot. eexists. split; [reflexivity |].
    apply (ErrorsFacts.case_of_false not_found_codes) in Hnot.
    cbn [or_string truthy_string]. unfold mapSlackError. rewrite Hnot.
    destruct (case_of auth_codes (String c s));
      [reflexivity | destruct (case_of permission_codes (String c s))];
      [reflexivity | destruct (String c s =? "ratelimited")%string];
      reflexivity.
Qed.

Lemma error_envelope_message_witness :
  outcome (request Fixtures.tenant "users.list" []
             (Fixtures.answers {| ok := false; error := None;
                                  warning := None;
                                  response_metadata := None |}))
  = Throw (SlackError
             (new_SlackApiError "Slack API error: unknown_error"
                (Some "unknown_error") None None))
  /\ exists e,
       outcome (request Fixtures.tenant "users.list" []
                  (Fixtures.answers {| ok := false;
                                       error := Some "invalid_auth";
                                       warning := None;
                                       response_metadata := None |}))
       = Throw (SlackError e)
       /\ Errors.message e = "invalid_auth".
Proof.
  split.
  - refine (proj1 (error_envelope_message Fixtures.tenant "users.list" []
                     (Fixtures.answers {| ok := false; error := None;
                                          warning := None;
                                          response_metadata := None |})
                     _ _ _ (or_introl eq_refl) eq_refl _ eq_refl eq_refl)
              eq_refl).
    cbn. discriminate.
  - refine (proj2 (error_envelope_message Fixtures.tenant "users.list" []
                     (Fixtures.answers {| ok := false;
                                          error := Some "invalid_auth";
                                          warning := None;
                                          response_metadata := None |})
                     _ _ _ (or_introl eq_refl) eq_refl _ eq_refl eq_refl)
              _ _ eq_refl _).
    + cbn. discriminate.
    + cbn. intro Hin.
      repeat (destruct Hin as [Hin | Hin]; [discriminate Hin |]).
      contradiction.
Defined.

(** X5. The [Retry-After] header is read with [parseInt] and nothing
    else: when its value starts with a character that is neither white
    space, a sign nor a digit (an HTTP date, say), [retryAfterSeconds] is
    [NaN], not the default; the default 60 is taken for an absent header
    and for an empty one. *)
Theorem retry_after_not_a_number {T : Type} `{Extends T}
    (credentials : TenantCredentials) (method : string)
    (params : list (string * jsval)) (net : Net T)
    (req : HttpRequest) (response : HttpResponse T) :
  In req (requests (request credentials method params net)) ->
  net req = Responded response ->
  status response = 429 ->
  (forall c r,
     headers_get response "Retry-After" = Some (String c r) ->
     is_white_space c = false -> digit_of c = None ->
     c <> "-"%char -> c <> "+"%char ->
     outcome (request credentials method params net)
     = Throw (SlackError (new_RateLimitError "Rate limit exceeded" NaN)))
  /\ (headers_get response "Retry-After" = None
      \/ headers_get response "Retry-After" = Some EmptyString ->
      outcome (request credentials method params net)
      = Throw (SlackError (new_RateLimitError "Rate limit exceeded" (Num 60)))).
Proof.
  intros Hin Hnet Hstatus.
  destruct (In_requests_request _ _ _ _ _ Hin) as (auth & Ha & ->).
  rewrite (ClientFacts.request_with_credentials _ _ _ _ _ Ha).
  cbn [outcome snd]. rewrite Hnet, Hstatus. cbn [Z.eqb Pos.eqb]. split.
  - intros c r -> Hw Hd Hm Hp. cbn [truthy_string].
    now rewrite JsTextFacts.parseInt_not_a_number.
  - intros [-> | ->]; reflexivity.
Qed.

Lemma retry_after_not_a_number_witness :
  outcome (request Fixtures.tenant "users.list" []
             (fun _ : HttpRequest =>
                @Responded SlackApiResponse
                  {| status := 429;
                     headers_get := fun _ => Some "Wed, 21 Oct 2015 07:28:00 GMT";
                     json := JsonSyntaxError "not JSON" |}))
  = Throw (SlackError (new_RateLimitError "Rate limit exceeded" NaN)).
Proof.
  refine (proj1 (retry_after_not_a_number Fixtures.tenant "users.list" []
                   (fun _ : HttpRequest =>
                      @Responded SlackApiResponse
                        {| status := 429;
                           headers_get :=
                             fun _ => Some "Wed, 21 Oct 2015 07:28:00 GMT";
                           json := JsonSyntaxError "not JSON" |})
                   _ _ (or_introl eq_refl) eq_refl eq_refl)
            "W"%char _ eq_refl eq_refl eq_refl _ _); discriminate.
Defined.




Lemma requests_bind_head {A B : Type} (m : M A) (k : A -> M B)
    (req : HttpRequest) (rest : list HttpRequest) :
  requests m = req :: rest -> hd_error (requests (bind m k)) = Some req.
Proof.
  destruct m as [log [a | e]]; cbn; intros ->; [| reflexivity].
  now destruct (k a).
Qed.

(** X7. The length that an upload declares is the number of bytes of the
    UTF-8 form of the content: every one of these is a byte, and their
    number lies between the number of UTF-16 code units of the content
    and three times that number. *)
Theorem uploadFile_declared_length (c : TenantCredentials)
    (channels : string) (content : utf16) (filename : string)
    (title initialComment threadTs : option string)
    (net1 : Net GetUploadUrlResponse) (net2 : Net unit)
    (net3 : Net CompleteUploadResponse) (auth : list (string * string)) :
  Forall code_unit content ->
  getAuthHeaders c = Ok auth ->
  exists n : nat,
    hd_error (map body
                (requests (uploadFile c channels content filename title
                             initialComment threadTs net1 net2 net3)))
    = Some (body_of_json
              (JSON_stringify
                 (JObj [("filename", JStr filename);
                        ("length", JNum (Num (Z.of_nat n)))])))
    /\ n = List.length (TextEncoder_encode content)
    /\ Forall byte (TextEncoder_encode content)
    /\ (List.length content <= n <= 3 * List.length content)%nat.
Proof.
  intros Hcontent Ha.
  destruct (JsTextFacts.encode_bounds_upto _ content (le_n _) Hcontent)
    as (Hbytes & Hlen).
  exists (List.length (TextEncoder_encode content)).
  split; [| auto].
  pose proof (ClientFacts.request_with_credentials c
                "files.getUploadURLExternal"
                [("filename", JStr filename);
                 ("length",
                  JNum (Num (Z.of_nat
                               (List.length (TextEncoder_encode content)))))]
                net1 auth Ha) as E1.
  cbv zeta in E1. apply (f_equal fst) in E1. cbn [fst] in E1.
  unfold uploadFile.
  match goal with
  | |- hd_error (map body (requests (bind ?m1 ?k1))) = _ =>
      pose proof (requests_bind_head m1 k1 _ _ E1) as Hhd;
      destruct (requests (bind m1 k1)) as [| r0 rs]; [discriminate Hhd |];
      cbn [hd_error] in Hhd; injection Hhd as ->
  end.
  reflexivity.
Qed.

Lemma uploadFile_declared_length_witness :
  exists n : nat,
    hd_error (map body
                (requests (uploadFile Fixtures.tenant "C1" Fixtures.ten_bytes
                             "notes.txt" None None None
                             (Fixtures.answers Fixtures.upload_slot)
                             (Fixtures.answers tt)
                             (Fixtures.answers
                                Fixtures.upload_completed_without_files))))
    = Some (body_of_json
              (JSON_stringify
                 (JObj [("filename", JStr "notes.txt");
                        ("length", JNum (Num (Z.of_nat n)))])))
    /\ (10 <= n <= 30)%nat.
Proof.
  destruct (uploadFile_declared_length Fixtures.tenant "C1" Fixtures.ten_bytes
              "notes.txt" None None None
              (Fixtures.answers Fixtures.upload_slot)
              (Fixtures.answers tt)
              (Fixtures.answers Fixtures.upload_completed_without_files)
              _ ltac:(repeat constructor; unfold code_unit; lia) eq_refl)
    as (n & Hbody & _ & _ & Hlen).
  exists n. split; [exact Hbody | exact Hlen].
Defined.

End ClientMoreFacts.

(* ===================================================================== *)
(** ** Properties of [normalizePaginationParams] *)
(* ===================================================================== *)

Module PaginationUtilsFacts.
Import Js JsText PaginationUtils.

(** X8. Against a numeric [maxLimit], the normalized limit is a number
    that never exceeds [maxLimit]: it is the smaller of the requested
    limit and [maxLimit] when a limit other than 0 was requested, and the
    smaller of 20 and [maxLimit] when the limit is absent, 0 or [NaN]; no
    lower bound is enforced (a requested [-Infinity] stays [-Infinity],
    the one limit that is no integer).  The cursor is passed through, and
    an absent [maxLimit] counts as 100. *)
Theorem normalizePaginationParams_limit
    (params : option Pagination.PaginationParams) (maxLimit : Z) :
  let n := normalizePaginationParams params (Some (Num maxLimit)) in
  let requested := match params with
                   | Some p => Pagination.limit p
                   | None => None
                   end in
  ((exists l, limit n = Num l /\ l <= maxLimit)
   \/ (requested = Some NegInfinity /\ limit n = NegInfinity))
  /\ (forall r, requested = Some (Num r) -> r <> 0 ->
               limit n = Num (Z.min r maxLimit))
  /\ (requested = Some Infinity -> limit n = Num maxLimit)
  /\ (requested = None \/ requested = Some (Num 0) \/ requested = Some NaN ->
      limit n = Num (Z.min 20 maxLimit))
  /\ cursor n = match params with
                | Some p => Pagination.cursor p
                | None => None
                end
  /\ normalizePaginationParams params None
     = normalizePaginationParams params (Some (Num 100)).
Proof.
  cbv zeta. unfold normalizePaginationParams. cbn [limit cursor nullish].
  set (requested := match params with
                    | Some p => Pagination.limit p
                    | None => None
                    end).
  split; [| repeat split].
  - destruct requested as [[| r | |] |]; cbn;
      try (left; eexists; split; [reflexivity | lia]);
      [| right; split; reflexivity].
    destruct (r =? 0); cbn; left; eexists; (split; [reflexivity | lia]).
  - intros r -> Hr. cbn. destruct (Z.eqb_spec r 0); [contradiction | reflexivity].
  - intros ->. reflexivity.
  - intros [-> | [-> | ->]]; reflexivity.
Qed.

Lemma normalizePaginationParams_limit_witness :
  limit (normalizePaginationParams
           (Some {| Pagination.limit := Some (Num 500);
                    Pagination.cursor := None |})
           (Some (Num 100)))
  = Num 100.
Proof.
  apply (proj1 (proj2 (normalizePaginationParams_limit
                         (Some {| Pagination.limit := Some (Num 500);
                                  Pagination.cursor := None |}) 100))
           500 eq_refl).
  discriminate.
Defined.

(** X9. Normalizing is idempotent: parameters that were normalized
    against [maxLimit] are left as they are when normalized against it
    again. *)
Theorem normalizePaginationParams_idempotent
    (params : option Pagination.PaginationParams) (maxLimit : option number) :
  normalizePaginationParams
    (Some (as_params (normalizePaginationParams params maxLimit))) maxLimit
  = normalizePaginationParams params maxLimit.
Proof.
  unfold normalizePaginationParams, as_params.
  cbn [limit cursor Pagination.limit Pagination.cursor].
  f_equal.
  assert (Hfirst : truthy_number
                     (or_number match params with
                                | Some p => Pagination.limit p
                                | None => None
                                end default_limit) = true).
  { destruct params as [[[[| r | |] |] cur] |]; cbn; try reflexivity.
    destruct (r =? 0) eqn:E; cbn; [reflexivity | now rewrite E]. }
  revert Hfirst.
  generalize (or_number match params with
                        | Some p => Pagination.limit p
                        | None => None
                        end default_limit) as first.
  intros first Hfirst.
  destruct (nullish maxLimit default_maxLimit) as [| m | |],
           first as [| f | |];
    cbn in Hfirst |- *; try reflexivity; try discriminate Hfirst;
    try (apply negb_true_iff, Z.eqb_neq in Hfirst);
    repeat match goal with
           | |- context [?a =? 0] => destruct (Z.eqb_spec a 0)
           end;
    cbn; try reflexivity; try contradiction; f_equal; lia.
Qed.

End PaginationUtilsFacts.

(* ===================================================================== *)
(** ** Properties of the credentials and of the environment values *)
(* ===================================================================== *)

Module EnvFacts.
Import Js JsText Errors Client Env.

(** X10. [getEnvNumber] never yields [NaN] from a numeric default: a
    variable that holds the decimal form of an integer yields the double
    nearest to that integer, which is the integer itself up to 2^53 in
    magnitude (zero included); one whose text is empty or starts with no
    number yields the default, and so does a key that is bound to no
    string. *)
Theorem getEnvNumber_reads_integers (env : Env.Env) (key : EnvKey)
    (defaultValue : Z) :
  getEnvNumber env key (Num defaultValue) <> NaN
  /\ (forall z, env_get env key = EnvString (string_of_Z z) ->
                getEnvNumber env key (Num defaultValue) = round_to_double z)
  /\ (forall z, - 2 ^ 53 <= z <= 2 ^ 53 ->
                env_get env key = EnvString (string_of_Z z) ->
                getEnvNumber env key (Num defaultValue) = Num z)
  /\ (env_get env key = EnvString EmptyString ->
      getEnvNumber env key (Num defaultValue) = Num defaultValue)
  /\ (forall c r, env_get env key = EnvString (String c r) ->
                  is_white_space c = false -> digit_of c = None ->
                  c <> "-"%char -> c <> "+"%char ->
                  getEnvNumber env key (Num defaultValue) = Num defaultValue)
  /\ (key = key_CACHE_KV \/ key = key_MCP_SESSIONS ->
      getEnvNumber env key (Num defaultValue) = Num defaultValue).
Proof.
  assert (Hread : forall z,
             env_get env key = EnvString (string_of_Z z) ->
             getEnvNumber env key (Num defaultValue) = round_to_double z).
  { intros z Hz. unfold getEnvNumber.
    rewrite Hz, JsFacts.parseInt_string_of_Z.
    pose proof (JsFacts.round_to_double_not_NaN z) as Hn.
    now destruct (round_to_double z). }
  split; [| split; [exact Hread | split]].
  - unfold getEnvNumber.
    destruct (env_get env key) as [s | b |]; try discriminate.
    destruct (parseInt s); cbn; discriminate.
  - intros z Hz Hget.
    now rewrite (Hread z Hget), JsFacts.round_to_double_exact.
  - unfold getEnvNumber. repeat split.
    + intros ->. reflexivity.
    + intros c r -> Hw Hd Hm Hp.
      now rewrite JsTextFacts.parseInt_not_a_number.
    + intros [-> | ->]; cbn.
      * now destruct (CACHE_KV env).
      * now destruct (MCP_SESSIONS env).
Qed.

Lemma getEnvNumber_reads_integers_witness :
  getMaxPageSize {| CHARACTER_LIMIT := "50000"; DEFAULT_PAGE_SIZE := "abc";
                    MAX_PAGE_SIZE := "250"; CACHE_KV := None;
                    MCP_SESSIONS := None |} = Num 250
  /\ getDefaultPageSize {| CHARACTER_LIMIT := "50000";
                           DEFAULT_PAGE_SIZE := "abc";
                           MAX_PAGE_SIZE := "250"; CACHE_KV := None;
                           MCP_SESSIONS := None |} = Num 20
  /\ getCharacterLimit {| CHARACTER_LIMIT := "9007199254740993";
                          DEFAULT_PAGE_SIZE := "20";
                          MAX_PAGE_SIZE := "100"; CACHE_KV := None;
                          MCP_SESSIONS := None |} = Num 9007199254740992.
Proof.
  split; [| split].
  - refine (proj1 (proj2 (proj2 (getEnvNumber_reads_integers
                            {| CHARACTER_LIMIT := "50000";
                               DEFAULT_PAGE_SIZE := "abc";
                               MAX_PAGE_SIZE := "250"; CACHE_KV := None;
                               MCP_SESSIONS := None |}
                            key_MAX_PAGE_SIZE 100))) 250 _ eq_refl).
    vm_compute. split; discriminate.
  - refine (proj1 (proj2 (proj2 (proj2 (proj2
              (getEnvNumber_reads_integers
                 {| CHARACTER_LIMIT := "50000"; DEFAULT_PAGE_SIZE := "abc";
                    MAX_PAGE_SIZE := "250"; CACHE_KV := None;
                    MCP_SESSIONS := None |}
                 key_DEFAULT_PAGE_SIZE 20)))))
              "a"%char "bc" eq_refl eq_refl eq_refl _ _); discriminate.
  - exact (proj1 (proj2 (getEnvNumber_reads_integers
                           {| CHARACTER_LIMIT := "9007199254740993";
                              DEFAULT_PAGE_SIZE := "20";
                              MAX_PAGE_SIZE := "100"; CACHE_KV := None;
                              MCP_SESSIONS := None |}
                           key_CHARACTER_LIMIT 50000))
             9007199254740993 eq_refl).
Defined.

Lemma truthy_or_opt_string_None (a : option string) :
  truthy_opt_string (or_opt_string a None) = truthy_opt_string a.
Proof. unfold or_opt_string. now destruct (truthy_opt_string a) eqn:E. Qed.

(** X11. The two gates agree, and parsing never keeps an empty token:
    [validateCredentials] accepts credentials exactly when
    [getAuthHeaders] resolves a header for them; the credentials parsed
    from the request headers hold no empty token, and are accepted
    exactly when one of the two headers is present and not empty. *)
Theorem credential_gates_agree :
  (forall c : TenantCredentials,
     validateCredentials c = Ok tt
     <-> exists auth, getAuthHeaders c = Ok auth)
  /\ (forall headers_get : string -> option string,
        let c := parseTenantCredentials headers_get in
        botToken c <> Some EmptyString
        /\ userToken c <> Some EmptyString
        /\ (validateCredentials c = Ok tt
            <-> truthy_opt_string (headers_get "X-Slack-Bot-Token") = true
                \/ truthy_opt_string (headers_get "X-Slack-User-Token")
                   = true)).
Proof.
  split.
  - intros [bot usr]. unfold validateCredentials, getAuthHeaders, or_opt_string.
    cbn [botToken userToken].
    destruct (truthy_opt_string bot) eqn:Eb; cbn.
    + rewrite Eb. cbn. split; [eauto | reflexivity].
    + destruct (truthy_opt_string usr) eqn:Eu; cbn.
      * split; [eauto | reflexivity].
      * split; [discriminate | intros (auth & Ha); discriminate Ha].
  - intros hg. cbv zeta. unfold parseTenantCredentials.
    cbn [botToken userToken]. repeat split.
    + unfold or_opt_string.
      destruct (hg "X-Slack-Bot-Token") as [[| ? ?] |]; cbn; discriminate.
    + unfold or_opt_string.
      destruct (hg "X-Slack-User-Token") as [[| ? ?] |]; cbn; discriminate.
    + unfold validateCredentials. cbn [botToken userToken].
      rewrite !truthy_or_opt_string_None.
      destruct (truthy_opt_string (hg "X-Slack-Bot-Token"));
        destruct (truthy_opt_string (hg "X-Slack-User-Token"));
        cbn; auto; discriminate.
    + unfold validateCredentials. cbn [botToken userToken].
      rewrite !truthy_or_opt_string_None.
      destruct (truthy_opt_string (hg "X-Slack-Bot-Token"));
        destruct (truthy_opt_string (hg "X-Slack-User-Token"));
        cbn; try reflexivity; intros [H | H]; discriminate H.
Qed.

Lemma credential_gates_agree_witness :
  validateCredentials
    (parseTenantCredentials
       (fun h => if String.eqb h "X-Slack-User-Token" then Some "xoxp-test"
                 else Some EmptyString))
  = Ok tt.
Proof.
  apply (proj2 credential_gates_agree
           (fun h => if String.eqb h "X-Slack-User-Token" then Some "xoxp-test"
                     else Some EmptyString)).
  right. reflexivity.
Defined.

End EnvFacts.

(* ===================================================================== *)
(** ** Properties of the worker *)
(* ===================================================================== *)

Module WorkerFacts.
Import Js JsText Errors Client Env Worker.

(** X12. The MCP handler is reached only by a POST to [/mcp] that brings a
    token, with the credentials parsed from the headers of that request;
    for these credentials the client always resolves its [Authorization]
    header, from the bot token header when that is not empty and from the
    user token header otherwise. *)
Theorem fetch_delegates_with_a_token (request : Request)
    (credentials : TenantCredentials) :
  fetch request = Delegated credentials ->
  pathname request = "/mcp"
  /\ method request = "POST"
  /\ credentials = parseTenantCredentials (headers_get request)
  /\ exists c t,
       or_opt_string (headers_get request "X-Slack-Bot-Token")
         (headers_get request "X-Slack-User-Token") = Some (String c t)
       /\ getAuthHeaders credentials
          = Ok [("Authorization", "Bearer " ++ String c t);
                ("Content-Type", "application/json; charset=utf-8")].
Proof.
  unfold fetch.
  destruct (String.eqb_spec (pathname request) "/health"); [discriminate |].
  destruct (String.eqb_spec (pathname request) "/mcp") as [Hp | Hp];
    cbn [andb].
  2: { destruct (pathname request =? "/sse")%string; discriminate. }
  destruct (String.eqb_spec (method request) "POST") as [Hm | Hm].
  2: { destruct (pathname request =? "/sse")%string; discriminate. }
  destruct (validateCredentials _) eqn:Ev; [| discriminate].
  intros [= <-]. repeat split; try assumption.
  unfold validateCredentials, parseTenantCredentials in Ev.
  cbn [botToken userToken] in Ev.
  rewrite !EnvFacts.truthy_or_opt_string_None in Ev.
  unfold getAuthHeaders, parseTenantCredentials. cbn [botToken userToken].
  unfold or_opt_string in *.
  destruct (headers_get request "X-Slack-Bot-Token") as [[| cb b] |];
    destruct (headers_get request "X-Slack-User-Token") as [[| cu u] |];
    cbn in Ev |- *; try discriminate Ev; eexists _, _; split; reflexivity.
Qed.

Lemma fetch_delegates_with_a_token_witness :
  getAuthHeaders
    (parseTenantCredentials
       (fun h => if String.eqb h "X-Slack-User-Token" then Some "xoxp-1"
                 else None))
  = Ok [("Authorization", "Bearer xoxp-1");
        ("Content-Type", "application/json; charset=utf-8")].
Proof.
  destruct (fetch_delegates_with_a_token
              {| pathname := "/mcp"; method := "POST";
                 headers_get := fun h =>
                   if String.eqb h "X-Slack-User-Token" then Some "xoxp-1"
                   else None |} _ eq_refl)
    as (_ & _ & _ & c & t & Htoken & Hauth).
  cbn in Htoken. injection Htoken as <- <-. exact Hauth.
Defined.

(** X13. The worker answers 401 exactly when a POST to [/mcp] brings no
    token, and 501 exactly on [/sse]; every other answer of its own has
    status 200.  The health check is served whatever the method and the
    headers are, and a request to [/mcp] by another method than POST is
    served the description of the server, not an error. *)
Theorem fetch_statuses (request : Request) :
  (forall r, fetch request = Replied r ->
     (status r = 200 \/ status r = 401 \/ status r = 501)
     /\ (status r = 401
         <-> pathname request = "/mcp" /\ method request = "POST"
             /\ truthy_opt_string (headers_get request "X-Slack-Bot-Token")
                = false
             /\ truthy_opt_string (headers_get request "X-Slack-User-Token")
                = false)
     /\ (status r = 501 <-> pathname request = "/sse"))
  /\ (pathname request = "/health" ->
      fetch request
      = Replied {| body := JSON_stringify
                             (JObj [("status", JStr "ok");
                                    ("server", JStr SERVER_NAME)]);
                   init_status := None;
                   init_headers := [("Content-Type", "application/json")] |})
  /\ (pathname request = "/mcp" -> method request <> "POST" ->
      fetch request
      = Replied {| body := JSON_stringify api_info;
                   init_status := None;
                   init_headers := [("Content-Type", "application/json")] |}).
Proof.
  split; [| split].
  - intros r. unfold fetch.
    destruct (String.eqb_spec (pathname request) "/health") as [Hh | Hh].
    { intros [= <-]. cbn [status init_status nullish].
      split; [auto |]. split; (split; [discriminate |]).
      - intros (Hp & _). congruence.
      - intros Hp. congruence. }
    destruct (String.eqb_spec (pathname request) "/mcp") as [Hp | Hp];
      cbn [andb].
    + destruct (String.eqb_spec (method request) "POST") as [Hm | Hm].
      * unfold validateCredentials, parseTenantCredentials.
        cbn [botToken userToken].
        rewrite !EnvFacts.truthy_or_opt_string_None.
        destruct (truthy_opt_string (headers_get request "X-Slack-Bot-Token"));
          destruct (truthy_opt_string
                      (headers_get request "X-Slack-User-Token"));
          cbn [negb andb]; try discriminate.
        intros [= <-]. cbn [status init_status nullish].
        split; [auto |]. split; [tauto |].
        split; [discriminate | intros Hs; congruence].
      * rewrite Hp. cbn [String.eqb Ascii.eqb Bool.eqb].
        intros [= <-]. cbn [status init_status nullish].
        split; [auto |]. split; (split; [discriminate |]).
        -- intros (_ & Hpost & _). contradiction.
        -- intros Hs. discriminate Hs.
    + destruct (String.eqb_spec (pathname request) "/sse") as [Hs | Hs];
        intros [= <-]; cbn [status init_status nullish].
      * split; [auto |]. split; [| tauto].
        split; [discriminate | intros (Hmcp & _); contradiction].
      * split; [auto |]. split; (split; [discriminate |]).
        -- intros (Hmcp & _). contradiction.
        -- intros Hsse. contradiction.
  - intros Hh. unfold fetch. now rewrite Hh.
  - intros Hp Hm. unfold fetch. rewrite Hp. cbn [String.eqb Ascii.eqb Bool.eqb].
    destruct (String.eqb_spec (method request) "POST"); [contradiction |].
    reflexivity.
Qed.

Lemma fetch_statuses_witness :
  (exists r,
     fetch {| pathname := "/mcp"; method := "POST";
              headers_get := fun _ => None |} = Replied r
     /\ status r = 401)
  /\ (exists r,
        fetch {| pathname := "/mcp"; method := "GET";
                 headers_get := fun _ => None |} = Replied r
        /\ status r = 200).
Proof.
  split.
  - eexists. split; [reflexivity |].
    refine (proj2 (proj1 (proj2
              (proj1 (fetch_statuses
                        {| pathname := "/mcp"; method := "POST";
                           headers_get := fun _ => None |}) _ eq_refl))) _).
    repeat split.
  - eexists. split.
    + refine (proj2 (proj2 (fetch_statuses
                              {| pathname := "/mcp"; method := "GET";
                                 headers_get := fun _ => None |}))
                eq_refl _).
      discriminate.
    + reflexivity.
Defined.

End WorkerFacts.

(* ===================================================================== *)
(** ** Properties of the error format and of the tool handlers *)
(* ===================================================================== *)

Module ToolsFacts.
Import Js JsText Errors Client ErrorReports Formatters Tools.




(** The handlers are all of one pattern. *)
Lemma handler_reports {A : Type} (stack_of : Exn -> option string)
    (op : M A) (f : A -> ToolResponse) :
  (forall a, isError (f a) = None) ->
  reports stack_of
    (try_catch (a <- op ;; ret (f a))
       (fun error => ret (formatError error (stack_of error))))
    op.
Proof.
  intro Hf. unfold reports. destruct op as [log [a | e]]; cbn.
  - eexists. repeat split; rewrite ?app_nil_r; try reflexivity.
    + rewrite Hf. discriminate.
    + intros (e & He). discriminate He.
    + intros e He. discriminate He.
  - eexists. repeat split; rewrite ?app_nil_r; try reflexivity.
    + eauto.
    + intros e' [= <-]. reflexivity.
Qed.

(** X15. A tool handler never throws: it issues the requests of its
    client operation and always ends in a response, which is the report
    of [formatError] when the operation threw, and which is marked as an
    error in that case only. *)
Theorem tool_handlers_report_failures (c : TenantCredentials)
    (stack_of : Exn -> option string) :
  (forall channel_id user_ids net,
     reports stack_of
       (slack_invite_to_conversation c stack_of channel_id user_ids net)
       (inviteToConversation c channel_id (split_ids user_ids) net))
  /\ (forall name handle description channels net,
        reports stack_of
          (slack_create_usergroup c stack_of name handle description channels
             net)
          (createUserGroup c name handle description
             (option_map split_ids channels) net))
  /\ (forall usergroup_id name handle description channels net,
        reports stack_of
          (slack_update_usergroup c stack_of usergroup_id name handle
             description channels net)
          (updateUserGroup c usergroup_id
             {| ug_name := name; ug_handle := handle;
                ug_description := description;
                ug_channels := option_map split_ids channels |} net))
  /\ (forall usergroup_id user_ids net,
        reports stack_of
          (slack_update_usergroup_members c stack_of usergroup_id user_ids net)
          (updateUserGroupMembers c usergroup_id (split_ids user_ids) net))
  /\ (forall channels content filename title initial_comment thread_ts
             net1 net2 net3,
        reports stack_of
          (slack_upload_file c stack_of channels content filename title
             initial_comment thread_ts net1 net2 net3)
          (uploadFile c channels content filename title initial_comment
             thread_ts net1 net2 net3)).
Proof.
  repeat split; intros; apply handler_reports; reflexivity.
Qed.

Lemma tool_handlers_report_failures_witness :
  exists r,
    outcome (slack_invite_to_conversation Fixtures.tenant (fun _ => None)
               "C1" "U1,U2" Fixtures.rate_limited) = Ok r
    /\ isError r = Some true.
Proof.
  destruct (proj1 (tool_handlers_report_failures Fixtures.tenant
                     (fun _ => None))
              "C1" "U1,U2" Fixtures.rate_limited)
    as (r & Hout & _ & Herror & _).
  exists r. split; [exact Hout |].
  apply Herror. eexists. reflexivity.
Defined.

(** X14. The connection test tool never reports an error: it always ends
    in a response that is not marked as one, having issued the requests of
    the one [auth.test] call; when that call failed, the text is the JSON
    of [{connected: false, message}] with the message of the failure. *)
Theorem slack_test_connection_never_reports_error (c : TenantCredentials)
    (net : Net AuthTestResponse) :
  exists r,
    outcome (slack_test_connection c net) = Ok r
    /\ isError r = None
    /\ requests (slack_test_connection c net)
       = requests (request c "auth.test" [] net)
    /\ (forall e,
          outcome (request c "auth.test" [] net) = Throw e ->
          content r
          = [{| type := "text";
                text := JSON_stringify_2
                          (JObj [("connected", JBool false);
                                 ("message", JStr (exn_message e))]) |}]).
Proof.
  unfold slack_test_connection, testConnection.
  destruct (request c "auth.test" [] net) as [log [data | e]];
    cbn; eexists; repeat split; rewrite ?app_nil_r; try reflexivity.
  - intros e He. discriminate He.
  - intros e' [= <-]. reflexivity.
Qed.

Lemma slack_test_connection_never_reports_error_witness :
  exists r,
    outcome (slack_test_connection Fixtures.tenant Fixtures.rate_limited)
    = Ok r
    /\ isError r = None
    /\ content r
       = [{| type := "text";
             text := JSON_stringify_2
                       (JObj [("connected", JBool false);
                              ("message", JStr "Rate limit exceeded")]) |}].
Proof.
  destruct (slack_test_connection_never_reports_error Fixtures.tenant
              Fixtures.rate_limited)
    as (r & Hout & Herror & _ & Htext).
  exists r. split; [exact Hout |]. split; [exact Herror |].
  exact (Htext _ eq_refl).
Defined.

(** X16. When an upload ends without a file, the upload tool still
    reports success: its response is not marked as an error and its text
    is the JSON of [{success: true, message: 'File uploaded'}], with no
    [file] in it. *)
Theorem slack_upload_file_without_file (c : TenantCredentials)
    (stack_of : Exn -> option string) (channels : string) (content : utf16)
    (filename : string) (title initial_comment thread_ts : option string)
    (net1 : Net GetUploadUrlResponse) (net2 : Net unit)
    (net3 : Net CompleteUploadResponse) :
  outcome (uploadFile c channels content filename title initial_comment
             thread_ts net1 net2 net3) = Ok None ->
  outcome (slack_upload_file c stack_of channels content filename title
             initial_comment thread_ts net1 net2 net3)
  = Ok {| content :=
            [{| type := "text";
                text := JSON_stringify_2
                          (JObj [("success", JBool true);
                                 ("message", JStr "File uploaded")]) |}];
          isError := None |}.
Proof.
  unfold slack_upload_file.
  destruct (uploadFile c channels content filename title initial_comment
              thread_ts net1 net2 net3) as [log [file | e]];
    cbn [outcome snd]; [| discriminate].
  intros [= ->]. reflexivity.
Qed.

Lemma slack_upload_file_without_file_witness :
  outcome (slack_upload_file Fixtures.tenant (fun _ => None) "C1"
             Fixtures.ten_bytes "notes.txt" None None None
             (Fixtures.answers Fixtures.upload_slot)
             (Fixtures.answers tt)
             (Fixtures.answers Fixtures.upload_completed_without_files))
  = Ok {| content :=
            [{| type := "text";
                text := JSON_stringify_2
                          (JObj [("success", JBool true);
                                 ("message", JStr "File uploaded")]) |}];
          isError := None |}.
Proof.
  apply (slack_upload_file_without_file Fixtures.tenant (fun _ => None) "C1"
           Fixtures.ten_bytes "notes.txt" None None None
           (Fixtures.answers Fixtures.upload_slot)
           (Fixtures.answers tt)
           (Fixtures.answers Fixtures.upload_completed_without_files)).
  reflexivity.
Defined.

Lemma split_ids_no_white_space (s : string) :
  no_white_space s -> join "," (split_ids s) = s.
Proof.
  intro Hs. unfold split_ids.
  rewrite (JsTextFacts.map_trim_no_white_space _
             (JsTextFacts.split_no_white_space ","%char s Hs)).
  apply JsTextFacts.join_split.
Qed.

(** X17. A list of identifiers written without white space goes through
    the tool and the client unchanged: the handler splits it at the
    commas and the client joins it again, so that the request is the one
    that carries the text as it was given. *)
Theorem id_list_passes_unchanged (c : TenantCredentials)
    (stack_of : Exn -> option string) (id user_ids : string) :
  no_white_space user_ids ->
  (forall net,
     requests (slack_invite_to_conversation c stack_of id user_ids net)
     = requests (request c "conversations.invite"
                   [("channel", JStr id); ("users", JStr user_ids)] net))
  /\ (forall net,
        requests (slack_update_usergroup_members c stack_of id user_ids net)
        = requests (request c "usergroups.users.update"
                      [("usergroup", JStr id); ("users", JStr user_ids)] net)).
Proof.
  intro Hs. split; intro net.
  - destruct (handler_reports stack_of
                (inviteToConversation c id (split_ids user_ids) net)
                (fun conversation =>
                   {| content :=
                        [{| type := "text";
                            text := JSON_stringify_2
                                      (JObj [("success", JBool true);
                                             ("message", JStr "Users invited");
                                             ("channel", conversation)]) |}];
                      isError := None |}) (fun _ => eq_refl))
      as (r & _ & Hreq & _).
    unfold slack_invite_to_conversation. rewrite Hreq.
    unfold inviteToConversation.
    rewrite ClientFacts.bind_ret_requests, (split_ids_no_white_space _ Hs).
    reflexivity.
  - destruct (handler_reports stack_of
                (updateUserGroupMembers c id (split_ids user_ids) net)
                (fun group =>
                   {| content :=
                        [{| type := "text";
                            text := JSON_stringify_2
                                      (JObj [("success", JBool true);
                                             ("message", JStr "Members updated");
                                             ("usergroup", group)]) |}];
                      isError := None |}) (fun _ => eq_refl))
      as (r & _ & Hreq & _).
    unfold slack_update_usergroup_members. rewrite Hreq.
    unfold updateUserGroupMembers.
    rewrite ClientFacts.bind_ret_requests, (split_ids_no_white_space _ Hs).
    reflexivity.
Qed.

Lemma id_list_passes_unchanged_witness :
  requests (slack_invite_to_conversation Fixtures.tenant (fun _ => None)
              "C1" "U1,U2,U3" Fixtures.rate_limited)
  = requests (request Fixtures.tenant "conversations.invite"
                [("channel", JStr "C1"); ("users", JStr "U1,U2,U3")]
                (@Fixtures.rate_limited ChannelResponse)).
Proof.
  apply (id_list_passes_unchanged Fixtures.tenant (fun _ => None) "C1"
           "U1,U2,U3").
  repeat constructor.
Defined.

(** X19. What is logged for an error of the dispatcher: a [SlackApiError]
    is logged under [name], [message], [code], [statusCode] and
    [retryable], never with its stack, and with [retryAfterSeconds] behind
    them exactly when it is retryable; a retryable one is logged with the
    status 429 and with a number (which may be [NaN]) as its delay. *)
Theorem formatErrorForLogging_of_thrown {T : Type} `{Extends T}
    (credentials : TenantCredentials) (method : string)
    (params : list (string * jsval)) (net : Net T) (e : SlackApiError)
    (stack : option string) :
  outcome (request credentials method params net) = Throw (SlackError e) ->
  let logged := formatErrorForLogging (SlackError e) stack in
  map fst logged
  = (["name"; "message"; "code"; "statusCode"; "retryable"]
     ++ (if retryable e then ["retryAfterSeconds"] else []))%list
  /\ (retryable e = true ->
      In ("statusCode", JNum (Num 429)) logged
      /\ exists n, In ("retryAfterSeconds", JNum n) logged).
Proof.
  intros Hthrow logged. subst logged.
  destruct (ClientMoreFacts.request_throws_shaped _ _ _ _ _ Hthrow)
    as (Hclass & Hstatus & Hafter & _).
  cbn [formatErrorForLogging]. rewrite map_app. cbn [map fst].
  destruct (retryable e) eqn:Er.
  - rewrite (proj2 Hclass eq_refl), (proj1 Hstatus eq_refl).
    split; [reflexivity |]. intros _.
    destruct (retryAfterSeconds e) as [n |] eqn:En;
      [| now elim (proj1 Hafter eq_refl)].
    split; [cbn; auto 10 |]. exists n. cbn. auto 10.
  - split; [| discriminate].
    destruct (class e); try reflexivity.
    specialize (proj1 Hclass eq_refl). discriminate.
Qed.

Lemma formatErrorForLogging_of_thrown_witness :
  map fst (formatErrorForLogging
             (SlackError (new_RateLimitError "Rate limit exceeded" (Num 30)))
             None)
  = ["name"; "message"; "code"; "statusCode"; "retryable";
     "retryAfterSeconds"].
Proof.
  exact (proj1 (formatErrorForLogging_of_thrown Fixtures.tenant "users.list" []
                  (@Fixtures.rate_limited SlackApiResponse) _ None eq_refl)).
Defined.

End ToolsFacts.
